(** * Radarr-Raycast: instance resolution, selection store, API client
      contracts and view-model formatters

    A shallow embedding of the rule-bearing TypeScript of the extension:
    - [config.ts] (the two-slot preference variant and the JSON-array
      variant): [getRadarrInstances], [getDefaultRadarrInstance],
      [validateRadarrInstance];
    - [instance-manager.ts]: [getCurrentInstance], [setCurrentInstance]
      over the host's [LocalStorage];
    - [hooks/useRadarrAPI.ts]: [addMovie], [testConnection];
    - the missing-movies views: [getAvailabilityStatus] (list and grid
      versions);
    - the download-queue view: [formatProgress], [getTimeLeft].

    Conventions.  A JavaScript string is a [string] (a sequence of code
    units below 256).  A [throw] is the [Throw] constructor of [Outcome],
    carrying the [message] of the [Error].  A number that the code
    divides or multiplies is an IEEE 754 double: the exact result, rounded
    to the nearest double ([binary64]).  Host services (JSON, Date,
    URL, fetch, LocalStorage) are not code of the extension: the store is
    a finite map, the others are parameters of the sections that use
    them. *)

From Stdlib Require Import ZArith QArith Qround Qabs Qpower Lqa Ascii String.
From Stdlib Require Import Floats.SpecFloat.
From stdpp Require Import base decidable option list strings numbers gmap pretty.

Local Open Scope Z_scope.

(** ** Outcomes of a call: a value or a thrown [Error] *)

Inductive Outcome (A : Type) : Type :=
  | Return (a : A)
  | Throw (message : string).

Arguments Return {A} a.
Arguments Throw {A} message.

Definition bind {A B} (m : Outcome A) (k : A -> Outcome B) : Outcome B :=
  match m with
  | Return a => k a
  | Throw e => Throw e
  end.

(** [try { body } catch (error) { handler(error.message) }] *)
Definition try_catch {A} (body : Outcome A) (handler : string -> Outcome A) : Outcome A :=
  match body with
  | Return a => Return a
  | Throw e => handler e
  end.

Declare Scope outcome_scope.
Delimit Scope outcome_scope with outcome.
Notation "x <- m ;; k" := (bind m (fun x => k))
  (at level 100, m at next level, right associativity) : outcome_scope.

(** ** Strings as JavaScript sees them *)

(** A string in a boolean position: every string but the empty one is truthy. *)
Definition truthy (s : string) : bool :=
  match s with
  | EmptyString => false
  | String _ _ => true
  end.

(** An optional property ([name?: string]) in a boolean position:
    [undefined] and the empty string are falsy. *)
Definition truthy_opt (o : option string) : bool :=
  match o with
  | Some s => truthy s
  | None => false
  end.

(** The string held by an optional property that tested truthy. *)
Definition value_of (o : option string) : string := default EmptyString o.

(** An optional flag ([enableSecondaryInstance?: boolean]). *)
Definition truthy_flag (o : option bool) : bool :=
  match o with
  | Some b => b
  | None => false
  end.

(** [s.replace(/\/$/, '')]: the pattern has no [g] and no [m] flag, so it
    matches at most once, a slash that is the last code unit of [s]. *)
Fixpoint strip_trailing_slash (s : string) : string :=
  match s with
  | EmptyString => EmptyString
  | String c EmptyString => if Ascii.eqb c "/"%char then EmptyString else s
  | String c rest => String c (strip_trailing_slash rest)
  end.

(** White space of [String.prototype.trim] among the code units below 256:
    TAB, LF, VT, FF, CR, SP and NBSP. *)
Definition is_white_space (c : ascii) : bool :=
  let n := N_of_ascii c in
  ((9 <=? n) && (n <=? 13) || (n =? 32) || (n =? 160))%N.

Fixpoint trimStart (s : string) : string :=
  match s with
  | EmptyString => EmptyString
  | String c rest => if is_white_space c then trimStart rest else s
  end.

Fixpoint trimEnd (s : string) : string :=
  match s with
  | EmptyString => EmptyString
  | String c rest =>
      match trimEnd rest with
      | EmptyString => if is_white_space c then EmptyString else String c EmptyString
      | kept => String c kept
      end
  end.

Definition trim (s : string) : string := trimEnd (trimStart s).

(** A string made of white space only (the empty string included). *)
Fixpoint all_white_space (s : string) : bool :=
  match s with
  | EmptyString => true
  | String c rest => is_white_space c && all_white_space rest
  end.

(** [s.endsWith(t)]: some suffix of [s] is [t]. *)
Fixpoint ends_with (t s : string) : bool :=
  String.eqb s t
  || match s with
     | EmptyString => false
     | String _ rest => ends_with t rest
     end.

(** ** The data model ([types.ts]) *)

(** Modelled from the spec: [types.ts] is not among the sources;
    section 3 gives an Instance as
    [{ name: string, url: string, apiKey: string, isDefault: bool }]. *)
Record RadarrInstance : Type := mkInstance {
  name : string;
  url : string;
  apiKey : string;
  isDefault : bool;
}.

Global Instance RadarrInstance_eq_dec : EqDecision RadarrInstance.
Proof. solve_decision. Defined.

(** The body shared by both versions of [getDefaultRadarrInstance], after
    [const instances = getRadarrInstances()]. *)
Definition defaultOf (instances : list RadarrInstance) : Outcome RadarrInstance :=
  match List.find isDefault instances with
  | Some defaultInstance => Return defaultInstance
  | None =>
      match instances with
      | first :: _ => Return first
      | [] => Throw "No Radarr instances configured"
      end
  end.

(** ** [config.ts], two fixed preference slots *)

Module StaticConfig.

Record Preferences : Type := mkPreferences {
  primaryInstanceName : string;
  primaryInstanceUrl : string;
  primaryInstanceApiKey : string;
  enableSecondaryInstance : option bool;
  secondaryInstanceName : option string;
  secondaryInstanceUrl : option string;
  secondaryInstanceApiKey : option string;
}.

Definition getRadarrInstances (preferences : Preferences) : Outcome (list RadarrInstance) :=
  if negb (truthy (primaryInstanceName preferences))
     || negb (truthy (primaryInstanceUrl preferences))
     || negb (truthy (primaryInstanceApiKey preferences))
  then Throw "Primary Radarr instance configuration is incomplete"
  else
    let instances :=
      [ {| name := primaryInstanceName preferences;
           url := strip_trailing_slash (primaryInstanceUrl preferences);
           apiKey := primaryInstanceApiKey preferences;
           isDefault := true |} ] in
    if truthy_flag (enableSecondaryInstance preferences)
       && truthy_opt (secondaryInstanceName preferences)
       && truthy_opt (secondaryInstanceUrl preferences)
       && truthy_opt (secondaryInstanceApiKey preferences)
    then Return (instances ++
           [ {| name := value_of (secondaryInstanceName preferences);
                url := strip_trailing_slash (value_of (secondaryInstanceUrl preferences));
                apiKey := value_of (secondaryInstanceApiKey preferences);
                isDefault := false |} ])
    else Return instances.

Definition getDefaultRadarrInstance (preferences : Preferences) : Outcome RadarrInstance :=
  (instances <- getRadarrInstances preferences ;; defaultOf instances)%outcome.

End StaticConfig.

(** ** [config.ts], one JSON-encoded array of instances

    [DynamicConfig] is the resolver at the type its callback declares
    ([RawRadarrInstance]): it is what the code does when the preference
    holds an array of such elements.  TypeScript erases the type and
    [JSON.parse] returns values of any shape; [UntypedConfig], further
    down, is the same code on the decoded values themselves, with the
    [TypeError] paths, and [typed_resolution_agrees] shows that the two
    agree on every array whose elements have the declared shape. *)

Module DynamicConfig.

Record Preferences : Type := mkPreferences {
  instances : string;
}.

(** [interface RawRadarrInstance]: what the callback of [instances.map]
    is declared to receive.  A property that is absent reads as
    [undefined], here [None]. *)
Record RawRadarrInstance : Type := mkRaw {
  raw_name : option string;
  raw_url : option string;
  raw_apiKey : option string;
  raw_isDefault : option bool;
}.

(** What [JSON.parse(preferences.instances)] yields when it does not
    throw, as far as the code looks at it: an array of elements of the
    declared type, or a value for which [Array.isArray] is false. *)
Inductive Parsed : Type :=
  | NotArray
  | ArrayOf (elements : list RawRadarrInstance).

Section Resolver.

(** The host's [JSON.parse]; [Throw] carries the [SyntaxError] message. *)
Variable JSON_parse : string -> Outcome Parsed.

(** The callback of [instances.map], applied from [index] on; the first
    element that throws ends the whole call. *)
Fixpoint mapInstances (index : nat) (elements : list RawRadarrInstance)
  : Outcome (list RadarrInstance) :=
  match elements with
  | [] => Return []
  | instance :: rest =>
      if negb (truthy_opt (raw_name instance))
         || negb (truthy_opt (raw_url instance))
         || negb (truthy_opt (raw_apiKey instance))
      then Throw ("Instance " +:+ pretty (index + 1)%nat
                    +:+ " is missing required fields (name, url, apiKey)")
      else
        (resolved <- mapInstances (S index) rest ;;
         Return ({| name := value_of (raw_name instance);
                    url := strip_trailing_slash (value_of (raw_url instance));
                    apiKey := value_of (raw_apiKey instance);
                    isDefault := match raw_isDefault instance with
                                 | Some true => true
                                 | _ => false
                                 end |} :: resolved))%outcome
  end.

Definition getRadarrInstances (preferences : Preferences) : Outcome (list RadarrInstance) :=
  try_catch
    (parsed <- JSON_parse (instances preferences) ;;
     match parsed with
     | NotArray => Throw "Instances configuration must be an array"
     | ArrayOf elements => mapInstances 0 elements
     end)%outcome
    (fun message => Throw ("Invalid instances configuration: " +:+ message)).

Definition getDefaultRadarrInstance (preferences : Preferences) : Outcome RadarrInstance :=
  (resolved <- getRadarrInstances preferences ;; defaultOf resolved)%outcome.

End Resolver.

End DynamicConfig.

(** ** [validateRadarrInstance] (the same text in both versions of [config.ts]) *)

Section Validation.

(** [new URL(s)] returns instead of throwing. *)
Variable URL_parses : string -> bool.

Definition validateRadarrInstance (instance : RadarrInstance) : Outcome unit :=
  if negb (truthy (trim (name instance))) then
    Throw "Instance name cannot be empty"
  else if negb (truthy (trim (url instance))) then
    Throw "Instance URL cannot be empty"
  else if negb (truthy (trim (apiKey instance))) then
    Throw "Instance API key cannot be empty"
  else if URL_parses (url instance) then
    Return tt
  else
    Throw "Instance URL is not valid".

End Validation.

(** ** JavaScript values decoded from JSON *)

#[local] Set Warnings "-register-all".

Inductive JsValue : Type :=
  | JsUndefined
  | JsNull
  | JsBool (b : bool)
  | JsNumber (n : Z)
  | JsString (s : string)
  | JsArray (elements : list JsValue)
  | JsObject (properties : list (string * JsValue)).

(** The own property [key] of an object literal, [undefined] when absent. *)
Fixpoint property (key : string) (properties : list (string * JsValue)) : JsValue :=
  match properties with
  | [] => JsUndefined
  | (k, v) :: rest => if String.eqb k key then v else property key rest
  end.

(** [value.key] for the keys read by this code ([name], [url], [id]):
    reading a property of [null] or [undefined] throws a [TypeError];
    primitives and arrays have no such property. *)
Definition js_get (value : JsValue) (key : string) : Outcome JsValue :=
  match value with
  | JsUndefined => Throw ("Cannot read properties of undefined (reading '" +:+ key +:+ "')")
  | JsNull => Throw ("Cannot read properties of null (reading '" +:+ key +:+ "')")
  | JsObject properties => Return (property key properties)
  | _ => Return JsUndefined
  end.

(** [s === value] for a string [s]. *)
Definition strict_equals (s : string) (value : JsValue) : bool :=
  match value with
  | JsString t => String.eqb s t
  | _ => false
  end.

(** The object an instance is at run time. *)
Definition js_of_instance (instance : RadarrInstance) : JsValue :=
  JsObject [ ("name", JsString (name instance));
             ("url", JsString (url instance));
             ("apiKey", JsString (apiKey instance));
             ("isDefault", JsBool (isDefault instance)) ].

(** ** [config.ts], the JSON array as [JSON.parse] returns it *)

(** A value in a boolean position. *)
Definition js_truthy (value : JsValue) : bool :=
  match value with
  | JsUndefined | JsNull => false
  | JsBool b => b
  | JsNumber n => negb (n =? 0)
  | JsString s => truthy s
  | JsArray _ | JsObject _ => true
  end.

(** [value === true] *)
Definition is_true (value : JsValue) : bool :=
  match value with
  | JsBool true => true
  | _ => false
  end.

Module UntypedConfig.

Section Resolver.

Variable JSON_parse : string -> Outcome JsValue.

(** [url.replace(/\/$/, ...)] for a [url] that tested truthy.  A string has
    the method.  A number, a boolean, an array and a decoded object have
    no callable [replace], and the call throws a [TypeError]; its message
    is worded as V8 words it. *)
Definition replace_trailing_slash (url : JsValue) : Outcome JsValue :=
  match url with
  | JsString s => Return (JsString (strip_trailing_slash s))
  | JsUndefined => Throw "Cannot read properties of undefined (reading 'replace')"
  | JsNull => Throw "Cannot read properties of null (reading 'replace')"
  | _ => Throw "instance.url.replace is not a function"
  end.

(** The callback of [instances.map].  The three properties are read
    before the test: reading is pure, and it throws, on [null] and
    [undefined], at the first read already. *)
Definition callback (instance : JsValue) (index : nat) : Outcome JsValue :=
  (name <- js_get instance "name" ;;
   url <- js_get instance "url" ;;
   apiKey <- js_get instance "apiKey" ;;
   if negb (js_truthy name) || negb (js_truthy url) || negb (js_truthy apiKey)
   then Throw ("Instance " +:+ pretty (index + 1)%nat
                 +:+ " is missing required fields (name, url, apiKey)")
   else
     replaced <- replace_trailing_slash url ;;
     isDefault <- js_get instance "isDefault" ;;
     Return (JsObject [ ("name", name);
                        ("url", replaced);
                        ("apiKey", apiKey);
                        ("isDefault", JsBool (is_true isDefault)) ]))%outcome.

(** [instances.map(callback)], from [index] on: the elements in order,
    the first call that throws ends the whole. *)
Fixpoint mapInstances (index : nat) (elements : list JsValue) : Outcome (list JsValue) :=
  match elements with
  | [] => Return []
  | instance :: rest =>
      (resolved <- callback instance index ;;
       others <- mapInstances (S index) rest ;;
       Return (resolved :: others))%outcome
  end.

Definition getRadarrInstances (preferences : DynamicConfig.Preferences)
  : Outcome (list JsValue) :=
  try_catch
    (instances <- JSON_parse (DynamicConfig.instances preferences) ;;
     match instances with
     | JsArray elements => mapInstances 0 elements
     | _ => Throw "Instances configuration must be an array"
     end)%outcome
    (fun message => Throw ("Invalid instances configuration: " +:+ message)).

(** [instances.find((instance) => instance.isDefault)] *)
Fixpoint find_default (instances : list JsValue) : Outcome (option JsValue) :=
  match instances with
  | [] => Return None
  | instance :: rest =>
      (isDefault <- js_get instance "isDefault" ;;
       if js_truthy isDefault then Return (Some instance) else find_default rest)%outcome
  end.

(** [if (defaultInstance)] holds for every element that [find] returns:
    an element with a truthy [isDefault] is an object. *)
Definition getDefaultRadarrInstance (preferences : DynamicConfig.Preferences)
  : Outcome JsValue :=
  (instances <- getRadarrInstances preferences ;;
   defaultInstance <- find_default instances ;;
   match defaultInstance with
   | Some found => Return found
   | None =>
       match instances with
       | first :: _ => Return first
       | [] => Throw "No Radarr instances configured"
       end
   end)%outcome.

End Resolver.

End UntypedConfig.

(** ** [instance-manager.ts] *)

Definition SELECTED_INSTANCE_KEY : string := "selectedRadarrInstance".

(** An [async] function over the host's [LocalStorage]: it is given the
    store, completes with a value or a thrown error, and leaves a store. *)
Definition Async (A : Type) : Type :=
  gmap string string -> Outcome A * gmap string string.

Definition Promise_resolve {A} (a : A) : Async A := fun storage => (Return a, storage).

Definition await {A B} (m : Async A) (k : A -> Async B) : Async B :=
  fun storage =>
    match m storage with
    | (Return a, storage') => k a storage'
    | (Throw e, storage') => (Throw e, storage')
    end.

Definition sync {A} (m : Outcome A) : Async A := fun storage => (m, storage).

Definition try_async {A} (body : Async A) (handler : string -> Async A) : Async A :=
  fun storage =>
    match body storage with
    | (Return a, storage') => (Return a, storage')
    | (Throw e, storage') => handler e storage'
    end.

Definition LocalStorage_getItem (key : string) : Async (option string) :=
  fun storage => (Return (storage !! key), storage).

Definition LocalStorage_setItem (key value : string) : Async unit :=
  fun storage => (Return tt, <[key := value]> storage).

Definition LocalStorage_removeItem (key : string) : Async unit :=
  fun storage => (Return tt, delete key storage).

Declare Scope async_scope.
Delimit Scope async_scope with async.
Notation "x <- m ;; k" := (await m (fun x => k))
  (at level 100, m at next level, right associativity) : async_scope.
Notation "m ;;; k" := (await m (fun _ => k))
  (at level 100, right associativity) : async_scope.

Section InstanceManager.

(** The host's [JSON]: [JSON.parse] throws a [SyntaxError] on text that
    is not JSON; [JSON.stringify] serialises a value. *)
Variable JSON_parse : string -> Outcome JsValue.
Variable JSON_stringify : JsValue -> string.

(** The configuration read by [getRadarrInstances()] and the resolver
    imported from [./config]. *)
Context {Preferences : Type}.
Variable getRadarrInstances : Preferences -> Outcome (list RadarrInstance).

(** Modelled from the spec: [getActiveRadarrInstance] is imported from
    [./config], and neither version of [config.ts] defines it.
    The spec (4.2, step 5): fall through, return [resolve().getDefault()]. *)
Definition getActiveRadarrInstance (preferences : Preferences) : Outcome RadarrInstance :=
  (resolved <- getRadarrInstances preferences ;; defaultOf resolved)%outcome.

(** [availableInstances.some((instance) => instance.name ===
    selectedInstance.name && instance.url === selectedInstance.url)] *)
Fixpoint some_matches (availableInstances : list RadarrInstance) (selectedInstance : JsValue)
  : Outcome bool :=
  match availableInstances with
  | [] => Return false
  | instance :: rest =>
      (selectedName <- js_get selectedInstance "name" ;;
       if strict_equals (name instance) selectedName then
         selectedUrl <- js_get selectedInstance "url" ;;
         if strict_equals (url instance) selectedUrl then Return true
         else some_matches rest selectedInstance
       else some_matches rest selectedInstance)%outcome
  end.

(** The [if (selectedInstanceJson) { try ... catch ... }] block: [Some v]
    when it returns [v] from the function, [None] when control reaches
    the fall-back below it.  The line written by [console.error] in the
    [catch] is not recorded. *)
Definition selected_if_still_configured (preferences : Preferences)
    (selectedInstanceJson : option string) : Async (option JsValue) :=
  if truthy_opt selectedInstanceJson then
    try_async
      (selectedInstance <- sync (JSON_parse (value_of selectedInstanceJson)) ;;
       availableInstances <- sync (getRadarrInstances preferences) ;;
       instanceExists <- sync (some_matches availableInstances selectedInstance) ;;
       if (instanceExists : bool) then Promise_resolve (Some selectedInstance)
       else (LocalStorage_removeItem SELECTED_INSTANCE_KEY ;;; Promise_resolve None))%async
      (fun error =>
         (LocalStorage_removeItem SELECTED_INSTANCE_KEY ;;; Promise_resolve None)%async)
  else Promise_resolve None.

Definition getCurrentInstance (preferences : Preferences) : Async JsValue :=
  (selectedInstanceJson <- LocalStorage_getItem SELECTED_INSTANCE_KEY ;;
   selected <- selected_if_still_configured preferences selectedInstanceJson ;;
   match selected with
   | Some selectedInstance => Promise_resolve selectedInstance
   | None => sync (active <- getActiveRadarrInstance preferences ;;
                   Return (js_of_instance active))%outcome
   end)%async.

Definition setCurrentInstance (instance : RadarrInstance) : Async unit :=
  LocalStorage_setItem SELECTED_INSTANCE_KEY (JSON_stringify (js_of_instance instance)).

End InstanceManager.

(** ** [hooks/useRadarrAPI.ts]: the two calls made with [fetch] *)

(** A value inside a template literal ([`${value}`]). *)
Fixpoint template_string (value : JsValue) : string :=
  match value with
  | JsUndefined => "undefined"
  | JsNull => "null"
  | JsBool true => "true"
  | JsBool false => "false"
  | JsNumber n => pretty n
  | JsString s => s
  | JsArray elements =>
      (fix join (l : list JsValue) : string :=
         let element (x : JsValue) : string :=
           match x with
           | JsUndefined | JsNull => EmptyString
           | _ => template_string x
           end in
         match l with
         | [] => EmptyString
         | [x] => element x
         | x :: rest => element x +:+ "," +:+ join rest
         end) elements
  | JsObject _ => "[object Object]"
  end.

Record Request : Type := mkRequest {
  request_url : string;
  request_method : string;
  request_headers : list (string * string);
  request_body : option string;
}.

(** What the code reads of a [Response]: the status line, and the body,
    whose reading ([response.text()]) may itself fail. *)
Record Response : Type := mkResponse {
  status : Z;
  statusText : string;
  text : Outcome string;
}.

(** [response.ok]: the status is in the range 200-299. *)
Definition ok (response : Response) : bool :=
  (200 <=? status response) && (status response <=? 299).

Inductive ToastStyle : Type := Success | Failure.

(** What a call shows besides its result. *)
Inductive Effect : Type :=
  | ConsoleError (label message : string)
  | ShowToast (style : ToastStyle) (title message : string).

(** A call that completes with a value or a thrown error and leaves a
    list of effects, oldest first. *)
Definition Logged (A : Type) : Type := (Outcome A * list Effect)%type.

Definition quiet {A} (m : Outcome A) : Logged A := (m, []).

Definition emit (e : Effect) : Logged unit := (Return tt, [e]).

Definition then_logged {A B} (m : Logged A) (k : A -> Logged B) : Logged B :=
  match m with
  | (Return a, log) => let '(result, log') := k a in (result, log ++ log')
  | (Throw e, log) => (Throw e, log)
  end.

Definition try_logged {A} (body : Logged A) (handler : string -> Logged A) : Logged A :=
  match body with
  | (Return a, log) => (Return a, log)
  | (Throw e, log) => let '(result, log') := handler e in (result, log ++ log')
  end.

Declare Scope logged_scope.
Delimit Scope logged_scope with logged.
Notation "x <- m ;; k" := (then_logged m (fun x => k))
  (at level 100, m at next level, right associativity) : logged_scope.
Notation "m ;;; k" := (then_logged m (fun _ => k))
  (at level 100, right associativity) : logged_scope.

Section RadarrAPI.

Variable JSON_parse : string -> Outcome JsValue.
Variable JSON_stringify : JsValue -> string.

(** The network at the time of the call: a response, or a rejection
    ([Throw]) when no response arrives. *)
Variable fetch : Request -> Outcome Response.

(** [response.json()]: the body, read and decoded. *)
Definition json (response : Response) : Outcome JsValue :=
  (body <- text response ;; JSON_parse body)%outcome.

Definition addMovie_payload (movie : list (string * JsValue))
    (qualityProfileId : Z) (rootFolderPath : string) (monitored searchOnAdd : bool)
  : JsValue :=
  JsObject
    [ ("title", property "title" movie);
      ("originalTitle", property "originalTitle" movie);
      ("sortTitle", property "sortTitle" movie);
      ("status", property "status" movie);
      ("overview", property "overview" movie);
      ("inCinemas", property "inCinemas" movie);
      ("images", property "images" movie);
      ("website", property "website" movie);
      ("year", property "year" movie);
      ("runtime", property "runtime" movie);
      ("imdbId", property "imdbId" movie);
      ("tmdbId", property "tmdbId" movie);
      ("genres", property "genres" movie);
      ("ratings", property "ratings" movie);
      ("qualityProfileId", JsNumber qualityProfileId);
      ("rootFolderPath", JsString rootFolderPath);
      ("monitored", JsBool monitored);
      ("addOptions", JsObject [ ("searchForMovie", JsBool searchOnAdd) ]) ].

Definition addMovie_request (instance : RadarrInstance) (payload : JsValue) : Request :=
  {| request_url := url instance +:+ "/api/v3/movie";
     request_method := "POST";
     request_headers := [ ("X-Api-Key", apiKey instance);
                          ("Content-Type", "application/json") ];
     request_body := Some (JSON_stringify payload) |}.

(** [movie] is the lookup result, an object given by its properties. *)
Definition addMovie (instance : RadarrInstance) (movie : list (string * JsValue))
    (qualityProfileId : Z) (rootFolderPath : string) (monitored searchOnAdd : bool)
  : Logged JsValue :=
  try_logged
    (response <- quiet (fetch (addMovie_request instance
                                 (addMovie_payload movie qualityProfileId rootFolderPath
                                    monitored searchOnAdd))) ;;
     if negb (ok response) then
       errorBody <- quiet (text response) ;;
       quiet (Throw ("HTTP " +:+ pretty (status response) +:+ ": " +:+ errorBody))
     else
       addedMovie <- quiet (json response) ;;
       emit (ShowToast Success "Movie Added"
               (template_string (property "title" movie) +:+ " ("
                  +:+ template_string (property "year" movie) +:+ ") added to "
                  +:+ name instance)) ;;;
       quiet (Return addedMovie))%logged
    (fun error =>
       (emit (ConsoleError "Add movie error:" error) ;;;
        emit (ShowToast Failure "Failed to Add Movie"
                ("Could not add " +:+ template_string (property "title" movie)
                   +:+ ": " +:+ error)) ;;;
        quiet (Throw error))%logged).

Definition testConnection_request (instance : RadarrInstance) : Request :=
  {| request_url := url instance +:+ "/api/v3/system/status";
     request_method := "GET";
     request_headers := [ ("X-Api-Key", apiKey instance);
                          ("Content-Type", "application/json") ];
     request_body := None |}.

Definition testConnection (instance : RadarrInstance) : Outcome bool :=
  try_catch
    (response <- fetch (testConnection_request instance) ;;
     Return (ok response))%outcome
    (fun _ => Return false).

End RadarrAPI.

(** ** The missing-movies views: availability of a movie *)

(** Modelled from the spec: [types.ts] is not among the sources;
    section 3 gives a Movie its release-date triple [(inCinemas,
    digitalRelease, physicalRelease)], [hasFile] and [monitored].  The
    dates are optional ISO strings. *)
Record Movie : Type := mkMovie {
  inCinemas : option string;
  digitalRelease : option string;
  physicalRelease : option string;
  hasFile : bool;
  monitored : bool;
}.

(** [a || b] for an optional string [a]. *)
Definition or_else (a : option string) (b : string) : string :=
  if truthy_opt a then value_of a else b.

Definition MS_PER_DAY : Z := 1000 * 60 * 60 * 24.

Section Availability.

(** [new Date(s).getTime()]: milliseconds since the epoch, [None] for an
    Invalid Date (whose time value is NaN). *)
Variable Date_parse : string -> option Z.

(** [new Date().getTime()] *)
Variable now : Z.

Definition releaseDate (movie : Movie) : option Z :=
  Date_parse (or_else (inCinemas movie)
                (or_else (digitalRelease movie)
                   (or_else (physicalRelease movie) EmptyString))).

Definition no_release_date (movie : Movie) : bool :=
  negb (truthy_opt (inCinemas movie))
  && negb (truthy_opt (digitalRelease movie))
  && negb (truthy_opt (physicalRelease movie)).

(** [releaseDate > now]; every comparison with NaN is false. *)
Definition after_now (date : option Z) : bool :=
  match date with
  | Some t => now <? t
  | None => false
  end.

End Availability.

(** The list view. *)
Module MissingMoviesList.
Section View.
Variable Date_parse : string -> option Z.
Variable now : Z.

Definition getAvailabilityStatus (movie : Movie) : string :=
  if no_release_date movie then "Not Released"
  else if after_now now (releaseDate Date_parse movie) then "Upcoming"
  else
    (* daysSinceRelease is NaN for an Invalid Date, and NaN < 30 and
       NaN < 90 are both false *)
    match releaseDate Date_parse movie with
    | Some released =>
        let daysSinceRelease := (now - released) / MS_PER_DAY in
        if daysSinceRelease <? 30 then "Recent"
        else if daysSinceRelease <? 90 then "Available"
        else "Long Available"
    | None => "Long Available"
    end.
End View.
End MissingMoviesList.

(** The grid view. *)
Module MissingMoviesGrid.
Section View.
Variable Date_parse : string -> option Z.
Variable now : Z.

Definition getAvailabilityStatus (movie : Movie) : string :=
  if no_release_date movie then "Not Released"
  else if after_now now (releaseDate Date_parse movie) then "Upcoming"
  else "Missing".
End View.
End MissingMoviesGrid.

(** ** The download-queue view *)

(** Modelled from the spec: [types.ts] is not among the sources;
    section 3 gives a QueueItem [size], [sizeleft], [timeleft] and
    [estimatedCompletionTime].  Sizes are byte counts: whole numbers,
    which a double holds exactly below [2^53]. *)
Record QueueItem : Type := mkQueueItem {
  size : Z;
  sizeleft : Z;
  timeleft : option string;
  estimatedCompletionTime : option string;
}.

(** A JavaScript number, an IEEE 754 double: the rational it stands for
    (the two zeros are one value here; they print alike and no divisor
    of this view is zero), or one of the three other values. *)
Inductive Number : Type :=
  | Finite (q : Q)
  | NaN
  | PlusInfinity
  | MinusInfinity.

(** [floor (log2 |q|)] for a [q] that is not zero. *)
Definition exponent (q : Q) : Z :=
  let n := Z.abs (Qnum q) in
  let d := Z.pos (Qden q) in
  let e := Z.log2 n - Z.log2 d in
  if n * 2 ^ Z.log2 d <? d * 2 ^ Z.log2 n then e - 1 else e.

(** The distance between the doubles around [q]: a double has 53
    significant bits, and the spacing is [2^-1074] below the normal
    range. *)
Definition ulp (q : Q) : Q := (2 ^ Z.max (exponent q - 52) (-1074))%Q.

(** The nearest whole number, a tie going to the even one. *)
Definition nearest_even (x : Q) : Z :=
  let f := Qfloor x in
  match (x - inject_Z f ?= 1 # 2)%Q with
  | Lt => f
  | Gt => f + 1
  | Eq => if Z.even f then f else f + 1
  end.

(** The multiple of the spacing nearest to [q], ties to even. *)
Definition nearest_double (q : Q) : Q :=
  (inject_Z (nearest_even (q / ulp q)) * ulp q)%Q.

(** The result of an arithmetic operation whose exact value is [q]: IEEE
    754 rounds it to the nearest double, ties to even, and to an infinity
    from [2^1024] on. *)
Definition binary64 (q : Q) : Number :=
  let r := nearest_double q in
  if Qle_bool (2 ^ 1024) r then PlusInfinity
  else if Qle_bool r (- 2 ^ 1024) then MinusInfinity
  else Finite (Qred r).

(** [a / b] for whole numbers that are doubles. *)
Definition divide (a b : Z) : Number :=
  if b =? 0 then
    if a =? 0 then NaN else if 0 <? a then PlusInfinity else MinusInfinity
  else binary64 (inject_Z a / inject_Z b).

(** [x * k] for a whole number [k] that is a double. *)
Definition times (x : Number) (k : Z) : Number :=
  match x with
  | Finite q => binary64 (q * inject_Z k)
  | NaN => NaN
  | PlusInfinity => if k =? 0 then NaN else if 0 <? k then PlusInfinity else MinusInfinity
  | MinusInfinity => if k =? 0 then NaN else if 0 <? k then MinusInfinity else PlusInfinity
  end.

(** [Math.round]: the whole number nearest to the value of the double,
    halves towards plus infinity. *)
Definition Math_round (x : Number) : Number :=
  match x with
  | Finite q => Finite (inject_Z (Qfloor (q + (1 # 2))%Q))
  | other => other
  end.

(** A rounded number inside a template literal: every digit of a whole
    number below [10^21], which covers the percentage of byte counts. *)
Definition number_string (x : Number) : string :=
  match x with
  | Finite q => pretty (Qfloor q)
  | NaN => "NaN"
  | PlusInfinity => "Infinity"
  | MinusInfinity => "-Infinity"
  end.

Section DownloadQueue.

(** [formatFileSize] of [utils.ts], which is not among the sources: any
    rendering of a byte count. *)
Variable formatFileSize : Z -> string.

Variable Date_parse : string -> option Z.
Variable now : Z.

(** [item.size - item.sizeleft]: the difference of two doubles is rounded
    as every result is, and is exact when it is below [2^53], as the
    statements about it assume. *)
Definition downloaded (item : QueueItem) : Z := size item - sizeleft item.

Definition percentage (item : QueueItem) : Number :=
  Math_round (times (divide (downloaded item) (size item)) 100).

Definition formatProgress (item : QueueItem) : string :=
  if size item =? 0 then "Unknown size"
  else formatFileSize (downloaded item) +:+ " / " +:+ formatFileSize (size item)
         +:+ " (" +:+ number_string (percentage item) +:+ "%)".

Definition getTimeLeft (item : QueueItem) : string :=
  if truthy_opt (timeleft item)
     && negb (String.eqb (value_of (timeleft item)) "00:00:00")
  then value_of (timeleft item)
  else
    let unknown := "Unknown" in
    if truthy_opt (estimatedCompletionTime item) then
      match Date_parse (value_of (estimatedCompletionTime item)) with
      | Some completion =>
          let diffMs := completion - now in
          if 0 <? diffMs then
            let hours := diffMs / (1000 * 60 * 60) in
            let minutes := (diffMs mod (1000 * 60 * 60)) / (1000 * 60) in
            pretty hours +:+ "h " +:+ pretty minutes +:+ "m"
          else unknown
      | None => unknown   (* NaN > 0 is false *)
      end
    else unknown.

End DownloadQueue.

(** ** A JSON codec to run the host-dependent definitions on examples

    [Json.stringify] and [Json.parse] follow ECMA-404 for the values of
    [JsValue] (whole numbers, code units below 256). *)

Module Json.

Definition quote_mark : ascii := ascii_of_N 34.
Definition backslash : ascii := ascii_of_N 92.

Definition hex_digit (n : N) : ascii :=
  ascii_of_N (if (n <? 10)%N then 48 + n else 87 + n)%N.

Definition hex_value (c : ascii) : option N :=
  let n := N_of_ascii c in
  if ((48 <=? n) && (n <=? 57))%N then Some (n - 48)%N
  else if ((97 <=? n) && (n <=? 102))%N then Some (n - 87)%N
  else if ((65 <=? n) && (n <=? 70))%N then Some (n - 55)%N
  else None.

(** One code unit inside a string literal. *)
Definition escape (c : ascii) : string :=
  let n := N_of_ascii c in
  if (n =? 34)%N then String backslash (String quote_mark EmptyString)
  else if (n =? 92)%N then "\\"
  else if (n =? 8)%N then "\b"
  else if (n =? 12)%N then "\f"
  else if (n =? 10)%N then "\n"
  else if (n =? 13)%N then "\r"
  else if (n =? 9)%N then "\t"
  else if (n <? 32)%N then
    "\u00" +:+ String (hex_digit (n / 16)) (String (hex_digit (n mod 16)) EmptyString)
  else String c EmptyString.

Fixpoint escape_all (s : string) : string :=
  match s with
  | EmptyString => EmptyString
  | String c rest => escape c +:+ escape_all rest
  end.

Definition quote (s : string) : string :=
  String quote_mark (escape_all s +:+ String quote_mark EmptyString).

Fixpoint stringify (value : JsValue) : string :=
  match value with
  | JsUndefined | JsNull => "null"
  | JsBool true => "true"
  | JsBool false => "false"
  | JsNumber n => pretty n
  | JsString s => quote s
  | JsArray elements =>
      "[" +:+
      (fix items (l : list JsValue) : string :=
         match l with
         | [] => EmptyString
         | [x] => stringify x
         | x :: rest => stringify x +:+ "," +:+ items rest
         end) elements +:+ "]"
  | JsObject properties =>
      "{" +:+
      (fix members (l : list (string * JsValue)) : string :=
         match l with
         | [] => EmptyString
         | (_, JsUndefined) :: rest => members rest
         | (k, v) :: rest =>
             let others := members rest in
             quote k +:+ ":" +:+ stringify v +:+
             (if truthy others then "," +:+ others else EmptyString)
         end) properties +:+ "}"
  end.

Fixpoint skip_white_space (s : string) : string :=
  match s with
  | String c rest =>
      let n := N_of_ascii c in
      if ((n =? 32) || (n =? 9) || (n =? 10) || (n =? 13))%N
      then skip_white_space rest else s
  | EmptyString => EmptyString
  end.

(** [s] without the prefix [p], when it has it. *)
Fixpoint after (p s : string) : option string :=
  match p, s with
  | EmptyString, _ => Some s
  | String a p', String b s' => if Ascii.eqb a b then after p' s' else None
  | String _ _, EmptyString => None
  end.

(** The text after an opening quote: the string it denotes and what
    follows the closing quote. *)
Fixpoint string_literal (s : string) : option (string * string) :=
  let cons (c : ascii) (r : option (string * string)) :=
    match r with
    | Some (body, rest) => Some (String c body, rest)
    | None => None
    end in
  match s with
  | EmptyString => None
  | String c rest =>
      let n := N_of_ascii c in
      if (n =? 34)%N then Some (EmptyString, rest)
      else if (n =? 92)%N then
        match rest with
        | String e rest' =>
            let m := N_of_ascii e in
            if ((m =? 34) || (m =? 92) || (m =? 47))%N then cons e (string_literal rest')
            else if (m =? 98)%N then cons (ascii_of_N 8) (string_literal rest')
            else if (m =? 102)%N then cons (ascii_of_N 12) (string_literal rest')
            else if (m =? 110)%N then cons (ascii_of_N 10) (string_literal rest')
            else if (m =? 114)%N then cons (ascii_of_N 13) (string_literal rest')
            else if (m =? 116)%N then cons (ascii_of_N 9) (string_literal rest')
            else if (m =? 117)%N then
              match rest' with
              | String h1 (String h2 (String h3 (String h4 rest''))) =>
                  match hex_value h1, hex_value h2, hex_value h3, hex_value h4 with
                  | Some 0%N, Some 0%N, Some d3, Some d4 =>
                      cons (ascii_of_N (16 * d3 + d4)) (string_literal rest'')
                  | _, _, _, _ => None
                  end
              | _ => None
              end
            else None
        | EmptyString => None
        end
      else if (n <? 32)%N then None
      else cons c (string_literal rest)
  end.

(** The digits at the head of [s], read after [acc]. *)
Fixpoint digits (acc : Z) (s : string) : Z * string :=
  match s with
  | String c rest =>
      let n := N_of_ascii c in
      if ((48 <=? n) && (n <=? 57))%N then digits (10 * acc + Z.of_N (n - 48)) rest
      else (acc, s)
  | EmptyString => (acc, s)
  end.

Definition is_digit (s : string) : bool :=
  match s with
  | String c _ => let n := N_of_ascii c in ((48 <=? n) && (n <=? 57))%N
  | EmptyString => false
  end.

Section Composite.
Variable value : string -> option (JsValue * string).

(** Elements after the first [value] of a non-empty array. *)
Fixpoint elements (fuel : nat) (s : string) : option (list JsValue * string) :=
  match fuel with
  | O => None
  | S fuel' =>
      match value s with
      | Some (v, rest) =>
          match skip_white_space rest with
          | String c rest' =>
              if Ascii.eqb c ","%char then
                match elements fuel' rest' with
                | Some (vs, rest'') => Some (v :: vs, rest'')
                | None => None
                end
              else if Ascii.eqb c "]"%char then Some ([v], rest')
              else None
          | EmptyString => None
          end
      | None => None
      end
  end.

Fixpoint members (fuel : nat) (s : string) : option (list (string * JsValue) * string) :=
  match fuel with
  | O => None
  | S fuel' =>
      match skip_white_space s with
      | String q s1 =>
          if Ascii.eqb q quote_mark then
            match string_literal s1 with
            | Some (key, s2) =>
                match skip_white_space s2 with
                | String colon s3 =>
                    if Ascii.eqb colon ":"%char then
                      match value s3 with
                      | Some (v, s4) =>
                          match skip_white_space s4 with
                          | String c s5 =>
                              if Ascii.eqb c ","%char then
                                match members fuel' s5 with
                                | Some (ms, s6) => Some ((key, v) :: ms, s6)
                                | None => None
                                end
                              else if Ascii.eqb c "}"%char then Some ([(key, v)], s5)
                              else None
                          | EmptyString => None
                          end
                      | None => None
                      end
                    else None
                | EmptyString => None
                end
            | None => None
            end
          else None
      | EmptyString => None
      end
  end.
End Composite.

Fixpoint value (fuel : nat) (s : string) : option (JsValue * string) :=
  match fuel with
  | O => None
  | S fuel' =>
      match skip_white_space s with
      | EmptyString => None
      | String c rest as s' =>
          if Ascii.eqb c quote_mark then
            match string_literal rest with
            | Some (body, rest') => Some (JsString body, rest')
            | None => None
            end
          else if Ascii.eqb c "["%char then
            match skip_white_space rest with
            | String d rest' =>
                if Ascii.eqb d "]"%char then Some (JsArray [], rest')
                else match elements (value fuel') fuel' rest with
                     | Some (vs, rest'') => Some (JsArray vs, rest'')
                     | None => None
                     end
            | EmptyString => None
            end
          else if Ascii.eqb c "{"%char then
            match skip_white_space rest with
            | String d rest' =>
                if Ascii.eqb d "}"%char then Some (JsObject [], rest')
                else match members (value fuel') fuel' rest with
                     | Some (ms, rest'') => Some (JsObject ms, rest'')
                     | None => None
                     end
            | EmptyString => None
            end
          else if Ascii.eqb c "-"%char then
            if is_digit rest then
              let '(n, rest') := digits 0 rest in Some (JsNumber (- n), rest')
            else None
          else if is_digit s' then
            let '(n, rest') := digits 0 s' in Some (JsNumber n, rest')
          else
            match after "null" s', after "true" s', after "false" s' with
            | Some rest', _, _ => Some (JsNull, rest')
            | _, Some rest', _ => Some (JsBool true, rest')
            | _, _, Some rest' => Some (JsBool false, rest')
            | None, None, None => None
            end
      end
  end.

Definition parse (s : string) : Outcome JsValue :=
  match value (S (String.length s)) s with
  | Some (v, rest) =>
      match skip_white_space rest with
      | EmptyString => Return v
      | String _ _ => Throw "Unexpected non-whitespace character after JSON"
      end
  | None => Throw "Unexpected token in JSON"
  end.

End Json.

(** ** ISO 8601 timestamps, to run the date-dependent definitions on examples

    [IsoDate.parse] reads [YYYY-MM-DD] and [YYYY-MM-DDTHH:MM:SSZ] (both
    UTC, as [Date] reads them) into milliseconds since the epoch. *)

Module IsoDate.

Fixpoint all_digits (s : string) : bool :=
  match s with
  | EmptyString => true
  | String c rest =>
      let n := N_of_ascii c in
      ((48 <=? n) && (n <=? 57))%N && all_digits rest
  end.

(** The number written in the [len] digits of [s] from [start] on. *)
Definition number_at (start len : nat) (s : string) : option Z :=
  let field := String.substring start len s in
  if (String.length field =? len)%nat && all_digits field
  then Some (fst (Json.digits 0 field))
  else None.

Definition has_at (start : nat) (c : ascii) (s : string) : bool :=
  match String.get start s with
  | Some d => Ascii.eqb c d
  | None => false
  end.

(** Days from 1970-01-01 to the given day of the proleptic Gregorian
    calendar. *)
Definition days_from_civil (year month day : Z) : Z :=
  let y := if month <=? 2 then year - 1 else year in
  let era := y / 400 in
  let yoe := y - era * 400 in
  let doy := (153 * (if 2 <? month then month - 3 else month + 9) + 2) / 5 + day - 1 in
  let doe := yoe * 365 + yoe / 4 - yoe / 100 + doy in
  era * 146097 + doe - 719468.

Definition parse_day (s : string) : option Z :=
  match number_at 0 4 s, number_at 5 2 s, number_at 8 2 s with
  | Some year, Some month, Some day =>
      if has_at 4 "-"%char s && has_at 7 "-"%char s
         && (1 <=? month) && (month <=? 12) && (1 <=? day) && (day <=? 31)
      then Some (days_from_civil year month day)
      else None
  | _, _, _ => None
  end.

Definition parse (s : string) : option Z :=
  match parse_day s with
  | Some days =>
      if (String.length s =? 10)%nat then Some (days * 86400000)
      else
        match number_at 11 2 s, number_at 14 2 s, number_at 17 2 s with
        | Some h, Some m, Some sec =>
            if (String.length s =? 20)%nat
               && has_at 10 "T"%char s && has_at 13 ":"%char s
               && has_at 16 ":"%char s && has_at 19 "Z"%char s
               && (h <? 24) && (m <? 60) && (sec <? 60)
            then Some (days * 86400000 + h * 3600000 + m * 60000 + sec * 1000)
            else None
        | _, _, _ => None
        end
  | None => None
  end.

End IsoDate.

(** ** A decoded value read at the declared element type

    [read_at_declared_type] turns a host [JSON.parse] into the host that
    [DynamicConfig] takes.  It is faithful on elements of the declared
    shape (an object whose [name], [url] and [apiKey] are strings or
    falsy, or any other value but [null]); on the other elements the
    code is what [UntypedConfig] says. *)

Definition optional_string (value : JsValue) : option string :=
  match value with
  | JsString s => Some s
  | _ => None
  end.

Definition optional_bool (value : JsValue) : option bool :=
  match value with
  | JsBool b => Some b
  | _ => None
  end.

Definition raw_of (value : JsValue) : DynamicConfig.RawRadarrInstance :=
  match value with
  | JsObject properties =>
      {| DynamicConfig.raw_name := optional_string (property "name" properties);
         DynamicConfig.raw_url := optional_string (property "url" properties);
         DynamicConfig.raw_apiKey := optional_string (property "apiKey" properties);
         DynamicConfig.raw_isDefault := optional_bool (property "isDefault" properties) |}
  | _ => DynamicConfig.mkRaw None None None None
  end.

Definition read_at_declared_type (JSON_parse : string -> Outcome JsValue) (s : string)
  : Outcome DynamicConfig.Parsed :=
  (value <- JSON_parse s ;;
   Return match value with
          | JsArray elements => DynamicConfig.ArrayOf (List.map raw_of elements)
          | _ => DynamicConfig.NotArray
          end)%outcome.

Definition parse_instances (s : string) : Outcome DynamicConfig.Parsed :=
  read_at_declared_type Json.parse s.

(** A property is a string, or a value that tests falsy. *)
Definition string_or_falsy (value : JsValue) : bool :=
  match value with
  | JsString _ => true
  | other => negb (js_truthy other)
  end.

(** An element of the declared shape. *)
Definition declared_shape (element : JsValue) : bool :=
  match element with
  | JsUndefined | JsNull => false
  | JsObject properties =>
      string_or_falsy (property "name" properties)
      && string_or_falsy (property "url" properties)
      && string_or_falsy (property "apiKey" properties)
  | _ => true
  end.

(** ** Either shape of the persisted configuration

    [resolved_instances] and [resolved_default] are [getRadarrInstances]
    and [getDefaultRadarrInstance] of whichever version of [config.ts] reads
    the configuration. *)

Inductive Configuration : Type :=
  | TwoSlots (preferences : StaticConfig.Preferences)
  | JsonArray (JSON_parse : string -> Outcome DynamicConfig.Parsed)
              (preferences : DynamicConfig.Preferences).

Definition resolved_instances (configuration : Configuration) : Outcome (list RadarrInstance) :=
  match configuration with
  | TwoSlots preferences => StaticConfig.getRadarrInstances preferences
  | JsonArray JSON_parse preferences => DynamicConfig.getRadarrInstances JSON_parse preferences
  end.

Definition resolved_default (configuration : Configuration) : Outcome RadarrInstance :=
  match configuration with
  | TwoSlots preferences => StaticConfig.getDefaultRadarrInstance preferences
  | JsonArray JSON_parse preferences =>
      DynamicConfig.getDefaultRadarrInstance JSON_parse preferences
  end.

(** ** [instance-manager.ts], the version with an explicit reset *)

Definition clearInstanceOverride : Async unit :=
  LocalStorage_removeItem SELECTED_INSTANCE_KEY.

(** [!!overriddenInstance] *)
Definition hasInstanceOverride : Async bool :=
  (overriddenInstance <- LocalStorage_getItem SELECTED_INSTANCE_KEY ;;
   Promise_resolve (truthy_opt overriddenInstance))%async.

(** ** [config.ts]: the instances as dropdown choices *)

Record Choice : Type := mkChoice {
  choice_title : string;
  choice_value : string;
}.

Section Choices.

Variable JSON_stringify : JsValue -> string.
Context {Preferences : Type}.
Variable getRadarrInstances : Preferences -> Outcome (list RadarrInstance).

Definition getRadarrInstanceChoices (preferences : Preferences) : Outcome (list Choice) :=
  (instances <- getRadarrInstances preferences ;;
   Return (List.map
             (fun instance =>
                {| choice_title := name instance +:+ " (" +:+ url instance +:+ ")";
                   choice_value := JSON_stringify (js_of_instance instance) |})
             instances))%outcome.

End Choices.

(** ** [hooks/useRadarrAPI.ts]: search and queue removal *)

Section MoreRadarrAPI.

Variable JSON_parse : string -> Outcome JsValue.

(** The host's [encodeURIComponent]. *)
Variable encodeURIComponent : string -> string.

Variable fetch : Request -> Outcome Response.

Definition searchMovies_request (instance : RadarrInstance) (query : string) : Request :=
  {| request_url := url instance +:+ "/api/v3/movie/lookup?term=" +:+ encodeURIComponent query;
     request_method := "GET";
     request_headers := [ ("X-Api-Key", apiKey instance);
                          ("Content-Type", "application/json") ];
     request_body := None |}.

Definition searchMovies (instance : RadarrInstance) (query : string) : Logged JsValue :=
  try_logged
    (response <- quiet (fetch (searchMovies_request instance query)) ;;
     if negb (ok response) then
       quiet (Throw ("HTTP " +:+ pretty (status response) +:+ ": " +:+ statusText response))
     else quiet (json JSON_parse response))%logged
    (fun error =>
       (emit (ConsoleError "Movie search error:" error) ;;;
        emit (ShowToast Failure "Search Failed" ("Failed to search movies: " +:+ error)) ;;;
        quiet (Throw error))%logged).

Definition removeQueueItem_request (instance : RadarrInstance) (id : Z) : Request :=
  {| request_url := url instance +:+ "/api/v3/queue/" +:+ pretty id;
     request_method := "DELETE";
     request_headers := [ ("X-Api-Key", apiKey instance) ];
     request_body := None |}.

Definition removeQueueItem (instance : RadarrInstance) (id : Z) : Logged unit :=
  try_logged
    (response <- quiet (fetch (removeQueueItem_request instance id)) ;;
     if negb (ok response) then
       quiet (Throw ("HTTP " +:+ pretty (status response) +:+ ": " +:+ statusText response))
     else
       emit (ShowToast Success "Queue Item Removed" "Item removed from download queue") ;;;
       quiet (Return tt))%logged
    (fun error =>
       (emit (ConsoleError "Remove queue item error:" error) ;;;
        emit (ShowToast Failure "Failed to Remove Item" error) ;;;
        quiet (Throw error))%logged).

End MoreRadarrAPI.

(** ** What every view does when it mounts *)

(** The instance a view holds when the configuration cannot be read. *)
Definition placeholder_instance : RadarrInstance :=
  {| name := EmptyString; url := EmptyString; apiKey := EmptyString; isDefault := true |}.

(** The initialiser of [useState<RadarrInstance>]: [getDefaultRadarrInstance()],
    or the placeholder and a toast when that throws. *)
Definition initial_instance (configuration : Configuration) : Logged RadarrInstance :=
  try_logged
    (quiet (resolved_default configuration))
    (fun error =>
       (emit (ConsoleError "Failed to get default instance:" error) ;;;
        emit (ShowToast Failure "Configuration Error" error) ;;;
        quiet (Return placeholder_instance))%logged).

(** [const instances = (() => { try { return getRadarrInstances(); } catch
    { return []; } })()] *)
Definition listed_instances (configuration : Configuration) : Logged (list RadarrInstance) :=
  try_logged
    (quiet (resolved_instances configuration))
    (fun error =>
       (emit (ConsoleError "Failed to get instances:" error) ;;;
        quiet (Return []))%logged).

(** ** The download-queue view: status display and removal *)

Inductive Color : Type :=
  | Color_Red
  | Color_Yellow
  | Color_Blue
  | Color_Green
  | Color_SecondaryText.

Inductive Icon : Type :=
  | Icon_XMarkCircle
  | Icon_ExclamationMark
  | Icon_Download
  | Icon_Check
  | Icon_Clock.

Definition getStatusColor (status trackedDownloadStatus : string) : Color :=
  if String.eqb trackedDownloadStatus "error" then Color_Red
  else if String.eqb trackedDownloadStatus "warning" then Color_Yellow
  else if String.eqb status "downloading" then Color_Blue
  else if String.eqb status "completed" then Color_Green
  else Color_SecondaryText.

Definition getStatusIcon (status trackedDownloadStatus : string) : Icon :=
  if String.eqb trackedDownloadStatus "error" then Icon_XMarkCircle
  else if String.eqb trackedDownloadStatus "warning" then Icon_ExclamationMark
  else if String.eqb status "downloading" then Icon_Download
  else if String.eqb status "completed" then Icon_Check
  else Icon_Clock.

(** What a view handler does besides what the client shows: it may ask the
    list to reload ([mutate()]). *)
Inductive ViewEvent : Type :=
  | Shown (effect : Effect)
  | Mutated.

Section QueueActions.

Variable fetch : Request -> Outcome Response.

(** [handleRemoveItem]; [confirmed] is the answer to [confirmAlert]. *)
Definition handleRemoveItem (confirmed : bool) (selectedInstance : RadarrInstance) (id : Z)
  : Outcome unit * list ViewEvent :=
  if confirmed then
    match removeQueueItem fetch selectedInstance id with
    | (Return _, log) => (Return tt, List.map Shown log ++ [Mutated])
    | (Throw error, log) =>
        (Return tt,
         List.map Shown log ++ [Shown (ConsoleError "Failed to remove queue item:" error)])
    end
  else (Return tt, []).

End QueueActions.

(** ** The missing-movies views: colour, icon and release line *)

Section AvailabilityColor.

Variable Date_parse : string -> option Z.
Variable now : Z.

(** The same text in the list and in the grid version. *)
Definition getAvailabilityColor (movie : Movie) : Color :=
  if no_release_date movie then Color_SecondaryText
  else if after_now now (releaseDate Date_parse movie) then Color_Yellow
  else Color_Red.

End AvailabilityColor.



(** One rendering of an item.  [movieListItem] and [movieGridItem] call
    [getAvailabilityStatus(movie)] and then [getAvailabilityColor(movie)],
    and each call reads the clock with its own [new Date()]:
    [status_reading] is the time the first call sees, [color_reading] the
    time the second one sees. *)
Section ItemAvailability.

Variable Date_parse : string -> option Z.
Variable status_reading : Z.
Variable color_reading : Z.

(** [movieListItem], as far as availability goes: the text and the colour
    of the tag. *)
Definition movieListItem (movie : Movie) : string * Color :=
  let availabilityStatus :=
    MissingMoviesList.getAvailabilityStatus Date_parse status_reading movie in
  let availabilityColor := getAvailabilityColor Date_parse color_reading movie in
  (availabilityStatus, availabilityColor).


End ItemAvailability.

(** [a !== b] for a string [a] and an optional string [b]. *)
Definition differs (a : string) (b : option string) : bool :=
  match b with
  | Some t => negb (String.eqb a t)
  | None => true
  end.

(** U+2022 between two spaces, the bullet as its UTF-8 bytes. *)
Definition bullet_separator : string :=
  String " " (String (ascii_of_N 226) (String (ascii_of_N 128)
    (String (ascii_of_N 162) (String " " EmptyString)))).

Section ReleaseLine.

(** [formatReleaseDate] of [utils.ts], which is not among the sources. *)
Variable formatReleaseDate : string -> string.

(** [if (releaseInfo) releaseInfo += ...; releaseInfo += segment] *)
Definition add_segment (releaseInfo segment : string) : string :=
  (if truthy releaseInfo then releaseInfo +:+ bullet_separator else releaseInfo) +:+ segment.

(** The release line of the list view of missing movies. *)
Definition releaseInfo (movie : Movie) : string :=
  let info0 := EmptyString in
  let info1 :=
    if truthy_opt (inCinemas movie)
    then "Cinema: " +:+ formatReleaseDate (value_of (inCinemas movie))
    else info0 in
  let info2 :=
    if truthy_opt (digitalRelease movie)
       && differs (value_of (digitalRelease movie)) (inCinemas movie)
    then add_segment info1 ("Digital: " +:+ formatReleaseDate (value_of (digitalRelease movie)))
    else info1 in
  if truthy_opt (physicalRelease movie)
     && differs (value_of (physicalRelease movie)) (digitalRelease movie)
  then add_segment info2 ("Physical: " +:+ formatReleaseDate (value_of (physicalRelease movie)))
  else info2.

End ReleaseLine.

(** ** The library and unmonitored grids: the filter before the sort *)

Inductive FileStatusFilter : Type :=
  | filter_all
  | filter_available
  | filter_missing.

(** The callback of [movies.filter] in both grids. *)
Definition passes (fileStatusFilter : FileStatusFilter) (movie : Movie) : bool :=
  match fileStatusFilter with
  | filter_all => true
  | filter_available => hasFile movie
  | filter_missing => negb (hasFile movie)
  end.

(** The movie library: [movies ? movies.filter(...) : []], the list handed
    to [sort]. *)
Definition library_filtered (fileStatusFilter : FileStatusFilter)
    (movies : option (list Movie)) : list Movie :=
  match movies with
  | Some loaded => List.filter (passes fileStatusFilter) loaded
  | None => []
  end.

(** The unmonitored grid: [movies?.filter((movie) => !movie.monitored) || []],
    then the same filter. *)
Definition unmonitoredMovies (movies : option (list Movie)) : list Movie :=
  match movies with
  | Some loaded => List.filter (fun movie => negb (monitored movie)) loaded
  | None => []
  end.

Definition unmonitored_filtered (availabilityFilter : FileStatusFilter)
    (movies : option (list Movie)) : list Movie :=
  List.filter (passes availabilityFilter) (unmonitoredMovies movies).

(** ** The search view *)

(** What [handleAddMovie] reads of a root folder and of a quality profile. *)
Record RootFolder : Type := mkRootFolder { folder_path : string }.
Record QualityProfile : Type := mkQualityProfile { profile_id : Z }.

Section SearchView.

Variable JSON_parse : string -> Outcome JsValue.
Variable JSON_stringify : JsValue -> string.
Variable encodeURIComponent : string -> string.
Variable fetch : Request -> Outcome Response.

(** [formatMovieTitle] of [utils.ts], which is not among the sources. *)
Variable formatMovieTitle : list (string * JsValue) -> string.

(** [handleAddMovie] of the first version: fixed profile and folder. *)
Definition handleAddMovie_fixed (selectedInstance : RadarrInstance)
    (movie : list (string * JsValue)) : Logged unit :=
  try_logged
    (added <- addMovie JSON_parse JSON_stringify fetch selectedInstance movie
                1 "/movies" true true ;;
     emit (ShowToast Success "Movie Added" (formatMovieTitle movie +:+ " added successfully")))
    %logged
    (fun error => emit (ConsoleError "Add movie error:" error)).

(** [handleAddMovie] of the second version; [folders_and_profiles] is what
    [await Promise.all([getRootFolders(...), getQualityProfiles(...)])]
    completes with (the two functions are not among the sources). *)
Definition handleAddMovie (selectedInstance : RadarrInstance)
    (movie : list (string * JsValue))
    (folders_and_profiles : Outcome (list RootFolder * list QualityProfile))
  : Logged unit :=
  try_logged
    (loaded <- quiet folders_and_profiles ;;
     match loaded with
     | ([], _) =>
         emit (ShowToast Failure "No Root Folders"
                 "Please configure root folders in Radarr first")
     | (_ :: _, []) =>
         emit (ShowToast Failure "No Quality Profiles"
                 "Please configure quality profiles in Radarr first")
     | (rootFolder :: _, qualityProfile :: _) =>
         added <- addMovie JSON_parse JSON_stringify fetch selectedInstance movie
                    (profile_id qualityProfile) (folder_path rootFolder) true true ;;
         emit (ShowToast Success "Movie Added"
                 (formatMovieTitle movie +:+ " added successfully"))
     end)%logged
    (fun error =>
       (emit (ConsoleError "Add movie error:" error) ;;;
        emit (ShowToast Failure "Failed to Add Movie" error))%logged).

(** The state the debounced search writes. *)
Record SearchState : Type := mkSearchState {
  searchResults : JsValue;
  isSearching : bool;
}.

(** The [searchMovies(...).then(...).catch(...).finally(...)] chain, once
    settled. *)
Definition search_settled (selectedInstance : RadarrInstance) (searchText : string)
  : SearchState * list Effect :=
  match searchMovies JSON_parse encodeURIComponent fetch selectedInstance searchText with
  | (Return results, log) => ({| searchResults := results; isSearching := false |}, log)
  | (Throw error, log) =>
      ({| searchResults := JsArray []; isSearching := false |},
       log ++ [ConsoleError "Search error:" error])
  end.

(** The callback of [setTimeout] in the first version, run to the end. *)
Definition search_after_typing_v1 (state : SearchState) (selectedInstance : RadarrInstance)
    (searchText : string) : SearchState * list Effect :=
  if negb (truthy (trim searchText)) then
    ({| searchResults := JsArray []; isSearching := isSearching state |}, [])
  else search_settled selectedInstance searchText.

(** The same callback in the second version. *)
Definition search_after_typing (state : SearchState) (selectedInstance : RadarrInstance)
    (searchText : string) : SearchState * list Effect :=
  if negb (truthy (trim searchText))
     || negb (truthy (url selectedInstance))
     || negb (truthy (apiKey selectedInstance))
  then ({| searchResults := JsArray []; isSearching := isSearching state |}, [])
  else search_settled selectedInstance searchText.

End SearchView.

(** ** [useInstanceManager], the hook over the selection store *)

(** The three pieces of state of the hook; [currentInstance] is [null]
    ([None]) until loaded and after a failed load. *)
Record HookState : Type := mkHookState {
  currentInstance : option JsValue;
  isLoading : bool;
  hasOverride : bool;
}.

Section InstanceHook.

Variable JSON_parse : string -> Outcome JsValue.
Variable JSON_stringify : JsValue -> string.
Context {Preferences : Type}.
Variable getRadarrInstances : Preferences -> Outcome (list RadarrInstance).
Variable preferences : Preferences.

(** [loadCurrentInstance]: the state after its [try], [catch] and
    [finally], and the store; the line of [console.error] is not recorded. *)
Definition loadCurrentInstance (state : HookState) (storage : gmap string string)
  : HookState * gmap string string :=
  match getCurrentInstance JSON_parse getRadarrInstances preferences storage with
  | (Return instance, storage1) =>
      match hasInstanceOverride storage1 with
      | (Return override, storage2) =>
          ({| currentInstance := Some instance; isLoading := false;
              hasOverride := override |}, storage2)
      | (Throw _, storage2) =>
          ({| currentInstance := None; isLoading := false;
              hasOverride := hasOverride state |}, storage2)
      end
  | (Throw _, storage1) =>
      ({| currentInstance := None; isLoading := false;
          hasOverride := hasOverride state |}, storage1)
  end.

(** [switchToInstance]: it rethrows what [setCurrentInstance] throws. *)
Definition switchToInstance (instance : RadarrInstance) (state : HookState)
    (storage : gmap string string) : Outcome HookState * gmap string string :=
  match setCurrentInstance JSON_stringify instance storage with
  | (Return _, storage1) =>
      (Return {| currentInstance := Some (js_of_instance instance);
                 isLoading := isLoading state; hasOverride := true |}, storage1)
  | (Throw error, storage1) => (Throw error, storage1)
  end.

(** [resetToPreferences] *)
Definition resetToPreferences (state : HookState) (storage : gmap string string)
  : Outcome HookState * gmap string string :=
  match clearInstanceOverride storage with
  | (Return _, storage1) =>
      let '(loaded, storage2) := loadCurrentInstance state storage1 in
      (Return loaded, storage2)
  | (Throw error, storage1) => (Throw error, storage1)
  end.

End InstanceHook.

(** ** Vocabulary of the statements *)

(** [chosen] is the first entry of [resolved] marked as default. *)
Definition first_marked (chosen : RadarrInstance) (resolved : list RadarrInstance) : Prop :=
  exists before after,
    resolved = before ++ chosen :: after
    /\ isDefault chosen = true
    /\ Forall (fun instance => isDefault instance = false) before.

(** The entry that [getRadarrInstances] builds from the primary slot. *)
Definition primary_instance (preferences : StaticConfig.Preferences) : RadarrInstance :=
  {| name := StaticConfig.primaryInstanceName preferences;
     url := strip_trailing_slash (StaticConfig.primaryInstanceUrl preferences);
     apiKey := StaticConfig.primaryInstanceApiKey preferences;
     isDefault := true |}.

(** The primary slot is filled in: the three fields are not empty. *)
Definition primary_complete (preferences : StaticConfig.Preferences) : Prop :=
  truthy (StaticConfig.primaryInstanceName preferences) = true
  /\ truthy (StaticConfig.primaryInstanceUrl preferences) = true
  /\ truthy (StaticConfig.primaryInstanceApiKey preferences) = true.

(** The freshly resolved configuration has an entry with the name and
    the URL of [selected]. *)
Definition still_configured {Preferences : Type}
    (resolver : Preferences -> Outcome (list RadarrInstance))
    (preferences : Preferences) (selected : RadarrInstance) : Prop :=
  exists available instance,
    resolver preferences = Return available
    /\ In instance available
    /\ name instance = name selected
    /\ url instance = url selected.

(** What [getCurrentInstance] falls back to: the default of the
    configuration, as the object it is at run time. *)
Definition configured_default {Preferences : Type}
    (resolver : Preferences -> Outcome (list RadarrInstance))
    (preferences : Preferences) : Outcome JsValue :=
  (active <- getActiveRadarrInstance resolver preferences ;;
   Return (js_of_instance active))%outcome.

(** The test made by the callback of [availableInstances.some]. *)
Definition same_name_and_url (selected instance : RadarrInstance) : bool :=
  String.eqb (name instance) (name selected) && String.eqb (url instance) (url selected).

(** A date field that is given: neither absent nor the empty string. *)
Definition given (field : option string) (text : string) : Prop :=
  field = Some text /\ text <> EmptyString.

Definition not_given (field : option string) : Prop :=
  field = None \/ field = Some EmptyString.

(** The entry that [getRadarrInstances] builds from the secondary slot. *)
Definition secondary_instance (preferences : StaticConfig.Preferences) : RadarrInstance :=
  {| name := value_of (StaticConfig.secondaryInstanceName preferences);
     url := strip_trailing_slash (value_of (StaticConfig.secondaryInstanceUrl preferences));
     apiKey := value_of (StaticConfig.secondaryInstanceApiKey preferences);
     isDefault := false |}.

(** The secondary slot is switched on and filled in. *)
Definition secondary_complete (preferences : StaticConfig.Preferences) : Prop :=
  StaticConfig.enableSecondaryInstance preferences = Some true
  /\ (exists text, given (StaticConfig.secondaryInstanceName preferences) text)
  /\ (exists text, given (StaticConfig.secondaryInstanceUrl preferences) text)
  /\ (exists text, given (StaticConfig.secondaryInstanceApiKey preferences) text).

(** The property [key] of a decoded value that is not [null]: an own
    property of an object, [undefined] on everything else. *)
Definition field (key : string) (value : JsValue) : JsValue :=
  match value with
  | JsObject properties => property key properties
  | _ => JsUndefined
  end.

(** An element of the JSON array that the resolver accepts: its name and
    its API key are truthy and its URL is a string that is not empty. *)
Definition element_complete (element : JsValue) : Prop :=
  js_truthy (field "name" element) = true
  /\ (exists text, field "url" element = JsString text /\ text <> EmptyString)
  /\ js_truthy (field "apiKey" element) = true.

(** The URL of an accepted element, normalised. *)
Definition normalised_url (element : JsValue) : string :=
  match field "url" element with
  | JsString text => strip_trailing_slash text
  | _ => EmptyString
  end.

(** The object an accepted element is resolved to. *)
Definition entry_of (element : JsValue) : JsValue :=
  JsObject [ ("name", field "name" element);
             ("url", JsString (normalised_url element));
             ("apiKey", field "apiKey" element);
             ("isDefault", JsBool (is_true (field "isDefault" element))) ].

(** A string with a character that is not white space. *)
Definition not_blank (s : string) : Prop := all_white_space s = false.

(** The release date of a movie by precedence: the cinema date, else the
    digital one, else the physical one. *)
Inductive precedence_picks (movie : Movie) (text : string) : Prop :=
  | picks_cinema :
      given (inCinemas movie) text -> precedence_picks movie text
  | picks_digital :
      not_given (inCinemas movie) ->
      given (digitalRelease movie) text -> precedence_picks movie text
  | picks_physical :
      not_given (inCinemas movie) ->
      not_given (digitalRelease movie) ->
      given (physicalRelease movie) text -> precedence_picks movie text.

(** The label the list view gives a release that is [days] whole days old. *)
Definition age_label (days : Z) : string :=
  if days <? 30 then "Recent" else if days <? 90 then "Available" else "Long Available".

(** The queue item carries a duration of its own: a [timeleft] that is
    given and is not the zero duration. *)
Definition server_duration (item : QueueItem) (text : string) : Prop :=
  given (timeleft item) text /\ text <> "00:00:00".

Definition no_server_duration (item : QueueItem) : Prop :=
  not_given (timeleft item) \/ timeleft item = Some "00:00:00".


(** [downloaded / size * 100] in exact arithmetic. *)
Definition exact_percentage (item : QueueItem) : Q :=
  (inject_Z (size item - sizeleft item) / inject_Z (size item) * inject_Z 100)%Q.

(** The value of a double of the Standard Library's specification of
    IEEE 754 arithmetic. *)
Definition value_of_float (f : spec_float) : Number :=
  match f with
  | S754_zero _ => Finite 0
  | S754_infinity false => PlusInfinity
  | S754_infinity true => MinusInfinity
  | S754_nan => NaN
  | S754_finite sign m e =>
      Finite (Qred ((if sign then -1 else 1) * inject_Z (Z.pos m) * 2 ^ e))
  end.

(** A whole number as a double of that specification. *)
Definition float_of_whole (n : Z) : spec_float :=
  match n with
  | Z0 => S754_zero false
  | Z.pos p => SFdiv 53 1024 (S754_finite false p 0) (S754_finite false 1 0)
  | Z.neg p => SFdiv 53 1024 (S754_finite true p 0) (S754_finite false 1 0)
  end.

(** [(a / b) * 100] computed by that specification. *)
Definition library_ratio_times_100 (a b : Z) : Number :=
  value_of_float
    (SFmul 53 1024 (SFdiv 53 1024 (float_of_whole a) (float_of_whole b))
       (float_of_whole 100)).

(** The request that [addMovie] hands to [fetch]. *)
Definition addMovie_sent (JSON_stringify : JsValue -> string)
    (instance : RadarrInstance) (movie : list (string * JsValue))
    (qualityProfileId : Z) (rootFolderPath : string) (monitored searchOnAdd : bool)
  : Request :=
  addMovie_request JSON_stringify instance
    (addMovie_payload movie qualityProfileId rootFolderPath monitored searchOnAdd).

(** What the client leaves behind when a call fails with [message]: a
    console line and one failure toast. *)
Definition reported (label title toast_message message : string) : list Effect :=
  [ ConsoleError label message; ShowToast Failure title toast_message ].

(** The styles of the toasts of a log, in order. *)
Fixpoint toast_styles (log : list Effect) : list ToastStyle :=
  match log with
  | [] => []
  | ShowToast style _ _ :: rest => style :: toast_styles rest
  | ConsoleError _ _ :: rest => toast_styles rest
  end.

(** The icon that goes with a colour in the download queue. *)
Definition icon_of_color (color : Color) : Icon :=
  match color with
  | Color_Red => Icon_XMarkCircle
  | Color_Yellow => Icon_ExclamationMark
  | Color_Blue => Icon_Download
  | Color_Green => Icon_Check
  | Color_SecondaryText => Icon_Clock
  end.

(** ** Configurations and values used as examples *)

Definition main_and_4k : StaticConfig.Preferences :=
  {| StaticConfig.primaryInstanceName := "Main";
     StaticConfig.primaryInstanceUrl := "http://localhost:7878/";
     StaticConfig.primaryInstanceApiKey := "0123456789abcdef";
     StaticConfig.enableSecondaryInstance := Some true;
     StaticConfig.secondaryInstanceName := Some "4K";
     StaticConfig.secondaryInstanceUrl := Some "http://nas.local:7879";
     StaticConfig.secondaryInstanceApiKey := Some "fedcba9876543210" |}.

Definition main_instance : RadarrInstance :=
  {| name := "Main"; url := "http://localhost:7878";
     apiKey := "0123456789abcdef"; isDefault := true |}.

Definition uhd_instance : RadarrInstance :=
  {| name := "4K"; url := "http://nas.local:7879";
     apiKey := "fedcba9876543210"; isDefault := false |}.

(** The secondary slot is switched on but its API key was never typed in. *)
Definition main_and_half_4k : StaticConfig.Preferences :=
  {| StaticConfig.primaryInstanceName := "Main";
     StaticConfig.primaryInstanceUrl := "http://localhost:7878/";
     StaticConfig.primaryInstanceApiKey := "0123456789abcdef";
     StaticConfig.enableSecondaryInstance := Some true;
     StaticConfig.secondaryInstanceName := Some "4K";
     StaticConfig.secondaryInstanceUrl := Some "http://nas.local:7879";
     StaticConfig.secondaryInstanceApiKey := None |}.

(** The primary name is three spaces. *)
Definition blank_name : StaticConfig.Preferences :=
  {| StaticConfig.primaryInstanceName := "   ";
     StaticConfig.primaryInstanceUrl := "http://localhost:7878";
     StaticConfig.primaryInstanceApiKey := "0123456789abcdef";
     StaticConfig.enableSecondaryInstance := None;
     StaticConfig.secondaryInstanceName := None;
     StaticConfig.secondaryInstanceUrl := None;
     StaticConfig.secondaryInstanceApiKey := None |}.

(** A stand-in for [new URL]: a scheme followed by [://]. *)
Fixpoint has_scheme_separator (s : string) : bool :=
  match Json.after "://" s with
  | Some _ => true
  | None =>
      match s with
      | EmptyString => false
      | String _ rest => has_scheme_separator rest
      end
  end.

(** The JSON text of an array with one entry per flag, named A, B, C, ...
    (each URL with a trailing slash), the flag being its [isDefault]. *)
Fixpoint entries (letter : N) (flags : list bool) : list JsValue :=
  match flags with
  | [] => []
  | flag :: rest =>
      let id := String (ascii_of_N letter) EmptyString in
      JsObject [ ("name", JsString id);
                 ("url", JsString ("http://" +:+ String (ascii_of_N (letter + 32)) ":7878/"));
                 ("apiKey", JsString ("key-" +:+ id));
                 ("isDefault", JsBool flag) ]
      :: entries (letter + 1) rest
  end.

Definition json_array_from (letter : N) (flags : list bool) : DynamicConfig.Preferences :=
  DynamicConfig.mkPreferences (Json.stringify (JsArray (entries letter flags))).

Definition json_array_of (flags : list bool) : DynamicConfig.Preferences :=
  json_array_from 65 flags.

Definition instance_A : RadarrInstance :=
  {| name := "A"; url := "http://a:7878"; apiKey := "key-A"; isDefault := false |}.

Definition instance_B : RadarrInstance :=
  {| name := "B"; url := "http://b:7878"; apiKey := "key-B"; isDefault := true |}.

(** 2024-06-01T12:00:00Z, in milliseconds since the epoch. *)
Definition noon_2024_06_01 : Z := 1717243200000.

(** A movie that reached the cinemas the day before [noon_2024_06_01],
    is monitored and has no file. *)
Definition released_yesterday : Movie :=
  {| inCinemas := Some "2024-05-31T12:00:00Z";
     digitalRelease := None;
     physicalRelease := None;
     hasFile := false;
     monitored := true |}.

Definition released_tomorrow : Movie :=
  {| inCinemas := Some "2024-06-02T12:00:00Z";
     digitalRelease := Some "2024-01-01T00:00:00Z";
     physicalRelease := None;
     hasFile := false;
     monitored := true |}.

Definition no_dates : Movie :=
  {| inCinemas := None; digitalRelease := None; physicalRelease := None;
     hasFile := false; monitored := true |}.

(** A stand-in for [formatFileSize]: the byte count and its unit. *)
Definition bytes (n : Z) : string := pretty n +:+ " B".

Definition three_quarters_done : QueueItem :=
  {| size := 100; sizeleft := 25; timeleft := None; estimatedCompletionTime := None |}.

Definition ends_in_ninety_minutes : QueueItem :=
  {| size := 100; sizeleft := 25; timeleft := Some "00:00:00";
     estimatedCompletionTime := Some "2024-06-01T13:30:59Z" |}.

(** The lookup result of a search, and two servers: one that creates the
    movie and answers 201 with the created resource, one that rejects the
    request with 400 and a JSON body of errors. *)
Definition dune_lookup : list (string * JsValue) :=
  [ ("title", JsString "Dune"); ("year", JsNumber 2021); ("tmdbId", JsNumber 438631) ].

Definition created_dune : JsValue :=
  JsObject [ ("id", JsNumber 42); ("title", JsString "Dune"); ("year", JsNumber 2021);
             ("tmdbId", JsNumber 438631); ("monitored", JsBool true) ].

Definition rejection : string :=
  Json.stringify (JsArray [ JsObject [ ("errorMessage", JsString "This movie has already been added") ] ]).

Definition creating_server (request : Request) : Outcome Response :=
  Return {| status := 201; statusText := "Created";
            text := Return (Json.stringify created_dune) |}.

Definition rejecting_server (request : Request) : Outcome Response :=
  Return {| status := 400; statusText := "Bad Request"; text := Return rejection |}.

Definition unreachable_server (request : Request) : Outcome Response :=
  Throw "fetch failed".

(** A JSON array of two entries, the second one without an API key. *)
Definition complete_entry : JsValue :=
  JsObject [ ("name", JsString "A"); ("url", JsString "http://a:7878/");
             ("apiKey", JsString "key-A") ].

Definition entry_without_key : JsValue :=
  JsObject [ ("name", JsString "B"); ("url", JsString "http://b:7878/");
             ("isDefault", JsBool true) ].

Definition second_entry_without_key : DynamicConfig.Preferences :=
  DynamicConfig.mkPreferences
    (Json.stringify (JsArray [ complete_entry; entry_without_key ])).

(** Elements outside the declared type: [null], a numeric name, a numeric
    URL. *)
Definition entry_then_null : DynamicConfig.Preferences :=
  DynamicConfig.mkPreferences (Json.stringify (JsArray [ complete_entry; JsNull ])).

Definition entry_with_numeric_name : JsValue :=
  JsObject [ ("name", JsNumber 5); ("url", JsString "http://a:7878/");
             ("apiKey", JsString "key-A") ].

Definition entry_with_numeric_url : JsValue :=
  JsObject [ ("name", JsString "A"); ("url", JsNumber 7878);
             ("apiKey", JsString "key-A") ].

(** A stand-in for [encodeURIComponent]: unreserved ASCII characters are
    kept, every other code unit below 128 becomes [%XX] (upper-case hex). *)
Definition percent_encode_one (c : ascii) : string :=
  let n := N_of_ascii c in
  let upper (d : N) : ascii := ascii_of_N (if (d <? 10)%N then 48 + d else 55 + d)%N in
  if ((48 <=? n) && (n <=? 57) || (65 <=? n) && (n <=? 90) || (97 <=? n) && (n <=? 122)
      || (n =? 45) || (n =? 95) || (n =? 46) || (n =? 33) || (n =? 126) || (n =? 42)
      || (n =? 39) || (n =? 40) || (n =? 41))%N
  then String c EmptyString
  else String "%" (String (upper (n / 16)%N) (String (upper (n mod 16)%N) EmptyString)).

Fixpoint percent_encode (s : string) : string :=
  match s with
  | EmptyString => EmptyString
  | String c rest => percent_encode_one c +:+ percent_encode rest
  end.

(** A server that answers the lookup with one result, and one that has no
    such queue item. *)
Definition lookup_server (request : Request) : Outcome Response :=
  Return {| status := 200; statusText := "OK";
            text := Return (Json.stringify (JsArray [ JsObject dune_lookup ])) |}.

Definition not_found_server (request : Request) : Outcome Response :=
  Return {| status := 404; statusText := "Not Found"; text := Return EmptyString |}.

Definition deleting_server (request : Request) : Outcome Response :=
  Return {| status := 200; statusText := "OK"; text := Return EmptyString |}.

Definition title_of (movie : list (string * JsValue)) : string :=
  template_string (property "title" movie).

(** * Properties *)

(** ** Strings *)

Lemma truthy_true (s : string) : truthy s = true <-> s <> EmptyString.
Proof. destruct s; simpl; split; intros H; congruence. Qed.

Lemma truthy_false (s : string) : truthy s = false <-> s = EmptyString.
Proof. destruct s; simpl; split; intros H; congruence. Qed.

Lemma strip_trailing_slash_cons (c d : ascii) (rest : string) :
  strip_trailing_slash (String c (String d rest))
  = String c (strip_trailing_slash (String d rest)).
Proof. reflexivity. Qed.

(** The normalisation removes a final slash and nothing else. *)
Lemma strip_trailing_slash_append (p : string) :
  strip_trailing_slash (p +:+ "/") = p.
Proof.
  induction p as [|c p IH]; [reflexivity|].
  destruct p as [|d p].
  - reflexivity.
  - change (String c (String d p) +:+ "/") with (String c (String d (p +:+ "/"))).
    rewrite strip_trailing_slash_cons. f_equal. exact IH.
Qed.

Lemma strip_trailing_slash_id (s : string) :
  ends_with "/" s = false -> strip_trailing_slash s = s.
Proof.
  induction s as [|c s IH]; [reflexivity|].
  destruct s as [|d s].
  - simpl. destruct (Ascii.eqb_spec c "/"%char) as [->|Hc]; [discriminate|reflexivity].
  - intros H. rewrite strip_trailing_slash_cons. f_equal. apply IH.
    simpl in H. simpl. apply orb_false_iff in H as [_ H]. exact H.
Qed.

Lemma strip_trailing_slash_empty (s : string) :
  strip_trailing_slash s = EmptyString -> s = EmptyString \/ s = "/".
Proof.
  destruct s as [|c [|d s]]; simpl; intros H.
  - auto.
  - destruct (Ascii.eqb_spec c "/"%char) as [Hc|Hc]; [subst c; auto | discriminate].
  - discriminate.
Qed.

(** C3, as amended: for every URL [u] that does not end in two slashes (so
    for every URL with exactly one trailing slash), normalising twice gives
    what normalising once gives; the one trailing slash is what the
    normalisation removes. *)
Theorem normalize_idempotent_single_slash (u : string) :
  ends_with "//" u = false ->
  strip_trailing_slash (strip_trailing_slash u) = strip_trailing_slash u.
Proof.
  induction u as [|c u IH]; [reflexivity|].
  destruct u as [|d u].
  - intros _. simpl. destruct (Ascii.eqb_spec c "/"%char) as [->|Hc]; [reflexivity|].
    simpl. destruct (Ascii.eqb_spec c "/"%char); [contradiction|reflexivity].
  - intros H. rewrite strip_trailing_slash_cons.
    assert (Hrest : ends_with "//" (String d u) = false).
    { simpl in H. apply orb_false_iff in H as [_ H]. exact H. }
    specialize (IH Hrest).
    destruct (strip_trailing_slash (String d u)) as [|e kept] eqn:Hkept.
    + apply strip_trailing_slash_empty in Hkept as [Hkept|Hkept]; [discriminate|].
      injection Hkept as -> ->.
      simpl. destruct (Ascii.eqb_spec c "/"%char) as [->|Hc]; [|reflexivity].
      discriminate H.
    + rewrite strip_trailing_slash_cons. f_equal. exact IH.
Qed.

Lemma normalize_idempotent_single_slash_witness :
  ends_with "//" "http://localhost:7878/" = false
  /\ strip_trailing_slash (strip_trailing_slash "http://localhost:7878/")
     = strip_trailing_slash "http://localhost:7878/".
Proof.
  split; [reflexivity|].
  apply (normalize_idempotent_single_slash "http://localhost:7878/"). reflexivity.
Defined.

(** C3 as stated fails: a URL with two trailing slashes loses one slash
    per pass, so the second pass changes the result of the first. *)
Lemma normalize_not_idempotent_double_slash :
  ends_with "/" "http://localhost:7878//" = true
  /\ strip_trailing_slash "http://localhost:7878//" = "http://localhost:7878/"
  /\ strip_trailing_slash (strip_trailing_slash "http://localhost:7878//")
     = "http://localhost:7878"
  /\ strip_trailing_slash (strip_trailing_slash "http://localhost:7878//")
     <> strip_trailing_slash "http://localhost:7878//".
Proof. repeat split; try reflexivity. discriminate. Qed.

(** ** The default instance *)

Lemma find_first_marked (resolved : list RadarrInstance) (chosen : RadarrInstance) :
  List.find isDefault resolved = Some chosen -> first_marked chosen resolved.
Proof.
  induction resolved as [|instance rest IH]; simpl; [discriminate|].
  destruct (isDefault instance) eqn:Hmark.
  - intros [= <-]. exists [], rest. auto.
  - intros Hfind. destruct (IH Hfind) as (before & after & -> & Hchosen & Hbefore).
    exists (instance :: before), after. auto.
Qed.

Lemma find_none_marked (resolved : list RadarrInstance) :
  List.find isDefault resolved = None ->
  Forall (fun instance => isDefault instance = false) resolved.
Proof.
  induction resolved as [|instance rest IH]; simpl; [constructor|].
  destruct (isDefault instance) eqn:Hmark; [discriminate|].
  intros Hfind. constructor; auto.
Qed.

Lemma first_marked_find (resolved : list RadarrInstance) (chosen : RadarrInstance) :
  first_marked chosen resolved -> List.find isDefault resolved = Some chosen.
Proof.
  intros (before & after & -> & Hchosen & Hbefore).
  induction Hbefore as [|instance before Hmark _ IH]; simpl.
  - rewrite Hchosen. reflexivity.
  - rewrite Hmark. exact IH.
Qed.

Lemma first_marked_unique (resolved : list RadarrInstance) (a b : RadarrInstance) :
  first_marked a resolved -> first_marked b resolved -> a = b.
Proof.
  intros Ha Hb. apply first_marked_find in Ha, Hb. congruence.
Qed.

Lemma defaultOf_contract (resolved : list RadarrInstance) :
  match resolved with
  | [] => defaultOf resolved = Throw "No Radarr instances configured"
  | first :: _ =>
      exists chosen,
        defaultOf resolved = Return chosen
        /\ In chosen resolved
        /\ ((first_marked chosen resolved
             /\ forall other, first_marked other resolved -> other = chosen)
            \/ (Forall (fun instance => isDefault instance = false) resolved
                /\ chosen = first))
  end.
Proof.
  destruct resolved as [|first rest]; [reflexivity|].
  unfold defaultOf. destruct (List.find isDefault (first :: rest)) as [chosen|] eqn:Hfind.
  - exists chosen. split; [reflexivity|]. split.
    + apply List.find_some in Hfind. tauto.
    + left. pose proof (find_first_marked _ _ Hfind) as Hfirst. split; [exact Hfirst|].
      intros other Hother. exact (first_marked_unique _ _ _ Hother Hfirst).
  - exists first. split; [reflexivity|]. split; [left; reflexivity|].
    right. split; [exact (find_none_marked _ Hfind)|reflexivity].
Qed.

(** C2: when the configuration resolves to [resolved], [getDefault()]
    fails with the no-instances error if [resolved] is empty; otherwise it
    returns a member of [resolved], which is the first entry marked as
    default when some entry is marked (it is the only entry that can be
    picked, however many are marked), and the first entry when none is. *)
Theorem default_selection (configuration : Configuration) (resolved : list RadarrInstance) :
  resolved_instances configuration = Return resolved ->
  match resolved with
  | [] => resolved_default configuration = Throw "No Radarr instances configured"
  | first :: _ =>
      exists chosen,
        resolved_default configuration = Return chosen
        /\ In chosen resolved
        /\ ((first_marked chosen resolved
             /\ forall other, first_marked other resolved -> other = chosen)
            \/ (Forall (fun instance => isDefault instance = false) resolved
                /\ chosen = first))
  end.
Proof.
  intros Hresolved.
  assert (Hdefault : resolved_default configuration = defaultOf resolved).
  { destruct configuration as [preferences|JSON_parse preferences]; simpl in *.
    - unfold StaticConfig.getDefaultRadarrInstance. rewrite Hresolved. reflexivity.
    - unfold DynamicConfig.getDefaultRadarrInstance. rewrite Hresolved. reflexivity. }
  rewrite Hdefault. exact (defaultOf_contract resolved).
Qed.

Lemma default_selection_witness :
  resolved_instances (TwoSlots main_and_4k) = Return [main_instance; uhd_instance]
  /\ exists chosen,
       resolved_default (TwoSlots main_and_4k) = Return chosen
       /\ In chosen [main_instance; uhd_instance]
       /\ ((first_marked chosen [main_instance; uhd_instance]
            /\ forall other,
                 first_marked other [main_instance; uhd_instance] -> other = chosen)
           \/ (Forall (fun instance => isDefault instance = false)
                 [main_instance; uhd_instance]
               /\ chosen = main_instance)).
Proof.
  split; [reflexivity|].
  exact (default_selection (TwoSlots main_and_4k) [main_instance; uhd_instance] eq_refl).
Defined.

(** The JSON-array preference: two entries marked, none marked, no entry. *)
Example default_of_two_marked :
  resolved_default (JsonArray parse_instances (json_array_of [false; true; true]))
  = Return instance_B.
Proof. reflexivity. Qed.

Example default_of_none_marked :
  resolved_default (JsonArray parse_instances (json_array_of [false; false]))
  = Return instance_A.
Proof. reflexivity. Qed.

Example default_of_no_entry :
  resolved_instances (JsonArray parse_instances (json_array_of [])) = Return []
  /\ resolved_default (JsonArray parse_instances (json_array_of []))
     = Throw "No Radarr instances configured".
Proof. split; reflexivity. Qed.

(** ** The two-slot resolver and the validation entry point *)

Lemma resolves_primary (preferences : StaticConfig.Preferences) :
  primary_complete preferences ->
  exists rest,
    StaticConfig.getRadarrInstances preferences
    = Return (primary_instance preferences :: rest).
Proof.
  intros (Hname & Hurl & Hkey). unfold StaticConfig.getRadarrInstances.
  rewrite Hname, Hurl, Hkey. simpl.
  match goal with |- context [if ?c then _ else _] => destruct c end;
    eexists; reflexivity.
Qed.

(** C9: with the primary slot filled in and the secondary slot switched
    on, a secondary name, URL or API key that is missing or empty makes
    resolution return the primary instance alone; nothing is thrown. *)
Theorem partial_secondary_is_omitted (preferences : StaticConfig.Preferences) :
  primary_complete preferences ->
  truthy_flag (StaticConfig.enableSecondaryInstance preferences) = true ->
  truthy_opt (StaticConfig.secondaryInstanceName preferences) = false
  \/ truthy_opt (StaticConfig.secondaryInstanceUrl preferences) = false
  \/ truthy_opt (StaticConfig.secondaryInstanceApiKey preferences) = false ->
  StaticConfig.getRadarrInstances preferences = Return [primary_instance preferences].
Proof.
  intros (Hname & Hurl & Hkey) Henabled Hpartial. unfold StaticConfig.getRadarrInstances.
  rewrite Hname, Hurl, Hkey, Henabled. simpl.
  destruct Hpartial as [H|[H|H]]; rewrite H;
    rewrite ?andb_false_r; reflexivity.
Qed.

Lemma partial_secondary_is_omitted_witness :
  StaticConfig.getRadarrInstances main_and_half_4k = Return [main_instance].
Proof.
  apply (partial_secondary_is_omitted main_and_half_4k).
  - repeat split.
  - reflexivity.
  - right. right. reflexivity.
Defined.

Lemma trimEnd_keeps (c : ascii) (rest : string) :
  is_white_space c = false -> truthy (trimEnd (String c rest)) = true.
Proof.
  intros Hc. simpl. destruct (trimEnd rest); [rewrite Hc|]; reflexivity.
Qed.

(** [!s.trim()] holds exactly of the strings made of white space. *)
Lemma trim_truthy (s : string) : truthy (trim s) = negb (all_white_space s).
Proof.
  induction s as [|c s IH]; [reflexivity|].
  unfold trim. simpl. destruct (is_white_space c) eqn:Hc; simpl.
  - exact IH.
  - apply trimEnd_keeps. exact Hc.
Qed.

Lemma white_space_no_slash (s : string) :
  all_white_space s = true -> ends_with "/" s = false.
Proof.
  induction s as [|c s IH]; [reflexivity|].
  simpl. intros H. apply andb_true_iff in H as [Hc Hs].
  rewrite (IH Hs), orb_false_r.
  destruct (Ascii.eqb_spec c "/"%char) as [Heq|Hne].
  - subst c. discriminate Hc.
  - destruct s; simpl; [|reflexivity].
    destruct (Ascii.eqb_spec c "/"%char); [contradiction|reflexivity].
Qed.

(** C10: when the three primary fields are non-empty and one of them is
    made of white space only, resolution succeeds and its first entry is
    the primary instance, and [validateRadarrInstance] throws on that very
    entry, with the emptiness message of the first blank field in the
    order name, URL, API key. *)
Theorem blank_primary_resolves_but_fails_validation
    (URL_parses : string -> bool) (preferences : StaticConfig.Preferences) :
  primary_complete preferences ->
  all_white_space (StaticConfig.primaryInstanceName preferences) = true
  \/ all_white_space (StaticConfig.primaryInstanceUrl preferences) = true
  \/ all_white_space (StaticConfig.primaryInstanceApiKey preferences) = true ->
  exists rest message,
    StaticConfig.getRadarrInstances preferences
    = Return (primary_instance preferences :: rest)
    /\ validateRadarrInstance URL_parses (primary_instance preferences) = Throw message
    /\ In message [ "Instance name cannot be empty";
                    "Instance URL cannot be empty";
                    "Instance API key cannot be empty" ]
    /\ (all_white_space (StaticConfig.primaryInstanceName preferences) = true ->
        message = "Instance name cannot be empty")
    /\ (all_white_space (StaticConfig.primaryInstanceName preferences) = false ->
        all_white_space (StaticConfig.primaryInstanceUrl preferences) = true ->
        message = "Instance URL cannot be empty")
    /\ (all_white_space (StaticConfig.primaryInstanceName preferences) = false ->
        all_white_space (url (primary_instance preferences)) = false ->
        message = "Instance API key cannot be empty").
Proof.
  intros Hcomplete Hblank.
  destruct (resolves_primary preferences Hcomplete) as [rest Hresolved].
  exists rest.
  unfold validateRadarrInstance. rewrite !trim_truthy, !negb_involutive.
  cbn [name url apiKey primary_instance].
  destruct (all_white_space (StaticConfig.primaryInstanceName preferences)) eqn:Hname.
  { eexists. split; [exact Hresolved|]. split; [reflexivity|].
    split; [simpl; auto|]. repeat split; intros; congruence. }
  destruct (all_white_space (strip_trailing_slash
                               (StaticConfig.primaryInstanceUrl preferences))) eqn:Hurl.
  { eexists. split; [exact Hresolved|]. split; [reflexivity|].
    split; [simpl; auto|]. repeat split; intros; congruence. }
  assert (Hurl' : all_white_space (StaticConfig.primaryInstanceUrl preferences) = false).
  { destruct (all_white_space (StaticConfig.primaryInstanceUrl preferences)) eqn:Hraw;
      [|reflexivity].
    rewrite (strip_trailing_slash_id _ (white_space_no_slash _ Hraw)) in Hurl.
    congruence. }
  destruct Hblank as [H|[H|H]]; [congruence|congruence|].
  rewrite H.
  eexists. split; [exact Hresolved|]. split; [reflexivity|].
  split; [simpl; auto|]. repeat split; intros; congruence.
Qed.

Lemma blank_primary_resolves_but_fails_validation_witness :
  exists rest message,
    StaticConfig.getRadarrInstances blank_name
    = Return (primary_instance blank_name :: rest)
    /\ validateRadarrInstance has_scheme_separator (primary_instance blank_name)
       = Throw message
    /\ In message [ "Instance name cannot be empty";
                    "Instance URL cannot be empty";
                    "Instance API key cannot be empty" ]
    /\ (all_white_space (StaticConfig.primaryInstanceName blank_name) = true ->
        message = "Instance name cannot be empty")
    /\ (all_white_space (StaticConfig.primaryInstanceName blank_name) = false ->
        all_white_space (StaticConfig.primaryInstanceUrl blank_name) = true ->
        message = "Instance URL cannot be empty")
    /\ (all_white_space (StaticConfig.primaryInstanceName blank_name) = false ->
        all_white_space (url (primary_instance blank_name)) = false ->
        message = "Instance API key cannot be empty").
Proof.
  apply (blank_primary_resolves_but_fails_validation has_scheme_separator blank_name).
  - repeat split.
  - left. reflexivity.
Defined.

(** The same instance on both sides, run. *)
Example blank_name_runs :
  StaticConfig.getRadarrInstances blank_name = Return [primary_instance blank_name]
  /\ validateRadarrInstance has_scheme_separator (primary_instance blank_name)
     = Throw "Instance name cannot be empty".
Proof. split; reflexivity. Qed.

(** ** The selection store *)

Section SelectionStore.

Variable JSON_parse : string -> Outcome JsValue.
Variable JSON_stringify : JsValue -> string.
Context {Preferences : Type}.
Variable resolver : Preferences -> Outcome (list RadarrInstance).

Lemma js_get_name (selected : RadarrInstance) :
  js_get (js_of_instance selected) "name" = Return (JsString (name selected)).
Proof. reflexivity. Qed.

Lemma js_get_url (selected : RadarrInstance) :
  js_get (js_of_instance selected) "url" = Return (JsString (url selected)).
Proof. reflexivity. Qed.

Lemma some_matches_instance (available : list RadarrInstance) (selected : RadarrInstance) :
  some_matches available (js_of_instance selected)
  = Return (existsb (same_name_and_url selected) available).
Proof.
  induction available as [|instance rest IH]; [reflexivity|].
  cbn [some_matches existsb]. rewrite js_get_name. cbn [bind strict_equals].
  unfold same_name_and_url at 1.
  destruct (String.eqb (name instance) (name selected)); cbn [andb orb].
  - rewrite js_get_url. cbn [bind strict_equals].
    destruct (String.eqb (url instance) (url selected)); [reflexivity|exact IH].
  - exact IH.
Qed.

Lemma existsb_still_configured (preferences : Preferences)
    (available : list RadarrInstance) (selected : RadarrInstance) :
  resolver preferences = Return available ->
  existsb (same_name_and_url selected) available = true
  <-> still_configured resolver preferences selected.
Proof.
  intros Hresolved. rewrite existsb_exists. split.
  - intros (instance & Hin & Hsame). unfold same_name_and_url in Hsame.
    apply andb_true_iff in Hsame as [Hname Hurl].
    apply String.eqb_eq in Hname, Hurl.
    exists available, instance. auto.
  - intros (available' & instance & Hresolved' & Hin & Hname & Hurl).
    assert (available' = available) as -> by congruence.
    exists instance. split; [exact Hin|]. unfold same_name_and_url.
    rewrite Hname, Hurl, !String.eqb_refl. reflexivity.
Qed.

Lemma not_configured_when_resolution_throws (preferences : Preferences)
    (selected : RadarrInstance) (message : string) :
  resolver preferences = Throw message ->
  ~ still_configured resolver preferences selected.
Proof. intros Hthrow (available & instance & Hresolved & _). congruence. Qed.

(** The override is read back: what [getCurrentInstance] does on a store
    whose slot holds a text that parses to the object of [selected]. *)
Lemma getCurrentInstance_on_override (preferences : Preferences)
    (selected : RadarrInstance) (storage : gmap string string) (text : string) :
  storage !! SELECTED_INSTANCE_KEY = Some text ->
  truthy text = true ->
  JSON_parse text = Return (js_of_instance selected) ->
  (still_configured resolver preferences selected ->
   getCurrentInstance JSON_parse resolver preferences storage
   = (Return (js_of_instance selected), storage))
  /\ (~ still_configured resolver preferences selected ->
      getCurrentInstance JSON_parse resolver preferences storage
      = (configured_default resolver preferences,
         delete SELECTED_INSTANCE_KEY storage)).
Proof.
  intros Hslot Htext Hparse.
  unfold getCurrentInstance, await, LocalStorage_getItem.
  rewrite Hslot. unfold selected_if_still_configured.
  cbn [truthy_opt value_of default from_option id]. rewrite Htext.
  unfold try_async, await, sync. rewrite Hparse.
  destruct (resolver preferences) as [available|message] eqn:Hresolved.
  - rewrite some_matches_instance.
    pose proof (existsb_still_configured preferences available selected Hresolved) as Hiff.
    destruct (existsb (same_name_and_url selected) available); split; intros Hconf.
    + reflexivity.
    + exfalso. apply Hconf, Hiff. reflexivity.
    + apply Hiff in Hconf. discriminate.
    + reflexivity.
  - split; intros Hconf.
    + exfalso.
      exact (not_configured_when_resolution_throws preferences selected message
               Hresolved Hconf).
    + reflexivity.
Qed.

(** A slot whose text is not JSON is emptied, and the default is used. *)
Lemma getCurrentInstance_on_garbage (preferences : Preferences)
    (storage : gmap string string) (text message : string) :
  storage !! SELECTED_INSTANCE_KEY = Some text ->
  truthy text = true ->
  JSON_parse text = Throw message ->
  getCurrentInstance JSON_parse resolver preferences storage
  = (configured_default resolver preferences, delete SELECTED_INSTANCE_KEY storage).
Proof.
  intros Hslot Htext Hparse.
  unfold getCurrentInstance, await, LocalStorage_getItem.
  rewrite Hslot. unfold selected_if_still_configured.
  cbn [truthy_opt value_of default from_option id]. rewrite Htext.
  unfold try_async, await, sync. rewrite Hparse. reflexivity.
Qed.

End SelectionStore.

(** ** The JSON codec on instances *)

Lemma append_cons (x : ascii) (a b : string) : String x a +:+ b = String x (a +:+ b).
Proof. reflexivity. Qed.

Lemma append_nil (b : string) : EmptyString +:+ b = b.
Proof. reflexivity. Qed.

Lemma append_assoc (a b c : string) : (a +:+ b) +:+ c = a +:+ (b +:+ c).
Proof.
  induction a as [|x a IH]; [reflexivity|].
  rewrite !append_cons, IH. reflexivity.
Qed.

Lemma length_append (a b : string) :
  String.length (a +:+ b) = (String.length a + String.length b)%nat.
Proof.
  induction a as [|x a IH]; [reflexivity|].
  rewrite append_cons. cbn [String.length]. rewrite IH. reflexivity.
Qed.

Lemma string_literal_escape_one (c : ascii) (rest : string) :
  Json.string_literal (Json.escape c +:+ rest)
  = match Json.string_literal rest with
    | Some (body, after) => Some (String c body, after)
    | None => None
    end.
Proof.
  destruct c as [[] [] [] [] [] [] [] []]; reflexivity.
Qed.

Lemma string_literal_quote (s rest : string) :
  Json.string_literal (Json.escape_all s +:+ String Json.quote_mark rest) = Some (s, rest).
Proof.
  induction s as [|c s IH]; [reflexivity|].
  cbn [Json.escape_all]. rewrite append_assoc, string_literal_escape_one, IH. reflexivity.
Qed.


(** Comparisons between two given characters, and white space skipped in
    front of a given character that is none. *)
Ltac decide_chars :=
  repeat match goal with
         | |- context [Ascii.eqb ?a ?b] =>
             let r := eval vm_compute in (Ascii.eqb a b) in
             lazymatch r with
             | true => change (Ascii.eqb a b) with true
             | false => change (Ascii.eqb a b) with false
             end
         end.

Ltac skip_at_mark :=
  repeat match goal with
         | |- context [Json.skip_white_space (String ?c ?x)] =>
             let r := eval vm_compute in (Json.skip_white_space (String c EmptyString)) in
             lazymatch r with
             | String _ _ => change (Json.skip_white_space (String c x)) with (String c x)
             end
         end.

Lemma value_of_string (fuel : nat) (s rest : string) :
  Json.value (S fuel)
    (String Json.quote_mark (Json.escape_all s +:+ String Json.quote_mark rest))
  = Some (JsString s, rest).
Proof.
  cbn [Json.value]. skip_at_mark. cbv beta iota. decide_chars.
  rewrite string_literal_quote. reflexivity.
Qed.

Lemma value_of_bool (fuel : nat) (b : bool) (rest : string) :
  Json.value (S fuel) ((if b then "true" else "false") +:+ rest)
  = Some (JsBool b, rest).
Proof. destruct b; reflexivity. Qed.

Lemma member_then_more (fuel fuel' : nat) (key s rest : string) :
  Json.members (Json.value (S fuel')) (S fuel)
    (String Json.quote_mark
       (Json.escape_all key +:+ String Json.quote_mark
          (String ":"
             (String Json.quote_mark
                (Json.escape_all s +:+ String Json.quote_mark (String "," rest))))))
  = match Json.members (Json.value (S fuel')) fuel rest with
    | Some (ms, rest') => Some ((key, JsString s) :: ms, rest')
    | None => None
    end.
Proof.
  cbn [Json.members]. skip_at_mark. cbv beta iota. decide_chars.
  rewrite string_literal_quote. skip_at_mark. cbv beta iota. decide_chars.
  rewrite value_of_string. skip_at_mark. cbv beta iota. decide_chars.
  reflexivity.
Qed.

Lemma last_member (fuel fuel' : nat) (key : string) (b : bool) (rest : string) :
  Json.members (Json.value (S fuel')) (S fuel)
    (String Json.quote_mark
       (Json.escape_all key +:+ String Json.quote_mark
          (String ":" ((if b then "true" else "false") +:+ String "}" rest))))
  = Some ([(key, JsBool b)], rest).
Proof.
  cbn [Json.members]. skip_at_mark. cbv beta iota. decide_chars.
  rewrite string_literal_quote. skip_at_mark. cbv beta iota. decide_chars.
  rewrite value_of_bool. skip_at_mark. cbv beta iota. decide_chars.
  reflexivity.
Qed.

Lemma value_of_object (fuel : nat) (text : string) :
  Json.value (S fuel) (String "{" (String Json.quote_mark text))
  = match Json.members (Json.value fuel) fuel (String Json.quote_mark text) with
    | Some (ms, rest) => Some (JsObject ms, rest)
    | None => None
    end.
Proof. reflexivity. Qed.

(** The codec reads back the text it writes for an instance, whatever its
    fields contain. *)
Lemma json_round_trip (X : RadarrInstance) :
  Json.parse (Json.stringify (js_of_instance X)) = Return (js_of_instance X).
Proof.
  destruct X as [n u k d]. unfold js_of_instance. cbn [name url apiKey isDefault].
  cbn [Json.stringify]. unfold Json.quote.
  repeat first [ progress cbn [truthy]
               | progress rewrite ?append_cons, ?append_nil, ?append_assoc ].
  replace (match d with true => "true" | false => "false" end +:+ "}")%string
    with ((if d then "true" else "false") +:+ String "}" EmptyString)
    by (destruct d; reflexivity).
  unfold Json.parse.
  match goal with
  | |- context [Json.value (S (String.length ?t)) _] =>
      assert (Hfuel : exists fuel, String.length t = S (S (S (S (S fuel)))))
  end.
  { cbn [String.length]. rewrite !length_append. cbn [String.length].
    match goal with |- exists f, S (S (?a + (S ?b))) = _ => exists (a + b - 2)%nat end.
    change (String.length (Json.escape_all "name")) with 4%nat. lia. }
  destruct Hfuel as [fuel ->].
  rewrite value_of_object, !member_then_more, last_member. reflexivity.
Qed.

Lemma json_text_truthy (X : RadarrInstance) :
  truthy (Json.stringify (js_of_instance X)) = true.
Proof. reflexivity. Qed.

(** With this codec as the host's JSON, the selection is read back for
    every instance and every configuration. *)
Corollary selection_read_back_with_codec {Preferences : Type}
    (resolver : Preferences -> Outcome (list RadarrInstance))
    (preferences : Preferences) (selected : RadarrInstance)
    (storage : gmap string string) :
  let stored := snd (setCurrentInstance Json.stringify selected storage) in
  (still_configured resolver preferences selected ->
   getCurrentInstance Json.parse resolver preferences stored
   = (Return (js_of_instance selected), stored))
  /\ (~ still_configured resolver preferences selected ->
      getCurrentInstance Json.parse resolver preferences stored
      = (configured_default resolver preferences, delete SELECTED_INSTANCE_KEY stored)).
Proof.
  intros stored.
  apply (getCurrentInstance_on_override Json.parse resolver preferences selected stored
           (Json.stringify (js_of_instance selected))).
  - unfold stored, setCurrentInstance, LocalStorage_setItem. cbn [snd].
    apply lookup_insert_eq.
  - apply json_text_truthy.
  - apply json_round_trip.
Qed.

(** C1: let [selected] be an instance whose JSON text is read back by
    [JSON.parse] as the same object.  After [setCurrentInstance(selected)],
    [getCurrentInstance()] returns [selected] and keeps the override when
    the freshly resolved configuration has an entry with the same name and
    URL; when it has none, the call deletes the override and completes as
    the default of the configuration does.  A stored text that fails to
    parse is deleted in the same way, with the same result. *)
Theorem current_instance_after_set
    (JSON_parse : string -> Outcome JsValue) (JSON_stringify : JsValue -> string)
    {Preferences : Type} (resolver : Preferences -> Outcome (list RadarrInstance))
    (preferences : Preferences) (selected : RadarrInstance)
    (storage : gmap string string) :
  JSON_parse (JSON_stringify (js_of_instance selected)) = Return (js_of_instance selected) ->
  truthy (JSON_stringify (js_of_instance selected)) = true ->
  let stored := snd (setCurrentInstance JSON_stringify selected storage) in
  (still_configured resolver preferences selected ->
   getCurrentInstance JSON_parse resolver preferences stored
   = (Return (js_of_instance selected), stored))
  /\ (~ still_configured resolver preferences selected ->
      getCurrentInstance JSON_parse resolver preferences stored
      = (configured_default resolver preferences, delete SELECTED_INSTANCE_KEY stored)
      /\ delete SELECTED_INSTANCE_KEY stored !! SELECTED_INSTANCE_KEY = None)
  /\ (forall (other : gmap string string) (text message : string),
        other !! SELECTED_INSTANCE_KEY = Some text ->
        truthy text = true ->
        JSON_parse text = Throw message ->
        getCurrentInstance JSON_parse resolver preferences other
        = (configured_default resolver preferences, delete SELECTED_INSTANCE_KEY other)
        /\ delete SELECTED_INSTANCE_KEY other !! SELECTED_INSTANCE_KEY = None).
Proof.
  intros Hroundtrip Htext stored.
  assert (Hslot : stored !! SELECTED_INSTANCE_KEY
                  = Some (JSON_stringify (js_of_instance selected))).
  { unfold stored, setCurrentInstance, LocalStorage_setItem. cbn [snd].
    apply lookup_insert_eq. }
  destruct (getCurrentInstance_on_override JSON_parse resolver preferences selected
              stored _ Hslot Htext Hroundtrip) as [Hkept Hdropped].
  split; [exact Hkept|]. split.
  - intros Hgone. split; [exact (Hdropped Hgone)|apply lookup_delete_eq].
  - intros other text message Hother Htruthy Hthrow.
    split; [|apply lookup_delete_eq].
    exact (getCurrentInstance_on_garbage JSON_parse resolver preferences other
             text message Hother Htruthy Hthrow).
Qed.

Lemma current_instance_after_set_witness :
  let stored := snd (setCurrentInstance Json.stringify uhd_instance ∅) in
  (still_configured StaticConfig.getRadarrInstances main_and_4k uhd_instance ->
   getCurrentInstance Json.parse StaticConfig.getRadarrInstances main_and_4k stored
   = (Return (js_of_instance uhd_instance), stored))
  /\ (~ still_configured StaticConfig.getRadarrInstances main_and_4k uhd_instance ->
      getCurrentInstance Json.parse StaticConfig.getRadarrInstances main_and_4k stored
      = (configured_default StaticConfig.getRadarrInstances main_and_4k,
         delete SELECTED_INSTANCE_KEY stored)
      /\ delete SELECTED_INSTANCE_KEY stored !! SELECTED_INSTANCE_KEY = None)
  /\ (forall (other : gmap string string) (text message : string),
        other !! SELECTED_INSTANCE_KEY = Some text ->
        truthy text = true ->
        Json.parse text = Throw message ->
        getCurrentInstance Json.parse StaticConfig.getRadarrInstances main_and_4k other
        = (configured_default StaticConfig.getRadarrInstances main_and_4k,
           delete SELECTED_INSTANCE_KEY other)
        /\ delete SELECTED_INSTANCE_KEY other !! SELECTED_INSTANCE_KEY = None).
Proof.
  apply (current_instance_after_set Json.parse Json.stringify
           StaticConfig.getRadarrInstances main_and_4k uhd_instance ∅).
  - vm_compute. reflexivity.
  - vm_compute. reflexivity.
Defined.

(** The scenario of the spec, run: two instances, the first one the
    default; the second is selected and read back; once the configuration
    no longer has it, the default comes back and the slot is empty. *)
Example select_then_read_back :
  let stored := snd (setCurrentInstance Json.stringify uhd_instance ∅) in
  fst (getCurrentInstance Json.parse StaticConfig.getRadarrInstances main_and_4k stored)
  = Return (js_of_instance uhd_instance)
  /\ snd (getCurrentInstance Json.parse StaticConfig.getRadarrInstances main_and_4k stored)
       !! SELECTED_INSTANCE_KEY
     = Some (Json.stringify (js_of_instance uhd_instance))
  /\ fst (getCurrentInstance Json.parse StaticConfig.getRadarrInstances
            main_and_half_4k stored)
     = Return (js_of_instance main_instance)
  /\ snd (getCurrentInstance Json.parse StaticConfig.getRadarrInstances
            main_and_half_4k stored) !! SELECTED_INSTANCE_KEY
     = None.
Proof. vm_compute. repeat split. Qed.

(** ** Availability of a movie *)

Lemma given_truthy (field : option string) (text : string) :
  given field text -> truthy_opt field = true /\ value_of field = text.
Proof.
  intros [-> Htext]. split; [|reflexivity].
  simpl. apply truthy_true. exact Htext.
Qed.

Lemma not_given_falsy (field : option string) :
  not_given field <-> truthy_opt field = false.
Proof.
  unfold not_given. destruct field as [[|c s]|]; simpl; split; intros H; auto;
    try discriminate H; destruct H; congruence.
Qed.

Lemma or_else_given (field : option string) (text other : string) :
  given field text -> or_else field other = text.
Proof.
  intros H. apply given_truthy in H as [Htruthy Hvalue].
  unfold or_else. rewrite Htruthy. exact Hvalue.
Qed.

Lemma or_else_not_given (field : option string) (other : string) :
  not_given field -> or_else field other = other.
Proof.
  intros H. apply not_given_falsy in H. unfold or_else. rewrite H. reflexivity.
Qed.

Section AvailabilityFacts.

Variable Date_parse : string -> option Z.
Variable now : Z.

(** The code compares the date that the precedence picks. *)
Lemma releaseDate_picked (movie : Movie) (text : string) :
  precedence_picks movie text ->
  releaseDate Date_parse movie = Date_parse text
  /\ no_release_date movie = false.
Proof.
  unfold releaseDate, no_release_date.
  intros [Hc|Hc Hd|Hc Hd Hp].
  - rewrite (or_else_given _ _ _ Hc).
    apply given_truthy in Hc as [-> _]. auto.
  - rewrite (or_else_not_given _ _ Hc), (or_else_given _ _ _ Hd).
    apply given_truthy in Hd as [-> _]. rewrite andb_false_r. auto.
  - rewrite (or_else_not_given _ _ Hc), (or_else_not_given _ _ Hd),
      (or_else_given _ _ _ Hp).
    apply given_truthy in Hp as [-> _]. rewrite andb_false_r. auto.
Qed.

Lemma no_release_date_iff (movie : Movie) :
  no_release_date movie = true
  <-> not_given (inCinemas movie) /\ not_given (digitalRelease movie)
      /\ not_given (physicalRelease movie).
Proof.
  unfold no_release_date. rewrite !andb_true_iff, !negb_true_iff, !not_given_falsy.
  tauto.
Qed.

Lemma grid_status_range (movie : Movie) :
  In (MissingMoviesGrid.getAvailabilityStatus Date_parse now movie)
     [ "Not Released"; "Upcoming"; "Missing" ].
Proof.
  unfold MissingMoviesGrid.getAvailabilityStatus.
  destruct (no_release_date movie); [simpl; auto|].
  destruct (after_now now (releaseDate Date_parse movie)); simpl; auto.
Qed.

Lemma list_status_range (movie : Movie) :
  In (MissingMoviesList.getAvailabilityStatus Date_parse now movie)
     [ "Not Released"; "Upcoming"; "Recent"; "Available"; "Long Available" ].
Proof.
  unfold MissingMoviesList.getAvailabilityStatus.
  destruct (no_release_date movie); [simpl; auto|].
  destruct (after_now now (releaseDate Date_parse movie)); [simpl; auto|].
  destruct (releaseDate Date_parse movie) as [released|]; [|simpl; auto 6].
  cbv zeta.
  destruct ((now - released) / MS_PER_DAY <? 30); [simpl; auto|].
  destruct ((now - released) / MS_PER_DAY <? 90); simpl; auto 6.
Qed.

End AvailabilityFacts.

(** C4, as amended: the grid version of the missing-movies view gives
    every movie one of three statuses, Not Released, Upcoming or Missing
    (never Available; [hasFile] and [monitored] are not read); the list
    version gives one of Not Released, Upcoming, Recent, Available or Long
    Available.  In both, a movie with none of the three release dates is
    Not Released; otherwise the date picked by the precedence cinema,
    digital, physical is compared with now, and a date after now is
    Upcoming.  A date that is not after now is Missing in the grid version
    and, in the list version, labelled by its age in whole days: Recent
    under 30, Available under 90, Long Available from 90 on.  A date that
    does not parse is Missing, respectively Long Available. *)
Theorem availability_classification
    (Date_parse : string -> option Z) (now : Z) (movie : Movie) :
  let grid := MissingMoviesGrid.getAvailabilityStatus Date_parse now movie in
  let list := MissingMoviesList.getAvailabilityStatus Date_parse now movie in
  In grid [ "Not Released"; "Upcoming"; "Missing" ]
  /\ In list [ "Not Released"; "Upcoming"; "Recent"; "Available"; "Long Available" ]
  /\ (not_given (inCinemas movie) /\ not_given (digitalRelease movie)
      /\ not_given (physicalRelease movie) ->
      grid = "Not Released" /\ list = "Not Released")
  /\ (forall text : string,
        precedence_picks movie text ->
        (forall released : Z,
           Date_parse text = Some released -> now < released ->
           grid = "Upcoming" /\ list = "Upcoming")
        /\ (forall released : Z,
              Date_parse text = Some released -> released <= now ->
              grid = "Missing" /\ list = age_label ((now - released) / MS_PER_DAY))
        /\ (Date_parse text = None ->
            grid = "Missing" /\ list = "Long Available")).
Proof.
  intros grid list.
  split; [apply grid_status_range|]. split; [apply list_status_range|]. split.
  - intros Hnone. apply no_release_date_iff in Hnone.
    unfold grid, list, MissingMoviesGrid.getAvailabilityStatus,
      MissingMoviesList.getAvailabilityStatus.
    rewrite Hnone. auto.
  - intros text Hpick.
    destruct (releaseDate_picked Date_parse movie text Hpick) as [Hdate Hsome].
    unfold grid, list, MissingMoviesGrid.getAvailabilityStatus,
      MissingMoviesList.getAvailabilityStatus.
    rewrite Hsome, Hdate. split; [|split].
    + intros released Hparse Hfuture. rewrite Hparse. cbn [after_now].
      apply Z.ltb_lt in Hfuture. rewrite Hfuture. auto.
    + intros released Hparse Hpast. rewrite Hparse. cbn [after_now].
      apply Z.ltb_ge in Hpast. rewrite Hpast. auto.
    + intros Hparse. rewrite Hparse. auto.
Qed.

(** C4 as stated fails on the list version: a monitored movie without a
    file that reached the cinemas yesterday is Recent, which is neither
    Missing nor any of the four statuses of the claim. *)
Lemma availability_list_view_recent :
  IsoDate.parse "2024-05-31T12:00:00Z" = Some (noon_2024_06_01 - MS_PER_DAY)
  /\ hasFile released_yesterday = false
  /\ monitored released_yesterday = true
  /\ MissingMoviesList.getAvailabilityStatus IsoDate.parse noon_2024_06_01
       released_yesterday = "Recent"
  /\ ~ In (MissingMoviesList.getAvailabilityStatus IsoDate.parse noon_2024_06_01
             released_yesterday)
          [ "Not Released"; "Upcoming"; "Missing"; "Available" ].
Proof.
  repeat split; try reflexivity.
  vm_compute. intros [H|[H|[H|[H|[]]]]]; discriminate H.
Qed.

(** The examples of the spec, on the grid version. *)
Example grid_examples :
  MissingMoviesGrid.getAvailabilityStatus IsoDate.parse noon_2024_06_01
    released_yesterday = "Missing"
  /\ MissingMoviesGrid.getAvailabilityStatus IsoDate.parse noon_2024_06_01
       released_tomorrow = "Upcoming"
  /\ MissingMoviesGrid.getAvailabilityStatus IsoDate.parse noon_2024_06_01
       no_dates = "Not Released".
Proof. repeat split. Qed.

(** ** The download queue *)

(** *** Rounding to a double *)

Lemma nearest_even_cases (x : Q) :
  nearest_even x = Qfloor x \/ nearest_even x = Qfloor x + 1.
Proof.
  unfold nearest_even. destruct (x - inject_Z (Qfloor x) ?= 1 # 2)%Q; auto.
  destruct (Z.even (Qfloor x)); auto.
Qed.


Lemma nearest_even_comp (x y : Q) : (x == y)%Q -> nearest_even x = nearest_even y.
Proof.
  intros Hxy. unfold nearest_even. rewrite (Qfloor_comp x y Hxy).
  assert (Hcmp : (x - inject_Z (Qfloor y) ?= 1 # 2)%Q = (y - inject_Z (Qfloor y) ?= 1 # 2)%Q).
  { apply Qcompare_comp; [rewrite Hxy|]; reflexivity. }
  rewrite Hcmp. reflexivity.
Qed.

Lemma nearest_even_whole (k : Z) : nearest_even (inject_Z k) = k.
Proof.
  unfold nearest_even. rewrite Qfloor_Z.
  assert (Hcmp : (inject_Z k - inject_Z k ?= 1 # 2)%Q = Lt).
  { apply (proj1 (Qlt_alt _ _)). generalize (inject_Z k). intros q. lra. }
  rewrite Hcmp. reflexivity.
Qed.

Lemma nearest_even_le (x : Q) (k : Z) : (x <= inject_Z k)%Q -> nearest_even x <= k.
Proof.
  intros Hx. pose proof (Qfloor_le x) as Hlow.
  assert (Hfloor : Qfloor x <= k).
  { rewrite Zle_Qle. lra. }
  unfold nearest_even. destruct (x - inject_Z (Qfloor x) ?= 1 # 2)%Q eqn:Hcmp.
  - apply Qeq_alt in Hcmp. destruct (Z.even (Qfloor x)); [exact Hfloor|].
    assert (Hlt : (inject_Z (Qfloor x) < inject_Z k)%Q) by lra.
    rewrite <- Zlt_Qlt in Hlt. lia.
  - exact Hfloor.
  - apply Qgt_alt in Hcmp.
    assert (Hlt : (inject_Z (Qfloor x) < inject_Z k)%Q) by lra.
    rewrite <- Zlt_Qlt in Hlt. lia.
Qed.

Lemma nearest_even_ge (x : Q) (k : Z) : (inject_Z k <= x)%Q -> k <= nearest_even x.
Proof.
  intros Hx.
  assert (Hfloor : k <= Qfloor x).
  { rewrite <- (Qfloor_Z k). apply Qfloor_resp_le. exact Hx. }
  destruct (nearest_even_cases x) as [H|H]; rewrite H; lia.
Qed.

(** ** Powers of two and the exponent *)

Lemma pow2_quot (a b : Z) :
  0 <= a -> 0 <= b -> (2 ^ (a - b) == inject_Z (2 ^ a) / inject_Z (2 ^ b))%Q.
Proof.
  intros Ha Hb. rewrite Qpower_minus by discriminate.
  rewrite !Zpower_Qpower by assumption. reflexivity.
Qed.

Lemma pow2_whole (a : Z) : 0 <= a -> (2 ^ a == inject_Z (2 ^ a))%Q.
Proof. intros Ha. rewrite Zpower_Qpower by assumption. reflexivity. Qed.

Lemma pow2_positive (e : Z) : (0 < 2 ^ e)%Q.
Proof. apply Qpower_0_lt. reflexivity. Qed.

Lemma pow2_le (a b : Z) : a <= b -> (2 ^ a <= 2 ^ b)%Q.
Proof. intros Hab. apply Qpower_le_compat_l; [exact Hab|]. discriminate. Qed.

Lemma pow2_lt_inv (a b : Z) : (2 ^ a < 2 ^ b)%Q -> a < b.
Proof. intros Hab. apply (Qpower_lt_compat_l_inv 2); [exact Hab|reflexivity]. Qed.

Lemma pow2_succ (e : Z) : (2 ^ (e + 1) == 2 * 2 ^ e)%Q.
Proof. rewrite Qpower_plus by discriminate. rewrite Qpower_1_r. ring. Qed.

Lemma fraction_ge (A B N : Z) (d : positive) :
  0 < B -> A * Z.pos d <= N * B -> (inject_Z A / inject_Z B <= N # d)%Q.
Proof.
  intros HB H. apply Qle_shift_div_r.
  - change 0%Q with (inject_Z 0). rewrite <- Zlt_Qlt. exact HB.
  - unfold Qle, Qmult, inject_Z. cbn [Qnum Qden]. rewrite Pos.mul_1_r. lia.
Qed.

Lemma fraction_lt (A B N : Z) (d : positive) :
  0 < B -> N * B < A * Z.pos d -> (N # d < inject_Z A / inject_Z B)%Q.
Proof.
  intros HB H. apply Qlt_shift_div_l.
  - change 0%Q with (inject_Z 0). rewrite <- Zlt_Qlt. exact HB.
  - unfold Qlt, Qmult, inject_Z. cbn [Qnum Qden]. rewrite Pos.mul_1_r. lia.
Qed.

Lemma exponent_spec (q : Q) :
  ~ (q == 0)%Q -> (2 ^ exponent q <= Qabs q)%Q /\ (Qabs q < 2 ^ (exponent q + 1))%Q.
Proof.
  destruct q as [n d]. intros Hq.
  assert (Hn : 0 < Z.abs n).
  { destruct (Z.eq_dec n 0) as [->|Hn]; [exfalso; apply Hq; reflexivity|lia]. }
  unfold exponent. cbn [Qnum Qden Qabs].
  set (N := Z.abs n) in *. set (a := Z.log2 N). set (b := Z.log2 (Z.pos d)).
  assert (Ha : 0 <= a) by apply Z.log2_nonneg.
  assert (Hb : 0 <= b) by apply Z.log2_nonneg.
  destruct (Z.log2_spec N Hn) as [HaL HaU]. fold a in HaL, HaU.
  destruct (Z.log2_spec (Z.pos d) (Pos2Z.is_pos d)) as [HbL HbU]. fold b in HbL, HbU.
  rewrite Z.pow_succ_r in HaU, HbU by assumption.
  assert (Hpa : 0 < 2 ^ a) by (apply Z.pow_pos_nonneg; lia).
  assert (Hpb : 0 < 2 ^ b) by (apply Z.pow_pos_nonneg; lia).
  destruct (Z.ltb_spec (N * 2 ^ b) (Z.pos d * 2 ^ a)) as [Hlt|Hge].
  - replace (a - b - 1) with (a - (b + 1)) by lia.
    replace (a - (b + 1) + 1) with (a - b) by lia.
    rewrite !pow2_quot by lia. split.
    + apply fraction_ge; [apply Z.pow_pos_nonneg; lia|].
      rewrite Z.pow_add_r by lia. nia.
    + apply fraction_lt; [exact Hpb|]. nia.
  - replace (a - b + 1) with (a + 1 - b) by lia.
    rewrite !pow2_quot by lia. split.
    + apply fraction_ge; [exact Hpb|]. nia.
    + apply fraction_lt; [exact Hpb|]. rewrite Z.pow_add_r by lia. nia.
Qed.

Lemma exponent_unique (q : Q) (e : Z) :
  (2 ^ e <= Qabs q)%Q -> (Qabs q < 2 ^ (e + 1))%Q -> exponent q = e.
Proof.
  intros Hlow Hhigh.
  assert (Hq : ~ (q == 0)%Q).
  { intros Hzero. rewrite Hzero in Hlow. pose proof (pow2_positive e) as Hpos.
    change (Qabs 0) with 0%Q in Hlow. lra. }
  destruct (exponent_spec q Hq) as [Hlow' Hhigh'].
  assert (H1 : (2 ^ e < 2 ^ (exponent q + 1))%Q) by lra.
  assert (H2 : (2 ^ exponent q < 2 ^ (e + 1))%Q) by lra.
  apply pow2_lt_inv in H1, H2. lia.
Qed.

Lemma exponent_comp (q q' : Q) : ~ (q' == 0)%Q -> (q == q')%Q -> exponent q = exponent q'.
Proof.
  intros Hnonzero Heq. destruct (exponent_spec q' Hnonzero) as [Hlow Hhigh].
  apply exponent_unique; rewrite Heq; assumption.
Qed.


Lemma nearest_double_zero (q : Q) : (q == 0)%Q -> (nearest_double q == 0)%Q.
Proof.
  intros Hq. unfold nearest_double.
  assert (Hx : (q / ulp q == inject_Z 0)%Q).
  { unfold Qdiv. generalize (/ ulp q)%Q. intros inverse. rewrite Hq.
    change (inject_Z 0) with 0%Q. ring. }
  rewrite (nearest_even_comp _ _ Hx), nearest_even_whole. change (inject_Z 0) with 0%Q. ring.
Qed.

Lemma nearest_double_comp (q q' : Q) : (q == q')%Q -> (nearest_double q == nearest_double q')%Q.
Proof.
  intros Heq. destruct (Qeq_dec q' 0) as [Hzero|Hnonzero].
  - rewrite (nearest_double_zero q'), (nearest_double_zero q) by (rewrite ?Heq; exact Hzero).
    reflexivity.
  - unfold nearest_double, ulp. rewrite (exponent_comp q q' Hnonzero Heq).
    assert (Hx : (q / 2 ^ Z.max (exponent q' - 52) (-1074)
                  == q' / 2 ^ Z.max (exponent q' - 52) (-1074))%Q).
    { generalize (2 ^ Z.max (exponent q' - 52) (-1074))%Q. intros u. rewrite Heq. reflexivity. }
    rewrite (nearest_even_comp _ _ Hx). reflexivity.
Qed.

Lemma binary64_comp (q q' : Q) : (q == q')%Q -> binary64 q = binary64 q'.
Proof.
  intros Heq. unfold binary64. pose proof (nearest_double_comp q q' Heq) as Hr.
  assert (Hhigh : Qle_bool (2 ^ 1024) (nearest_double q)
                  = Qle_bool (2 ^ 1024) (nearest_double q')).
  { apply eq_true_iff_eq. rewrite !Qle_bool_iff, Hr. reflexivity. }
  assert (Hlow : Qle_bool (nearest_double q) (- 2 ^ 1024)
                 = Qle_bool (nearest_double q') (- 2 ^ 1024)).
  { apply eq_true_iff_eq. rewrite !Qle_bool_iff, Hr. reflexivity. }
  rewrite Hhigh, Hlow, (Qred_complete _ _ Hr). reflexivity.
Qed.


Lemma binary64_finite (q : Q) :
  (Qabs (nearest_double q) < 2 ^ 1024)%Q -> binary64 q = Finite (Qred (nearest_double q)).
Proof.
  intros Hr. apply Qabs_Qlt_condition in Hr. destruct Hr as [Hlow Hhigh].
  unfold binary64.
  destruct (Qle_bool (2 ^ 1024) (nearest_double q)) eqn:H1.
  { apply Qle_bool_iff in H1. lra. }
  destruct (Qle_bool (nearest_double q) (- 2 ^ 1024)) eqn:H2.
  { apply Qle_bool_iff in H2. lra. }
  reflexivity.
Qed.

Lemma pow2_le_inv (a b : Z) : (2 ^ a <= 2 ^ b)%Q -> a <= b.
Proof. intros Hab. apply (Qpower_le_compat_l_inv 2); [exact Hab|reflexivity]. Qed.



(** Rounding never crosses a whole number below [2^53]. *)
Lemma nearest_double_bounded (q : Q) (a : Z) :
  0 < a < 2 ^ 53 -> (0 <= q <= inject_Z a)%Q ->
  (0 <= nearest_double q <= inject_Z a)%Q.
Proof.
  intros Ha [Hlow Hhigh].
  destruct (Qeq_dec q 0) as [Hzero|Hnonzero].
  { rewrite (nearest_double_zero q Hzero). split; [lra|].
    change 0%Q with (inject_Z 0). rewrite <- Zle_Qle. lia. }
  destruct (exponent_spec q Hnonzero) as [Hexp _].
  rewrite (Qabs_pos q Hlow) in Hexp.
  assert (Hbelow : (inject_Z a < 2 ^ 53)%Q).
  { rewrite pow2_whole by lia. rewrite <- Zlt_Qlt. lia. }
  assert (He : exponent q < 53) by (apply pow2_lt_inv; lra).
  unfold nearest_double, ulp.
  set (E := Z.max (exponent q - 52) (-1074)).
  assert (HE : E <= 0) by lia.
  assert (Hu : (0 < 2 ^ E)%Q) by apply pow2_positive.
  assert (Hscale : (inject_Z a / 2 ^ E == inject_Z (a * 2 ^ (- E)))%Q).
  { rewrite inject_Z_mult, <- pow2_whole by lia. rewrite Qpower_opp. reflexivity. }
  assert (Hm_high : nearest_even (q / 2 ^ E) <= a * 2 ^ (- E)).
  { apply nearest_even_le. rewrite <- Hscale.
    apply Qle_shift_div_l; [exact Hu|].
    assert (Hq : (q / 2 ^ E * 2 ^ E == q)%Q).
    { field. apply Qnot_eq_sym, Qlt_not_eq, Hu. }
    rewrite Hq. exact Hhigh. }
  assert (Hm_low : 0 <= nearest_even (q / 2 ^ E)).
  { apply nearest_even_ge. change (inject_Z 0) with 0%Q.
    apply Qle_shift_div_l; [exact Hu|]. lra. }
  rewrite Zle_Qle in Hm_high, Hm_low. rewrite <- Hscale in Hm_high.
  change (inject_Z 0) with 0%Q in Hm_low.
  generalize dependent (inject_Z (nearest_even (q / 2 ^ E))). intros m Hm_high Hm_low.
  apply (Qmult_le_compat_r _ _ (2 ^ E)%Q) in Hm_high; [|lra].
  assert (Ha' : (inject_Z a / 2 ^ E * 2 ^ E == inject_Z a)%Q).
  { field. apply Qnot_eq_sym, Qlt_not_eq, Hu. }
  rewrite Ha' in Hm_high. split; [|exact Hm_high].
  apply Qmult_le_0_compat; lra.
Qed.










Example progress_of_three_quarters :
  formatProgress bytes three_quarters_done = "75 B / 100 B (75%)"
  /\ formatProgress bytes (mkQueueItem 0 0 None None) = "Unknown size"
  /\ formatProgress bytes (mkQueueItem 200 199 None None) = "1 B / 200 B (1%)"
  /\ formatProgress bytes (mkQueueItem 3 2 None None) = "1 B / 3 B (33%)".
Proof. repeat split. Qed.

(** At an exact half the doubles decide: 23 of 40 bytes is 57.5 percent,
    the double quotient times 100 is just below it, and the view shows 57. *)
Example progress_at_an_exact_half :
  formatProgress bytes (mkQueueItem 40 17 None None) = "23 B / 40 B (57%)"
  /\ (exact_percentage (mkQueueItem 40 17 None None) == 115 # 2)%Q
  /\ times (divide 23 40) 100 = Finite (8092405580431359 # 140737488355328)
  /\ formatProgress bytes (mkQueueItem 1000 855 None None) = "145 B / 1000 B (14%)".
Proof. vm_compute. repeat split. Qed.

(** [binary64] against the Standard Library's specification of IEEE 754
    division and multiplication, on ratios of byte counts. *)
Example doubles_agree_with_the_library :
  Forall (fun ratio : Z * Z =>
            times (divide (fst ratio) (snd ratio)) 100
            = library_ratio_times_100 (fst ratio) (snd ratio))
    [ (23, 40); (145, 1000); (75, 100); (1, 200); (1, 3); (2, 3); (-5, 13);
      (7, 9007199254740991); (9007199254740991, 7); (123456789, 987654321);
      (734003200, 1610612736); (1, 9007199254740991) ].
Proof. repeat constructor; vm_compute; reflexivity. Qed.

(** The same at the edges of the format: a tie above [2^53] (to the even
    neighbour, down and up), ties and a quotient below the normal range,
    the largest double, and the overflow to an infinity. *)
Example binary64_agrees_at_the_edges :
  let double (m : Z) (e : Z) := S754_finite false (Z.to_pos m) e in
  binary64 (inject_Z (2 ^ 53 + 1))
  = value_of_float (SFdiv 53 1024 (double 9007199254740993 0) (double 1 0))
  /\ binary64 (inject_Z (2 ^ 53 + 1)) = Finite (inject_Z (2 ^ 53))
  /\ binary64 (inject_Z (2 ^ 53 + 3))
     = value_of_float (SFdiv 53 1024 (double 9007199254740995 0) (double 1 0))
  /\ binary64 (inject_Z (2 ^ 53 + 3)) = Finite (inject_Z (2 ^ 53 + 4))
  /\ binary64 (2 ^ (-1075))
     = value_of_float (SFmul 53 1024 (double 1 (-1074)) (double 1 (-1)))
  /\ binary64 (3 * 2 ^ (-1075))
     = value_of_float (SFmul 53 1024 (double 3 (-1074)) (double 1 (-1)))
  /\ binary64 (2 ^ (-1022) / 3)
     = value_of_float (SFdiv 53 1024 (double 1 (-1022)) (double 3 0))
  /\ binary64 (inject_Z (2 ^ 53 - 1) * 2 ^ 971 * (inject_Z (2 ^ 53 - 1) * 2 ^ (-53)))
     = value_of_float
         (SFmul 53 1024 (double 9007199254740991 971) (double 9007199254740991 (-53)))
  /\ binary64 (2 ^ 1024) = value_of_float (SFmul 53 1024 (double 1 1023) (double 2 0))
  /\ binary64 (2 ^ 1024) = PlusInfinity
  /\ binary64 (- 2 ^ 1024) = MinusInfinity.
Proof. vm_compute. repeat split. Qed.

Lemma server_duration_kept (Date_parse : string -> option Z) (now : Z)
    (item : QueueItem) (text : string) :
  server_duration item text -> getTimeLeft Date_parse now item = text.
Proof.
  intros [Hgiven Hzero]. apply given_truthy in Hgiven as [Htruthy Hvalue].
  unfold getTimeLeft. rewrite Htruthy, Hvalue.
  apply String.eqb_neq in Hzero. rewrite Hzero. reflexivity.
Qed.

Lemma no_server_duration_skips (item : QueueItem) :
  no_server_duration item ->
  truthy_opt (timeleft item)
  && negb (String.eqb (value_of (timeleft item)) "00:00:00") = false.
Proof.
  intros [Habsent|Hzero].
  - apply not_given_falsy in Habsent. rewrite Habsent. reflexivity.
  - rewrite Hzero. reflexivity.
Qed.

(** C6: a [timeleft] that is given and is not [00:00:00] is returned as it
    is.  Without one, a completion time that is given, parses and lies
    strictly after now yields [<h>h <m>m], where [h] hours and [m] minutes
    ([0 <= m < 60], [0 <= h]) are the difference to now rounded down to
    the minute; a completion time at or before now, one that does not
    parse, or none at all yields [Unknown]. *)
Theorem time_left (Date_parse : string -> option Z) (now : Z) (item : QueueItem) :
  (forall text : string,
     server_duration item text -> getTimeLeft Date_parse now item = text)
  /\ (no_server_duration item ->
      (forall (text : string) (completion : Z),
         given (estimatedCompletionTime item) text ->
         Date_parse text = Some completion ->
         now < completion ->
         exists h m : Z,
           getTimeLeft Date_parse now item = pretty h +:+ "h " +:+ pretty m +:+ "m"
           /\ 0 <= h
           /\ (0 <= m < 60)
           /\ ((60 * h + m) * 60000 <= completion - now
               < (60 * h + m + 1) * 60000))
      /\ (forall (text : string) (completion : Z),
            given (estimatedCompletionTime item) text ->
            Date_parse text = Some completion ->
            completion <= now ->
            getTimeLeft Date_parse now item = "Unknown")
      /\ (forall text : string,
            given (estimatedCompletionTime item) text ->
            Date_parse text = None ->
            getTimeLeft Date_parse now item = "Unknown")
      /\ (not_given (estimatedCompletionTime item) ->
          getTimeLeft Date_parse now item = "Unknown")).
Proof.
  split; [intros text; apply server_duration_kept|].
  intros Hskip. apply no_server_duration_skips in Hskip.
  unfold getTimeLeft. rewrite Hskip. cbv zeta. repeat split.
  - intros text completion Hgiven Hparse Hfuture.
    apply given_truthy in Hgiven as [-> ->]. rewrite Hparse.
    assert (Hpos : (0 <? completion - now) = true) by (apply Z.ltb_lt; lia).
    rewrite Hpos.
    exists ((completion - now) / (1000 * 60 * 60)),
           ((completion - now) mod (1000 * 60 * 60) / (1000 * 60)).
    split; [reflexivity|].
    set (d := completion - now) in *.
    assert (Hd : 0 < d) by (unfold d; lia).
    change (1000 * 60 * 60) with 3600000. change (1000 * 60) with 60000.
    pose proof (Z.div_mod d 3600000 ltac:(lia)) as Hhours.
    pose proof (Z.mod_pos_bound d 3600000 ltac:(lia)) as Hrem.
    pose proof (Z.div_mod (d mod 3600000) 60000 ltac:(lia)) as Hminutes.
    pose proof (Z.mod_pos_bound (d mod 3600000) 60000 ltac:(lia)) as Hrem'.
    assert (0 <= d / 3600000) by (apply Z.div_pos; lia).
    assert (0 <= d mod 3600000 / 60000) by (apply Z.div_pos; lia).
    assert (d mod 3600000 / 60000 < 60) by (apply Z.div_lt_upper_bound; lia).
    repeat split; lia.
  - intros text completion Hgiven Hparse Hpast.
    apply given_truthy in Hgiven as [-> ->]. rewrite Hparse.
    assert (Hneg : (0 <? completion - now) = false) by (apply Z.ltb_ge; lia).
    rewrite Hneg. reflexivity.
  - intros text Hgiven Hparse.
    apply given_truthy in Hgiven as [-> ->]. rewrite Hparse. reflexivity.
  - intros Habsent. apply not_given_falsy in Habsent. rewrite Habsent. reflexivity.
Qed.

Example time_left_runs :
  getTimeLeft IsoDate.parse noon_2024_06_01 ends_in_ninety_minutes = "1h 30m"
  /\ getTimeLeft IsoDate.parse noon_2024_06_01
       (mkQueueItem 100 25 (Some "01:02:03") (Some "2024-06-01T13:30:59Z"))
     = "01:02:03"
  /\ getTimeLeft IsoDate.parse noon_2024_06_01
       (mkQueueItem 100 25 None (Some "2024-06-01T12:00:00Z"))
     = "Unknown"
  /\ getTimeLeft IsoDate.parse noon_2024_06_01
       (mkQueueItem 100 25 None (Some "2024-06-01T11:00:00Z"))
     = "Unknown"
  /\ getTimeLeft IsoDate.parse noon_2024_06_01 three_quarters_done = "Unknown".
Proof. repeat split. Qed.

(** ** The API client *)

Lemma ok_iff (response : Response) :
  ok response = true <-> 200 <= status response <= 299.
Proof. unfold ok. rewrite andb_true_iff, !Z.leb_le. tauto. Qed.

Section ClientFacts.

Variable JSON_parse : string -> Outcome JsValue.
Variable JSON_stringify : JsValue -> string.
Variable fetch : Request -> Outcome Response.

Variables (instance : RadarrInstance) (movie : list (string * JsValue))
          (qualityProfileId : Z) (rootFolderPath : string) (monitored searchOnAdd : bool).

Lemma addMovie_created (response : Response) (created : JsValue) :
  fetch (addMovie_sent JSON_stringify instance movie qualityProfileId rootFolderPath
           monitored searchOnAdd) = Return response ->
  ok response = true ->
  json JSON_parse response = Return created ->
  fst (addMovie JSON_parse JSON_stringify fetch instance movie qualityProfileId
         rootFolderPath monitored searchOnAdd) = Return created.
Proof.
  intros Hfetch Hok Hjson. unfold addMovie_sent in Hfetch. unfold addMovie.
  rewrite Hfetch. cbn [quiet then_logged try_logged]. rewrite Hok. cbn [negb].
  cbn [quiet then_logged try_logged]. rewrite Hjson. reflexivity.
Qed.

Lemma addMovie_rejected (response : Response) :
  fetch (addMovie_sent JSON_stringify instance movie qualityProfileId rootFolderPath
           monitored searchOnAdd) = Return response ->
  ok response = false ->
  fst (addMovie JSON_parse JSON_stringify fetch instance movie qualityProfileId
         rootFolderPath monitored searchOnAdd)
  = (body <- text response ;;
     Throw ("HTTP " +:+ pretty (status response) +:+ ": " +:+ body))%outcome.
Proof.
  intros Hfetch Hok. unfold addMovie_sent in Hfetch. unfold addMovie.
  rewrite Hfetch. cbn [quiet then_logged try_logged]. rewrite Hok. cbn [negb].
  destruct (text response) as [body|message]; reflexivity.
Qed.

Lemma addMovie_unreachable (message : string) :
  fetch (addMovie_sent JSON_stringify instance movie qualityProfileId rootFolderPath
           monitored searchOnAdd) = Throw message ->
  fst (addMovie JSON_parse JSON_stringify fetch instance movie qualityProfileId
         rootFolderPath monitored searchOnAdd) = Throw message.
Proof.
  intros Hfetch. unfold addMovie_sent in Hfetch. unfold addMovie.
  rewrite Hfetch. reflexivity.
Qed.

End ClientFacts.

Lemma not_ok (response : Response) :
  ~ 200 <= status response <= 299 -> ok response = false.
Proof.
  intros Hstatus. destruct (ok response) eqn:Hok; [|reflexivity].
  apply ok_iff in Hok. contradiction.
Qed.

(** C7: [addMovie] posts the payload to [{url}/api/v3/movie].  On a 2xx
    response whose body decodes to the created movie, it returns that
    movie unchanged, so with the id the server assigned.  On any other
    status it returns no movie: it throws, and when the body can be read
    the error message is [HTTP <status>: <body>].  When no response
    arrives it throws as well. *)
Theorem addMovie_contract
    (JSON_parse : string -> Outcome JsValue) (JSON_stringify : JsValue -> string)
    (fetch : Request -> Outcome Response)
    (instance : RadarrInstance) (movie : list (string * JsValue))
    (qualityProfileId : Z) (rootFolderPath : string) (monitored searchOnAdd : bool) :
  let request :=
    addMovie_sent JSON_stringify instance movie qualityProfileId rootFolderPath
      monitored searchOnAdd in
  let result :=
    fst (addMovie JSON_parse JSON_stringify fetch instance movie qualityProfileId
           rootFolderPath monitored searchOnAdd) in
  request_url request = url instance +:+ "/api/v3/movie"
  /\ request_method request = "POST"
  /\ (forall (response : Response) (created : JsValue),
        fetch request = Return response ->
        200 <= status response <= 299 ->
        json JSON_parse response = Return created ->
        result = Return created
        /\ forall id : Z,
             js_get created "id" = Return (JsNumber id) ->
             exists returned,
               result = Return returned /\ js_get returned "id" = Return (JsNumber id))
  /\ (forall response : Response,
        fetch request = Return response ->
        ~ 200 <= status response <= 299 ->
        (exists message, result = Throw message)
        /\ forall body : string,
             text response = Return body ->
             result = Throw ("HTTP " +:+ pretty (status response) +:+ ": " +:+ body))
  /\ (forall message : string, fetch request = Throw message -> result = Throw message).
Proof.
  intros request result. split; [reflexivity|]. split; [reflexivity|].
  split; [|split].
  - intros response created Hfetch Hstatus Hjson. apply ok_iff in Hstatus.
    assert (Hcreated : result = Return created).
    { exact (addMovie_created JSON_parse JSON_stringify fetch instance movie
               qualityProfileId rootFolderPath monitored searchOnAdd response created
               Hfetch Hstatus Hjson). }
    split; [exact Hcreated|].
    intros id Hid. exists created. split; [exact Hcreated|exact Hid].
  - intros response Hfetch Hstatus. apply not_ok in Hstatus.
    assert (Hrejected :
              result = (body <- text response ;;
                        Throw ("HTTP " +:+ pretty (status response) +:+ ": " +:+ body))
                       %outcome).
    { exact (addMovie_rejected JSON_parse JSON_stringify fetch instance movie
               qualityProfileId rootFolderPath monitored searchOnAdd response
               Hfetch Hstatus). }
    rewrite Hrejected. split.
    + destruct (text response) as [body|message]; eexists; reflexivity.
    + intros body Hbody. rewrite Hbody. reflexivity.
  - intros message Hfetch.
    exact (addMovie_unreachable JSON_parse JSON_stringify fetch instance movie
             qualityProfileId rootFolderPath monitored searchOnAdd message Hfetch).
Qed.

Example addMovie_runs :
  addMovie Json.parse Json.stringify creating_server main_instance dune_lookup
    1 "/movies" true true
  = (Return created_dune,
     [ ShowToast Success "Movie Added" "Dune (2021) added to Main" ])
  /\ js_get created_dune "id" = Return (JsNumber 42)
  /\ addMovie Json.parse Json.stringify rejecting_server main_instance dune_lookup
       1 "/movies" true true
     = (Throw ("HTTP 400: " +:+ rejection),
        [ ConsoleError "Add movie error:" ("HTTP 400: " +:+ rejection);
          ShowToast Failure "Failed to Add Movie"
            ("Could not add Dune: HTTP 400: " +:+ rejection) ])
  /\ fst (addMovie Json.parse Json.stringify unreachable_server main_instance dune_lookup
            1 "/movies" true true)
     = Throw "fetch failed".
Proof. vm_compute. repeat split. Qed.

(** C8: [testConnection] always returns and never throws; it returns
    [true] exactly when the GET to [{url}/api/v3/system/status] is
    answered with a status from 200 to 299, and [false] on any other
    status and when no response arrives. *)
Theorem testConnection_never_throws
    (fetch : Request -> Outcome Response) (instance : RadarrInstance) :
  request_url (testConnection_request instance) = url instance +:+ "/api/v3/system/status"
  /\ request_method (testConnection_request instance) = "GET"
  /\ exists reachable : bool,
       testConnection fetch instance = Return reachable
       /\ (reachable = true <->
           exists response : Response,
             fetch (testConnection_request instance) = Return response
             /\ 200 <= status response <= 299).
Proof.
  split; [reflexivity|]. split; [reflexivity|].
  unfold testConnection.
  destruct (fetch (testConnection_request instance)) as [response|message] eqn:Hfetch.
  - exists (ok response). split; [reflexivity|]. rewrite ok_iff. split.
    + intros Hstatus. exists response. auto.
    + intros (response' & [= <-] & Hstatus). exact Hstatus.
  - exists false. split; [reflexivity|]. split; [discriminate|].
    intros (response & Hresponse & _). discriminate Hresponse.
Qed.

Example testConnection_runs :
  testConnection creating_server main_instance = Return true
  /\ testConnection rejecting_server main_instance = Return false
  /\ testConnection unreachable_server main_instance = Return false.
Proof. repeat split. Qed.

(** ** The end-to-end scenario of the spec

    Two instances, the second marked as default: both are resolved and the
    second is the default; the first is selected and read back; once the
    configuration has lost the first, the second comes back and the
    override is gone. *)
Example end_to_end_scenario :
  let resolver := DynamicConfig.getRadarrInstances parse_instances in
  let both := json_array_of [false; true] in
  let second_only := json_array_from 66 [true] in
  let stored := snd (setCurrentInstance Json.stringify instance_A ∅) in
  resolver both = Return [instance_A; instance_B]
  /\ DynamicConfig.getDefaultRadarrInstance parse_instances both = Return instance_B
  /\ fst (getCurrentInstance Json.parse resolver both ∅) = Return (js_of_instance instance_B)
  /\ fst (getCurrentInstance Json.parse resolver both stored)
     = Return (js_of_instance instance_A)
  /\ resolver second_only = Return [instance_B]
  /\ fst (getCurrentInstance Json.parse resolver second_only stored)
     = Return (js_of_instance instance_B)
  /\ snd (getCurrentInstance Json.parse resolver second_only stored)
       !! SELECTED_INSTANCE_KEY = None.
Proof. vm_compute. repeat split. Qed.

(** * Further properties of the code *)

(** ** The two-slot resolver *)

Lemma static_resolution_cases (preferences : StaticConfig.Preferences)
    (resolved : list RadarrInstance) :
  StaticConfig.getRadarrInstances preferences = Return resolved ->
  primary_complete preferences
  /\ (resolved = [primary_instance preferences]
      \/ (resolved = [primary_instance preferences; secondary_instance preferences]
          /\ truthy_flag (StaticConfig.enableSecondaryInstance preferences) = true
          /\ truthy_opt (StaticConfig.secondaryInstanceName preferences) = true
          /\ truthy_opt (StaticConfig.secondaryInstanceUrl preferences) = true
          /\ truthy_opt (StaticConfig.secondaryInstanceApiKey preferences) = true)).
Proof.
  unfold StaticConfig.getRadarrInstances, primary_complete.
  destruct (truthy (StaticConfig.primaryInstanceName preferences));
    destruct (truthy (StaticConfig.primaryInstanceUrl preferences));
    destruct (truthy (StaticConfig.primaryInstanceApiKey preferences));
    cbn [negb orb]; try discriminate.
  destruct (truthy_flag (StaticConfig.enableSecondaryInstance preferences));
    destruct (truthy_opt (StaticConfig.secondaryInstanceName preferences));
    destruct (truthy_opt (StaticConfig.secondaryInstanceUrl preferences));
    destruct (truthy_opt (StaticConfig.secondaryInstanceApiKey preferences));
    cbn [andb]; intros [= <-]; split; auto; right; auto.
Qed.

(** X1: whenever the two-slot configuration resolves, the default instance
    is the one of the primary slot; the list has one or two entries, the
    primary first, and no other entry is marked as default. *)
Theorem static_default_is_primary (preferences : StaticConfig.Preferences)
    (resolved : list RadarrInstance) :
  StaticConfig.getRadarrInstances preferences = Return resolved ->
  StaticConfig.getDefaultRadarrInstance preferences = Return (primary_instance preferences)
  /\ exists rest,
       resolved = primary_instance preferences :: rest
       /\ Forall (fun instance => isDefault instance = false) rest
       /\ (length rest <= 1)%nat.
Proof.
  intros Hresolved. unfold StaticConfig.getDefaultRadarrInstance. rewrite Hresolved.
  destruct (static_resolution_cases preferences resolved Hresolved)
    as [_ [->|[-> _]]]; (split; [reflexivity|]).
  - exists []. repeat split; [constructor|cbn; lia].
  - exists [secondary_instance preferences]. repeat split; [|cbn; lia].
    constructor; [reflexivity|constructor].
Qed.

Lemma static_default_is_primary_witness :
  StaticConfig.getDefaultRadarrInstance main_and_4k = Return (primary_instance main_and_4k)
  /\ exists rest,
       [main_instance; uhd_instance] = primary_instance main_and_4k :: rest
       /\ Forall (fun instance => isDefault instance = false) rest
       /\ (length rest <= 1)%nat.
Proof.
  apply (static_default_is_primary main_and_4k [main_instance; uhd_instance]).
  reflexivity.
Defined.

(** X2: the two-slot configuration resolves exactly when the three primary
    fields are non-empty; otherwise [getRadarrInstances] and
    [getDefaultRadarrInstance] both throw the incomplete-configuration
    error, whatever the secondary slot holds. *)
Theorem static_resolution_fails_iff_primary_incomplete
    (preferences : StaticConfig.Preferences) :
  (primary_complete preferences <->
   exists resolved, StaticConfig.getRadarrInstances preferences = Return resolved)
  /\ (~ primary_complete preferences ->
      StaticConfig.getRadarrInstances preferences
      = Throw "Primary Radarr instance configuration is incomplete"
      /\ StaticConfig.getDefaultRadarrInstance preferences
         = Throw "Primary Radarr instance configuration is incomplete").
Proof.
  split; [split|].
  - intros Hcomplete. destruct (resolves_primary preferences Hcomplete) as [rest Hrest].
    eauto.
  - intros [resolved Hresolved].
    exact (proj1 (static_resolution_cases preferences resolved Hresolved)).
  - intros Hincomplete.
    assert (Hthrow : StaticConfig.getRadarrInstances preferences
                     = Throw "Primary Radarr instance configuration is incomplete").
    { unfold primary_complete in Hincomplete. unfold StaticConfig.getRadarrInstances.
      destruct (truthy (StaticConfig.primaryInstanceName preferences));
        destruct (truthy (StaticConfig.primaryInstanceUrl preferences));
        destruct (truthy (StaticConfig.primaryInstanceApiKey preferences));
        cbn [negb orb]; try reflexivity.
      exfalso. apply Hincomplete. auto. }
    split; [exact Hthrow|].
    unfold StaticConfig.getDefaultRadarrInstance. rewrite Hthrow. reflexivity.
Qed.

Lemma given_iff_truthy (field : option string) :
  (exists text, given field text) <-> truthy_opt field = true.
Proof.
  split.
  - intros [text Hgiven]. exact (proj1 (given_truthy field text Hgiven)).
  - destruct field as [[|c s]|]; cbn; try discriminate.
    intros _. exists (String c s). split; [reflexivity|discriminate].
Qed.

Lemma secondary_complete_iff (preferences : StaticConfig.Preferences) :
  secondary_complete preferences <->
  truthy_flag (StaticConfig.enableSecondaryInstance preferences) = true
  /\ truthy_opt (StaticConfig.secondaryInstanceName preferences) = true
  /\ truthy_opt (StaticConfig.secondaryInstanceUrl preferences) = true
  /\ truthy_opt (StaticConfig.secondaryInstanceApiKey preferences) = true.
Proof.
  unfold secondary_complete. rewrite !given_iff_truthy.
  destruct (StaticConfig.enableSecondaryInstance preferences) as [[|]|]; cbn;
    intuition congruence.
Qed.

(** X3: with the primary slot filled in, the resolved list is the primary
    followed by the secondary (with its URL normalised and not marked as
    default) exactly when the secondary slot is switched on and its three
    fields are non-empty; in every other case it is the primary alone. *)
Theorem secondary_listed_iff_complete (preferences : StaticConfig.Preferences) :
  primary_complete preferences ->
  (secondary_complete preferences ->
   StaticConfig.getRadarrInstances preferences
   = Return [primary_instance preferences; secondary_instance preferences])
  /\ (~ secondary_complete preferences ->
      StaticConfig.getRadarrInstances preferences
      = Return [primary_instance preferences]).
Proof.
  intros (Hname & Hurl & Hkey). rewrite secondary_complete_iff.
  unfold StaticConfig.getRadarrInstances. rewrite Hname, Hurl, Hkey. cbn [negb orb].
  destruct (truthy_flag (StaticConfig.enableSecondaryInstance preferences));
    destruct (truthy_opt (StaticConfig.secondaryInstanceName preferences));
    destruct (truthy_opt (StaticConfig.secondaryInstanceUrl preferences));
    destruct (truthy_opt (StaticConfig.secondaryInstanceApiKey preferences));
    cbn [andb]; split; intros H; try reflexivity;
    try (exfalso; apply H; auto); destruct H as (? & ? & ? & ?); discriminate.
Qed.

Lemma secondary_listed_iff_complete_witness :
  (secondary_complete main_and_4k ->
   StaticConfig.getRadarrInstances main_and_4k
   = Return [primary_instance main_and_4k; secondary_instance main_and_4k])
  /\ (~ secondary_complete main_and_4k ->
      StaticConfig.getRadarrInstances main_and_4k
      = Return [primary_instance main_and_4k]).
Proof.
  apply (secondary_listed_iff_complete main_and_4k). repeat split.
Defined.

(** ** URL normalisation *)

Lemma ends_with_slash_cons (c d : ascii) (rest : string) :
  ends_with "/" (String c (String d rest)) = ends_with "/" (String d rest).
Proof.
  change (ends_with "/" (String c (String d rest)))
    with (String.eqb (String c (String d rest)) "/" || ends_with "/" (String d rest)).
  cbn [String.eqb]. destruct (Ascii.eqb c "/"%char); reflexivity.
Qed.

(** X4: normalising a URL removes exactly one trailing slash and nothing
    else: a URL without a trailing slash is unchanged, and a URL with one
    is the normalised URL followed by that slash. *)
Theorem normalisation_removes_one_slash (u : string) :
  (ends_with "/" u = false /\ strip_trailing_slash u = u)
  \/ (ends_with "/" u = true /\ u = strip_trailing_slash u +:+ "/").
Proof.
  induction u as [|c u IH]; [left; split; reflexivity|].
  destruct u as [|d u].
  - cbn. destruct (Ascii.eqb_spec c "/"%char) as [Hc|Hc].
    + subst c. right. split; reflexivity.
    + left. split; [|reflexivity].
      destruct (Ascii.eqb_spec c "/"%char); [contradiction|reflexivity].
  - rewrite ends_with_slash_cons, strip_trailing_slash_cons.
    destruct IH as [[Hno Hsame]|[Hyes Hsplit]].
    + left. split; [exact Hno|]. rewrite Hsame. reflexivity.
    + right. split; [exact Hyes|].
      change (String c (strip_trailing_slash (String d u)) +:+ "/")
        with (String c (strip_trailing_slash (String d u) +:+ "/")).
      rewrite <- Hsplit. reflexivity.
Qed.

Lemma strip_empty_iff (u : string) :
  strip_trailing_slash u = EmptyString <-> u = EmptyString \/ u = "/".
Proof.
  split; [apply strip_trailing_slash_empty|].
  intros [->| ->]; reflexivity.
Qed.

(** X5: a resolved instance has the empty URL exactly when the URL of its
    slot is just a slash: every entry of the resolved list with an empty
    URL is the primary with primary URL [/] or the secondary with
    secondary URL [/], and each of these slots does give such an entry.
    [validateRadarrInstance] rejects such an entry with the empty-URL
    message when its name is not blank. *)
Theorem slash_url_resolves_to_empty_url
    (URL_parses : string -> bool) (preferences : StaticConfig.Preferences)
    (resolved : list RadarrInstance) :
  StaticConfig.getRadarrInstances preferences = Return resolved ->
  (forall instance,
     In instance resolved -> url instance = EmptyString ->
     (instance = primary_instance preferences
      /\ StaticConfig.primaryInstanceUrl preferences = "/")
     \/ (instance = secondary_instance preferences
         /\ StaticConfig.secondaryInstanceUrl preferences = Some "/"))
  /\ (StaticConfig.primaryInstanceUrl preferences = "/" ->
      In (primary_instance preferences) resolved
      /\ url (primary_instance preferences) = EmptyString)
  /\ (secondary_complete preferences ->
      StaticConfig.secondaryInstanceUrl preferences = Some "/" ->
      In (secondary_instance preferences) resolved
      /\ url (secondary_instance preferences) = EmptyString)
  /\ (forall instance,
        In instance resolved -> url instance = EmptyString -> not_blank (name instance) ->
        validateRadarrInstance URL_parses instance = Throw "Instance URL cannot be empty").
Proof.
  intros Hresolved.
  destruct (static_resolution_cases preferences resolved Hresolved)
    as (Hcomplete & Hcases).
  assert (Hprimary : url (primary_instance preferences) = EmptyString ->
                     StaticConfig.primaryInstanceUrl preferences = "/").
  { cbn [url primary_instance]. rewrite strip_empty_iff.
    destruct Hcomplete as (_ & Hurl & _). apply truthy_true in Hurl. tauto. }
  assert (Hsecondary : truthy_opt (StaticConfig.secondaryInstanceUrl preferences) = true ->
                       url (secondary_instance preferences) = EmptyString ->
                       StaticConfig.secondaryInstanceUrl preferences = Some "/").
  { cbn [url secondary_instance].
    destruct (StaticConfig.secondaryInstanceUrl preferences) as [text|]; [|discriminate].
    cbn [truthy_opt value_of default from_option id]. rewrite strip_empty_iff, truthy_true.
    intros Htext [Hempty| ->]; [contradiction|reflexivity]. }
  split; [|split; [|split]].
  - intros instance Hin Hempty.
    destruct Hcases as [->|(-> & _ & _ & Hurl & _)].
    + destruct Hin as [<-|[]]. left. split; [reflexivity|exact (Hprimary Hempty)].
    + destruct Hin as [<-|[<-|[]]].
      * left. split; [reflexivity|exact (Hprimary Hempty)].
      * right. split; [reflexivity|exact (Hsecondary Hurl Hempty)].
  - intros Hslash. split.
    + destruct Hcases as [->|(-> & _)]; left; reflexivity.
    + cbn [url primary_instance]. rewrite Hslash. reflexivity.
  - intros Hsecond Hslash. split.
    + destruct Hcases as [->|(-> & _)]; [|right; left; reflexivity].
      exfalso. apply secondary_complete_iff in Hsecond.
      unfold StaticConfig.getRadarrInstances in Hresolved.
      destruct Hcomplete as (Hname & Hurl & Hkey). rewrite Hname, Hurl, Hkey in Hresolved.
      destruct Hsecond as (Hflag & Hname2 & Hurl2 & Hkey2).
      rewrite Hflag, Hname2, Hurl2, Hkey2 in Hresolved. cbn in Hresolved.
      injection Hresolved as Hlength. apply (f_equal (@length RadarrInstance)) in Hlength.
      discriminate Hlength.
    + cbn [url secondary_instance]. rewrite Hslash. reflexivity.
  - intros instance _ Hempty Hname.
    unfold validateRadarrInstance. rewrite !trim_truthy.
    unfold not_blank in Hname. rewrite Hname, Hempty. reflexivity.
Qed.

(** Both slots hold a URL that is just a slash. *)
Lemma slash_url_resolves_to_empty_url_witness :
  let preferences :=
    StaticConfig.mkPreferences "Main" "/" "0123456789abcdef"
      (Some true) (Some "4K") (Some "/") (Some "fedcba9876543210") in
  let resolved := [ mkInstance "Main" EmptyString "0123456789abcdef" true;
                    mkInstance "4K" EmptyString "fedcba9876543210" false ] in
  StaticConfig.getRadarrInstances preferences = Return resolved
  /\ (forall instance,
        In instance resolved -> url instance = EmptyString ->
        (instance = primary_instance preferences
         /\ StaticConfig.primaryInstanceUrl preferences = "/")
        \/ (instance = secondary_instance preferences
            /\ StaticConfig.secondaryInstanceUrl preferences = Some "/"))
  /\ (StaticConfig.primaryInstanceUrl preferences = "/" ->
      In (primary_instance preferences) resolved
      /\ url (primary_instance preferences) = EmptyString)
  /\ (secondary_complete preferences ->
      StaticConfig.secondaryInstanceUrl preferences = Some "/" ->
      In (secondary_instance preferences) resolved
      /\ url (secondary_instance preferences) = EmptyString)
  /\ (forall instance,
        In instance resolved -> url instance = EmptyString -> not_blank (name instance) ->
        validateRadarrInstance has_scheme_separator instance
        = Throw "Instance URL cannot be empty").
Proof.
  intros preferences resolved. split; [reflexivity|].
  exact (slash_url_resolves_to_empty_url has_scheme_separator preferences resolved eq_refl).
Defined.

(** ** Validation *)

(** X6: [validateRadarrInstance] returns exactly for the instances whose
    name, URL and API key each have a character that is not white space
    and whose URL parses; for every other instance it throws one of its
    four messages, the first that applies in the order name, URL, API key,
    URL syntax. *)
Theorem validation_accepts_iff (URL_parses : string -> bool) (instance : RadarrInstance) :
  (validateRadarrInstance URL_parses instance = Return tt
   <-> not_blank (name instance) /\ not_blank (url instance)
       /\ not_blank (apiKey instance) /\ URL_parses (url instance) = true)
  /\ (~ not_blank (name instance) ->
      validateRadarrInstance URL_parses instance = Throw "Instance name cannot be empty")
  /\ (not_blank (name instance) -> ~ not_blank (url instance) ->
      validateRadarrInstance URL_parses instance = Throw "Instance URL cannot be empty")
  /\ (not_blank (name instance) -> not_blank (url instance) ->
      ~ not_blank (apiKey instance) ->
      validateRadarrInstance URL_parses instance = Throw "Instance API key cannot be empty")
  /\ (not_blank (name instance) -> not_blank (url instance) ->
      not_blank (apiKey instance) -> URL_parses (url instance) = false ->
      validateRadarrInstance URL_parses instance = Throw "Instance URL is not valid").
Proof.
  unfold validateRadarrInstance, not_blank. rewrite !trim_truthy, !negb_involutive.
  destruct (all_white_space (name instance));
    destruct (all_white_space (url instance));
    destruct (all_white_space (apiKey instance));
    destruct (URL_parses (url instance));
    repeat split; intros; try reflexivity; try congruence;
    try (exfalso; auto; fail);
    repeat match goal with H : _ /\ _ |- _ => destruct H end; congruence.
Qed.

(** ** The JSON-array resolver *)

Lemma js_get_field (element : JsValue) (key : string) :
  element <> JsNull -> element <> JsUndefined ->
  js_get element key = Return (field key element).
Proof. destruct element; intros Hnull Hundefined; try reflexivity; congruence. Qed.

Lemma element_complete_object (element : JsValue) :
  element_complete element -> element <> JsNull /\ element <> JsUndefined.
Proof.
  intros (Hname & _). destruct element; cbn in Hname; split; congruence.
Qed.

Lemma callback_complete (element : JsValue) (index : nat) :
  element_complete element ->
  UntypedConfig.callback element index = Return (entry_of element).
Proof.
  intros Hcomplete.
  destruct (element_complete_object element Hcomplete) as [Hnull Hundefined].
  destruct Hcomplete as (Hname & (text & Hurl & Htext) & Hkey).
  unfold UntypedConfig.callback, entry_of, normalised_url.
  rewrite !js_get_field by assumption. cbn [bind].
  rewrite Hname, Hkey, Hurl. cbn [js_truthy].
  apply truthy_true in Htext. rewrite Htext. reflexivity.
Qed.

Lemma callback_returns (element : JsValue) (index : nat) (resolved : JsValue) :
  UntypedConfig.callback element index = Return resolved -> element_complete element.
Proof.
  unfold UntypedConfig.callback, element_complete.
  destruct element as [| |b|n|s|elements|properties]; cbn [js_get bind field js_truthy negb orb];
    try discriminate.
  destruct (js_truthy (property "name" properties)); cbn [negb orb]; [|discriminate].
  destruct (js_truthy (property "url" properties)) eqn:Hurl; cbn [negb orb]; [|discriminate].
  destruct (js_truthy (property "apiKey" properties)); cbn [negb orb]; [|discriminate].
  destruct (property "url" properties) as [| |b|n|text|elements|nested];
    cbn [UntypedConfig.replace_trailing_slash bind]; try discriminate.
  intros _. split; [reflexivity|]. split; [|reflexivity].
  exists text. split; [reflexivity|]. apply truthy_true. exact Hurl.
Qed.

Lemma mapInstances_returns_iff (index : nat) (elements resolved : list JsValue) :
  UntypedConfig.mapInstances index elements = Return resolved
  <-> Forall element_complete elements /\ resolved = List.map entry_of elements.
Proof.
  revert index resolved. induction elements as [|element rest IH]; intros index resolved.
  - cbn. split; [intros [= <-]; auto|intros [_ ->]; reflexivity].
  - cbn [UntypedConfig.mapInstances List.map]. split.
    + destruct (UntypedConfig.callback element index) as [entry|message] eqn:Hentry;
        cbn [bind]; [|discriminate].
      pose proof (callback_returns element index entry Hentry) as Hcomplete.
      rewrite (callback_complete element index Hcomplete) in Hentry.
      injection Hentry as <-.
      destruct (UntypedConfig.mapInstances (S index) rest) as [others|message] eqn:Hrest;
        cbn [bind]; [|discriminate].
      apply IH in Hrest. destruct Hrest as [Hall ->].
      intros [= <-]. split; [constructor; assumption|reflexivity].
    + intros [Hall ->]. inversion Hall as [|? ? Hcomplete Hrest]; subst.
      rewrite (callback_complete element index Hcomplete). cbn [bind].
      rewrite (proj2 (IH (S index) _) (conj Hrest eq_refl)). reflexivity.
Qed.

(** X7: the JSON-array configuration resolves exactly when the preference
    text parses to an array whose elements all have a truthy name (any
    value, not only a string), a URL that is a string and not empty, and
    a truthy API key.  The result then has one object per element, in the
    order of the array, with the name and the key as they are, the URL
    normalised, and [isDefault] set only for an element whose flag is
    exactly [true]. *)
Theorem dynamic_resolution_succeeds_iff
    (JSON_parse : string -> Outcome JsValue)
    (preferences : DynamicConfig.Preferences) (resolved : list JsValue) :
  UntypedConfig.getRadarrInstances JSON_parse preferences = Return resolved
  <-> exists elements,
        JSON_parse (DynamicConfig.instances preferences) = Return (JsArray elements)
        /\ Forall element_complete elements
        /\ resolved = List.map entry_of elements.
Proof.
  unfold UntypedConfig.getRadarrInstances. split.
  - destruct (JSON_parse (DynamicConfig.instances preferences))
      as [[| |b|n|text|elements|properties]|message];
      cbn [bind try_catch]; try discriminate.
    destruct (UntypedConfig.mapInstances 0 elements) as [mapped|message] eqn:Hmap;
      [|discriminate].
    intros [= <-]. exists elements. split; [reflexivity|].
    exact (proj1 (mapInstances_returns_iff 0 _ _) Hmap).
  - intros (elements & -> & Hall & ->). cbn [bind].
    rewrite (proj2 (mapInstances_returns_iff 0 elements _) (conj Hall eq_refl)).
    reflexivity.
Qed.

Lemma mapInstances_first_throw (index : nat) (before after : list JsValue)
    (offender : JsValue) (message : string) :
  Forall element_complete before ->
  UntypedConfig.callback offender (index + length before) = Throw message ->
  UntypedConfig.mapInstances index (before ++ offender :: after) = Throw message.
Proof.
  intros Hbefore. revert index. induction Hbefore as [|element rest Hcomplete _ IH];
    intros index Hthrow.
  - cbn [app UntypedConfig.mapInstances length] in *.
    rewrite Nat.add_0_r in Hthrow. rewrite Hthrow. reflexivity.
  - cbn [app UntypedConfig.mapInstances length] in *.
    rewrite (callback_complete element index Hcomplete). cbn [bind].
    rewrite (IH (S index)); [reflexivity|].
    rewrite <- Hthrow. f_equal. lia.
Qed.

(** How the callback fails on an element that the resolver does not
    accept. *)
Lemma callback_throws (element : JsValue) (index : nat) :
  ~ element_complete element ->
  (element = JsNull ->
   UntypedConfig.callback element index
   = Throw "Cannot read properties of null (reading 'name')")
  /\ (element = JsUndefined ->
      UntypedConfig.callback element index
      = Throw "Cannot read properties of undefined (reading 'name')")
  /\ (element <> JsNull -> element <> JsUndefined ->
      js_truthy (field "name" element) = false
      \/ js_truthy (field "url" element) = false
      \/ js_truthy (field "apiKey" element) = false ->
      UntypedConfig.callback element index
      = Throw ("Instance " +:+ pretty (index + 1)%nat
                 +:+ " is missing required fields (name, url, apiKey)"))
  /\ (js_truthy (field "name" element) = true ->
      js_truthy (field "url" element) = true ->
      js_truthy (field "apiKey" element) = true ->
      UntypedConfig.callback element index
      = Throw "instance.url.replace is not a function").
Proof.
  intros Hincomplete. split; [|split; [|split]].
  - intros ->. reflexivity.
  - intros ->. reflexivity.
  - intros Hnull Hundefined Hfalsy. unfold UntypedConfig.callback.
    rewrite !js_get_field by assumption. cbn [bind].
    destruct Hfalsy as [H|[H|H]]; rewrite H; cbn [negb orb]; rewrite ?orb_true_r; reflexivity.
  - intros Hname Hurl Hkey.
    assert (Hobject : element <> JsNull /\ element <> JsUndefined).
    { destruct element; cbn in Hname; split; congruence. }
    destruct Hobject as [Hnull Hundefined].
    unfold UntypedConfig.callback. rewrite !js_get_field by assumption. cbn [bind].
    rewrite Hname, Hurl, Hkey. cbn [negb orb].
    destruct (field "url" element) as [| |b|n|text|elements|nested] eqn:Hfield;
      cbn [UntypedConfig.replace_trailing_slash bind js_truthy] in *;
      try reflexivity; try discriminate.
    exfalso. apply Hincomplete. split; [exact Hname|]. split; [|exact Hkey].
    exists text. split; [exact Hfield|]. apply truthy_true. exact Hurl.
Qed.

(** X8: when the array has an element that the resolver does not accept,
    resolution throws behind the prefix of every configuration error, and
    the first such element decides the message: the [TypeError] of reading
    [name] when the element is [null]; the position of the element,
    counted from 1, when its name, URL or API key is missing or falsy;
    the [TypeError] of calling [replace] when the three are truthy and the
    URL is not a string.  (The two [TypeError] messages are V8's.) *)
Theorem dynamic_resolution_names_first_incomplete
    (JSON_parse : string -> Outcome JsValue)
    (preferences : DynamicConfig.Preferences)
    (before after : list JsValue) (offender : JsValue) :
  JSON_parse (DynamicConfig.instances preferences)
  = Return (JsArray (before ++ offender :: after)) ->
  Forall element_complete before ->
  ~ element_complete offender ->
  (offender = JsNull ->
   UntypedConfig.getRadarrInstances JSON_parse preferences
   = Throw "Invalid instances configuration: Cannot read properties of null (reading 'name')")
  /\ (offender <> JsNull -> offender <> JsUndefined ->
      js_truthy (field "name" offender) = false
      \/ js_truthy (field "url" offender) = false
      \/ js_truthy (field "apiKey" offender) = false ->
      UntypedConfig.getRadarrInstances JSON_parse preferences
      = Throw ("Invalid instances configuration: Instance "
                 +:+ pretty (length before + 1)%nat
                 +:+ " is missing required fields (name, url, apiKey)"))
  /\ (js_truthy (field "name" offender) = true ->
      js_truthy (field "url" offender) = true ->
      js_truthy (field "apiKey" offender) = true ->
      UntypedConfig.getRadarrInstances JSON_parse preferences
      = Throw "Invalid instances configuration: instance.url.replace is not a function").
Proof.
  intros Hparse Hbefore Hoffender.
  destruct (callback_throws offender (0 + length before) Hoffender)
    as (Hnull & _ & Hmissing & Hreplace).
  assert (Hthrown : forall message,
            UntypedConfig.callback offender (0 + length before) = Throw message ->
            UntypedConfig.getRadarrInstances JSON_parse preferences
            = Throw ("Invalid instances configuration: " +:+ message)).
  { intros message Hthrow. unfold UntypedConfig.getRadarrInstances.
    rewrite Hparse. cbn [bind].
    rewrite (mapInstances_first_throw 0 before after offender message Hbefore Hthrow).
    reflexivity. }
  split; [|split].
  - intros Hoff. exact (Hthrown _ (Hnull Hoff)).
  - intros H1 H2 H3. exact (Hthrown _ (Hmissing H1 H2 H3)).
  - intros H1 H2 H3. exact (Hthrown _ (Hreplace H1 H2 H3)).
Qed.

(** The array [[A, null]]: the second element is [null]. *)
Lemma dynamic_resolution_names_first_incomplete_witness :
  UntypedConfig.getRadarrInstances Json.parse entry_then_null
  = Throw "Invalid instances configuration: Cannot read properties of null (reading 'name')".
Proof.
  refine (proj1 (dynamic_resolution_names_first_incomplete Json.parse entry_then_null
                   [complete_entry] [] JsNull _ _ _) eq_refl).
  - vm_compute. reflexivity.
  - constructor; [|constructor]. split; [reflexivity|]. split; [|reflexivity].
    eexists. split; [reflexivity|discriminate].
  - intros (Hname & _). discriminate Hname.
Defined.

Example untyped_resolution_runs :
  UntypedConfig.getRadarrInstances Json.parse second_entry_without_key
  = Throw "Invalid instances configuration: Instance 2 is missing required fields (name, url, apiKey)"
  /\ UntypedConfig.getRadarrInstances Json.parse
       (DynamicConfig.mkPreferences (Json.stringify (JsArray [ entry_with_numeric_name ])))
     = Return [ JsObject [ ("name", JsNumber 5); ("url", JsString "http://a:7878");
                           ("apiKey", JsString "key-A"); ("isDefault", JsBool false) ] ]
  /\ UntypedConfig.getRadarrInstances Json.parse
       (DynamicConfig.mkPreferences (Json.stringify (JsArray [ entry_with_numeric_url ])))
     = Throw "Invalid instances configuration: instance.url.replace is not a function"
  /\ UntypedConfig.getRadarrInstances Json.parse
       (DynamicConfig.mkPreferences (Json.stringify (JsArray [ JsNumber 7; complete_entry ])))
     = Throw "Invalid instances configuration: Instance 1 is missing required fields (name, url, apiKey)"
  /\ UntypedConfig.getRadarrInstances Json.parse (DynamicConfig.mkPreferences "{}")
     = Throw "Invalid instances configuration: Instances configuration must be an array"
  /\ UntypedConfig.getRadarrInstances Json.parse (DynamicConfig.mkPreferences "[")
     = Throw "Invalid instances configuration: Unexpected token in JSON"
  /\ UntypedConfig.getDefaultRadarrInstance Json.parse (json_array_of [false; true; true])
     = Return (js_of_instance instance_B)
  /\ UntypedConfig.getDefaultRadarrInstance Json.parse (json_array_of [])
     = Throw "No Radarr instances configured".
Proof. vm_compute. repeat split. Qed.

(** *** The resolver at the declared type *)

Lemma shape_truthy (value : JsValue) :
  string_or_falsy value = true -> truthy_opt (optional_string value) = js_truthy value.
Proof. destruct value; cbn; intros H; try reflexivity; symmetry; apply negb_true_iff, H. Qed.

Lemma shape_string (value : JsValue) :
  string_or_falsy value = true -> js_truthy value = true ->
  exists text, value = JsString text.
Proof.
  destruct value; cbn; intros Hshape Htruthy; eauto; try discriminate;
    rewrite Htruthy in Hshape; discriminate Hshape.
Qed.

Lemma is_true_flag (value : JsValue) :
  is_true value = match optional_bool value with
                  | Some true => true
                  | _ => false
                  end.
Proof. destruct value as [| |[|]| | | |]; reflexivity. Qed.

Lemma typed_mapInstances_agrees (index : nat) (elements : list JsValue) :
  forallb declared_shape elements = true ->
  UntypedConfig.mapInstances index elements
  = (resolved <- DynamicConfig.mapInstances index (List.map raw_of elements) ;;
     Return (List.map js_of_instance resolved))%outcome.
Proof.
  revert index. induction elements as [|element rest IH]; intros index Hshape;
    [reflexivity|].
  cbn [forallb] in Hshape. apply andb_true_iff in Hshape. destruct Hshape as [Hhead Hrest].
  cbn [UntypedConfig.mapInstances DynamicConfig.mapInstances List.map].
  rewrite (IH (S index) Hrest). clear IH.
  destruct element as [| |b|n|text|nested|properties];
    try discriminate Hhead; try reflexivity.
  cbn [declared_shape] in Hhead.
  apply andb_true_iff in Hhead. destruct Hhead as [Hhead Hkey].
  apply andb_true_iff in Hhead. destruct Hhead as [Hname Hurl].
  unfold UntypedConfig.callback.
  cbn [js_get bind raw_of DynamicConfig.raw_name DynamicConfig.raw_url
         DynamicConfig.raw_apiKey DynamicConfig.raw_isDefault].
  rewrite (shape_truthy _ Hname), (shape_truthy _ Hurl), (shape_truthy _ Hkey).
  destruct (js_truthy (property "name" properties)) eqn:Hn; cbn [negb orb]; [|reflexivity].
  destruct (js_truthy (property "url" properties)) eqn:Hu; cbn [negb orb]; [|reflexivity].
  destruct (js_truthy (property "apiKey" properties)) eqn:Hk; cbn [negb orb]; [|reflexivity].
  destruct (shape_string _ Hurl Hu) as [u ->].
  destruct (shape_string _ Hname Hn) as [n ->].
  destruct (shape_string _ Hkey Hk) as [k ->].
  cbn [UntypedConfig.replace_trailing_slash bind optional_string value_of default
         from_option id].
  rewrite is_true_flag.
  destruct (DynamicConfig.mapInstances (S index) (List.map raw_of rest)) as [resolved|message];
    reflexivity.
Qed.

(** On a preference whose array has elements of the declared shape only,
    the resolver at the declared type is the resolver on the decoded
    values: it throws the same error or returns the instances that the
    resolved objects are. *)
Lemma typed_resolution_agrees (JSON_parse : string -> Outcome JsValue)
    (preferences : DynamicConfig.Preferences) :
  (forall elements,
     JSON_parse (DynamicConfig.instances preferences) = Return (JsArray elements) ->
     forallb declared_shape elements = true) ->
  UntypedConfig.getRadarrInstances JSON_parse preferences
  = (resolved <- DynamicConfig.getRadarrInstances (read_at_declared_type JSON_parse)
                   preferences ;;
     Return (List.map js_of_instance resolved))%outcome.
Proof.
  intros Hshape.
  unfold UntypedConfig.getRadarrInstances, DynamicConfig.getRadarrInstances,
    read_at_declared_type.
  destruct (JSON_parse (DynamicConfig.instances preferences))
    as [[| |b|n|text|elements|properties]|message]; try reflexivity.
  cbn [bind]. rewrite (typed_mapInstances_agrees 0 elements (Hshape elements eq_refl)).
  destruct (DynamicConfig.mapInstances 0 (List.map raw_of elements)); reflexivity.
Qed.

Lemma find_default_of_instances (resolved : list RadarrInstance) :
  UntypedConfig.find_default (List.map js_of_instance resolved)
  = Return (option_map js_of_instance (List.find isDefault resolved)).
Proof.
  induction resolved as [|instance rest IH]; [reflexivity|].
  cbn [List.map UntypedConfig.find_default List.find].
  change (js_get (js_of_instance instance) "isDefault")
    with (Return (A := JsValue) (JsBool (isDefault instance))).
  cbn [bind js_truthy]. destruct (isDefault instance); [reflexivity|exact IH].
Qed.

(** The same for the default: [getDefaultRadarrInstance] at the declared
    type picks the instance that the code picks. *)
Lemma typed_default_agrees (JSON_parse : string -> Outcome JsValue)
    (preferences : DynamicConfig.Preferences) :
  (forall elements,
     JSON_parse (DynamicConfig.instances preferences) = Return (JsArray elements) ->
     forallb declared_shape elements = true) ->
  UntypedConfig.getDefaultRadarrInstance JSON_parse preferences
  = (chosen <- DynamicConfig.getDefaultRadarrInstance (read_at_declared_type JSON_parse)
                 preferences ;;
     Return (js_of_instance chosen))%outcome.
Proof.
  intros Hshape.
  unfold UntypedConfig.getDefaultRadarrInstance, DynamicConfig.getDefaultRadarrInstance.
  rewrite (typed_resolution_agrees JSON_parse preferences Hshape).
  destruct (DynamicConfig.getRadarrInstances (read_at_declared_type JSON_parse) preferences)
    as [resolved|message]; [|reflexivity].
  cbn [bind]. rewrite find_default_of_instances. cbn [bind]. unfold defaultOf.
  destruct (List.find isDefault resolved) as [found|]; [reflexivity|].
  destruct resolved; reflexivity.
Qed.

Example dynamic_resolution_runs :
  DynamicConfig.getRadarrInstances parse_instances second_entry_without_key
  = Throw "Invalid instances configuration: Instance 2 is missing required fields (name, url, apiKey)"
  /\ DynamicConfig.getRadarrInstances parse_instances (DynamicConfig.mkPreferences "{}")
     = Throw "Invalid instances configuration: Instances configuration must be an array"
  /\ DynamicConfig.getRadarrInstances parse_instances (DynamicConfig.mkPreferences "[")
     = Throw "Invalid instances configuration: Unexpected token in JSON".
Proof. vm_compute. repeat split. Qed.

(** ** The selection store, on any store *)

Lemma strict_equals_true (s : string) (value : JsValue) :
  strict_equals s value = true -> value = JsString s.
Proof.
  destruct value; cbn; try discriminate.
  intros Heq. apply String.eqb_eq in Heq. congruence.
Qed.

Lemma some_matches_true (available : list RadarrInstance) (value : JsValue) :
  some_matches available value = Return true ->
  exists instance,
    In instance available
    /\ js_get value "name" = Return (JsString (name instance))
    /\ js_get value "url" = Return (JsString (url instance)).
Proof.
  induction available as [|instance rest IH]; cbn [some_matches]; [discriminate|].
  destruct (js_get value "name") as [selectedName|message] eqn:Hname;
    cbn [bind]; [|discriminate].
  destruct (strict_equals (name instance) selectedName) eqn:Hsame.
  - destruct (js_get value "url") as [selectedUrl|message] eqn:Hurl;
      cbn [bind]; [|discriminate].
    destruct (strict_equals (url instance) selectedUrl) eqn:Hsame'.
    + intros _. exists instance.
      apply strict_equals_true in Hsame, Hsame'. subst. cbn. auto.
    + intros Hrest. destruct (IH Hrest) as (found & Hin & Hfound). exists found. cbn. auto.
  - intros Hrest. destruct (IH Hrest) as (found & Hin & Hfound). exists found. cbn. auto.
Qed.

Lemma defaultOf_member (resolved : list RadarrInstance) (chosen : RadarrInstance) :
  defaultOf resolved = Return chosen -> In chosen resolved.
Proof.
  pose proof (defaultOf_contract resolved) as Hcontract.
  destruct resolved as [|first rest]; [intros Hthrow; congruence|].
  destruct Hcontract as (picked & Hpicked & Hin & _). congruence.
Qed.

Section StoreFacts.

Variable JSON_parse : string -> Outcome JsValue.
Context {Preferences : Type}.
Variable resolver : Preferences -> Outcome (list RadarrInstance).
Variable preferences : Preferences.

(** The three ways a call of [getCurrentInstance] can go. *)
Lemma getCurrentInstance_cases (storage : gmap string string) :
  (exists text value available,
     storage !! SELECTED_INSTANCE_KEY = Some text
     /\ truthy text = true
     /\ JSON_parse text = Return value
     /\ resolver preferences = Return available
     /\ some_matches available value = Return true
     /\ getCurrentInstance JSON_parse resolver preferences storage
        = (Return value, storage))
  \/ (truthy_opt (storage !! SELECTED_INSTANCE_KEY) = false
      /\ getCurrentInstance JSON_parse resolver preferences storage
         = (configured_default resolver preferences, storage))
  \/ (truthy_opt (storage !! SELECTED_INSTANCE_KEY) = true
      /\ getCurrentInstance JSON_parse resolver preferences storage
         = (configured_default resolver preferences,
            delete SELECTED_INSTANCE_KEY storage)).
Proof.
  unfold getCurrentInstance, await, LocalStorage_getItem, selected_if_still_configured.
  destruct (storage !! SELECTED_INSTANCE_KEY) as [text|] eqn:Hslot;
    [|right; left; split; reflexivity].
  cbn [truthy_opt value_of default from_option id].
  destruct (truthy text) eqn:Htext; [|right; left; split; reflexivity].
  unfold try_async, await, sync.
  destruct (JSON_parse text) as [value|message] eqn:Hparse;
    [|right; right; split; reflexivity].
  destruct (resolver preferences) as [available|message] eqn:Hresolved;
    [|right; right; split; reflexivity].
  destruct (some_matches available value) as [[|]|message] eqn:Hmatch;
    [|right; right; split; reflexivity..].
  left. exists text, value, available. repeat split; reflexivity || assumption.
Qed.

End StoreFacts.

Lemma getCurrentInstance_falsy_slot
    (JSON_parse : string -> Outcome JsValue) {Preferences : Type}
    (resolver : Preferences -> Outcome (list RadarrInstance))
    (preferences : Preferences) (storage : gmap string string) :
  truthy_opt (storage !! SELECTED_INSTANCE_KEY) = false ->
  getCurrentInstance JSON_parse resolver preferences storage
  = (configured_default resolver preferences, storage).
Proof.
  intros Hfalsy.
  destruct (getCurrentInstance_cases JSON_parse resolver preferences storage)
    as [(text & value & available & Hslot & Htext & _)|[[_ Hresult]|[Htruthy _]]].
  - rewrite Hslot in Hfalsy. cbn in Hfalsy. congruence.
  - exact Hresult.
  - congruence.
Qed.

Lemma getCurrentInstance_cleared
    (JSON_parse : string -> Outcome JsValue) {Preferences : Type}
    (resolver : Preferences -> Outcome (list RadarrInstance))
    (preferences : Preferences) (storage : gmap string string) :
  getCurrentInstance JSON_parse resolver preferences (delete SELECTED_INSTANCE_KEY storage)
  = (configured_default resolver preferences, delete SELECTED_INSTANCE_KEY storage).
Proof.
  apply getCurrentInstance_falsy_slot. rewrite lookup_delete_eq. reflexivity.
Qed.

(** X9: on a store whose slot is absent or holds the empty string,
    [getCurrentInstance] completes as the default of the configuration
    does and leaves the store as it is (an empty-string slot is not
    removed). *)
Theorem current_instance_without_override
    (JSON_parse : string -> Outcome JsValue) {Preferences : Type}
    (resolver : Preferences -> Outcome (list RadarrInstance))
    (preferences : Preferences) (storage : gmap string string) :
  not_given (storage !! SELECTED_INSTANCE_KEY) ->
  getCurrentInstance JSON_parse resolver preferences storage
  = (configured_default resolver preferences, storage).
Proof.
  intros Habsent. apply getCurrentInstance_falsy_slot.
  apply not_given_falsy. exact Habsent.
Qed.

Lemma current_instance_without_override_witness :
  getCurrentInstance Json.parse StaticConfig.getRadarrInstances main_and_4k
    {[ SELECTED_INSTANCE_KEY := EmptyString ]}
  = (configured_default StaticConfig.getRadarrInstances main_and_4k,
     {[ SELECTED_INSTANCE_KEY := EmptyString ]}).
Proof.
  apply (current_instance_without_override Json.parse StaticConfig.getRadarrInstances
           main_and_4k {[ SELECTED_INSTANCE_KEY := EmptyString ]}).
  right. apply lookup_singleton_eq.
Defined.

(** X10: a call of [getCurrentInstance] settles the store: calling it
    again on the store it leaves gives the same result and leaves that
    store unchanged, whatever the slot held and whatever the
    configuration resolves to. *)
Theorem current_instance_settles
    (JSON_parse : string -> Outcome JsValue) {Preferences : Type}
    (resolver : Preferences -> Outcome (list RadarrInstance))
    (preferences : Preferences) (storage : gmap string string) :
  let first := getCurrentInstance JSON_parse resolver preferences storage in
  getCurrentInstance JSON_parse resolver preferences (snd first) = (fst first, snd first).
Proof.
  intros first. unfold first.
  destruct (getCurrentInstance_cases JSON_parse resolver preferences storage)
    as [(text & value & available & _ & _ & _ & _ & _ & Hresult)
       |[[_ Hresult]|[_ Hresult]]];
    rewrite Hresult; cbn [fst snd]; try exact Hresult.
  apply getCurrentInstance_cleared.
Qed.

(** X11: whatever [getCurrentInstance] returns carries the name and the
    URL of an entry of the freshly resolved configuration, be it the
    stored override or the default: a selection that the configuration no
    longer has is never returned. *)
Theorem current_instance_is_configured
    (JSON_parse : string -> Outcome JsValue) {Preferences : Type}
    (resolver : Preferences -> Outcome (list RadarrInstance))
    (preferences : Preferences) (storage : gmap string string) (returned : JsValue) :
  fst (getCurrentInstance JSON_parse resolver preferences storage) = Return returned ->
  exists available instance,
    resolver preferences = Return available
    /\ In instance available
    /\ js_get returned "name" = Return (JsString (name instance))
    /\ js_get returned "url" = Return (JsString (url instance)).
Proof.
  assert (Hdefault :
            configured_default resolver preferences = Return returned ->
            exists available instance,
              resolver preferences = Return available
              /\ In instance available
              /\ js_get returned "name" = Return (JsString (name instance))
              /\ js_get returned "url" = Return (JsString (url instance))).
  { unfold configured_default, getActiveRadarrInstance.
    destruct (resolver preferences) as [available|message]; cbn [bind]; [|discriminate].
    destruct (defaultOf available) as [chosen|message] eqn:Hchosen;
      cbn [bind]; [|discriminate].
    intros [= <-]. exists available, chosen.
    split; [reflexivity|]. split; [exact (defaultOf_member _ _ Hchosen)|].
    split; reflexivity. }
  destruct (getCurrentInstance_cases JSON_parse resolver preferences storage)
    as [(text & value & available & _ & _ & _ & Hresolved & Hmatch & Hresult)
       |[[_ Hresult]|[_ Hresult]]];
    rewrite Hresult; cbn [fst]; try exact Hdefault.
  intros [= <-]. destruct (some_matches_true available value Hmatch)
    as (instance & Hin & Hname & Hurl).
  exists available, instance. auto.
Qed.

Lemma current_instance_is_configured_witness :
  exists available instance,
    StaticConfig.getRadarrInstances main_and_half_4k = Return available
    /\ In instance available
    /\ js_get (js_of_instance main_instance) "name" = Return (JsString (name instance))
    /\ js_get (js_of_instance main_instance) "url" = Return (JsString (url instance)).
Proof.
  apply (current_instance_is_configured Json.parse StaticConfig.getRadarrInstances
           main_and_half_4k
           (snd (setCurrentInstance Json.stringify uhd_instance ∅))
           (js_of_instance main_instance)).
  vm_compute. reflexivity.
Defined.

(** ** Setting, testing and clearing the override *)

Lemma hasInstanceOverride_reads (storage : gmap string string) :
  hasInstanceOverride storage
  = (Return (truthy_opt (storage !! SELECTED_INSTANCE_KEY)), storage).
Proof. reflexivity. Qed.

(** X12: once [clearInstanceOverride] has run, [hasInstanceOverride]
    answers [false] and [getCurrentInstance] completes as the default of
    the configuration does without writing; this holds on every store, so
    also right after [setCurrentInstance]; clearing twice is clearing
    once. *)
Theorem clearing_restores_default
    (JSON_parse : string -> Outcome JsValue) {Preferences : Type}
    (resolver : Preferences -> Outcome (list RadarrInstance))
    (preferences : Preferences) (storage : gmap string string) :
  let cleared := snd (clearInstanceOverride storage) in
  fst (clearInstanceOverride storage) = Return tt
  /\ hasInstanceOverride cleared = (Return false, cleared)
  /\ getCurrentInstance JSON_parse resolver preferences cleared
     = (configured_default resolver preferences, cleared)
  /\ snd (clearInstanceOverride cleared) = cleared
  /\ forall (JSON_stringify : JsValue -> string) (selected : RadarrInstance),
       snd (clearInstanceOverride (snd (setCurrentInstance JSON_stringify selected storage)))
       = cleared.
Proof.
  intros cleared. unfold cleared, clearInstanceOverride, LocalStorage_removeItem.
  cbn [fst snd]. split; [reflexivity|]. split; [|split; [|split]].
  - rewrite hasInstanceOverride_reads, lookup_delete_eq. reflexivity.
  - apply getCurrentInstance_cleared.
  - apply delete_id. apply lookup_delete_eq.
  - intros JSON_stringify selected.
    unfold setCurrentInstance, LocalStorage_setItem. cbn [snd].
    apply delete_insert_eq.
Qed.

(** X13: after a call of [getCurrentInstance], [hasInstanceOverride]
    answers [true] exactly when that call returned the value parsed from
    a non-empty slot and kept the store; whenever it fell back to the
    default, the answer is [false]. *)
Theorem override_flag_after_reading
    (JSON_parse : string -> Outcome JsValue) {Preferences : Type}
    (resolver : Preferences -> Outcome (list RadarrInstance))
    (preferences : Preferences) (storage : gmap string string) :
  let read := getCurrentInstance JSON_parse resolver preferences storage in
  fst (hasInstanceOverride (snd read)) = Return true
  <-> exists text value,
        storage !! SELECTED_INSTANCE_KEY = Some text
        /\ truthy text = true
        /\ JSON_parse text = Return value
        /\ read = (Return value, storage).
Proof.
  intros read. unfold read. rewrite hasInstanceOverride_reads. cbn [fst].
  destruct (getCurrentInstance_cases JSON_parse resolver preferences storage)
    as [(text & value & available & Hslot & Htext & Hparse & _ & _ & Hresult)
       |[[Hfalsy Hresult]|[Htruthy Hresult]]];
    rewrite Hresult; cbn [snd].
  - rewrite Hslot. cbn [truthy_opt]. rewrite Htext. split; [|reflexivity].
    intros _. exists text, value. auto.
  - rewrite Hfalsy. split; [discriminate|].
    intros (text & value & Hslot & Htext & _). exfalso.
    rewrite Hslot in Hfalsy. cbn [truthy_opt] in Hfalsy. congruence.
  - rewrite lookup_delete_eq. cbn [truthy_opt]. split; [discriminate|].
    intros (text & value & Hslot & _ & _ & [= _ Hsame]). exfalso.
    assert (Hgone : delete SELECTED_INSTANCE_KEY storage !! SELECTED_INSTANCE_KEY = None)
      by apply lookup_delete_eq.
    rewrite Hsame, Hslot in Hgone. discriminate.
Qed.

(** ** The dropdown choices *)

(** X14: when resolution succeeds, [getRadarrInstanceChoices] gives one
    choice per resolved instance, in order.  With a host JSON that reads
    back what it writes for an instance, the value of every choice is an
    override that [getCurrentInstance] accepts: put in the slot, it makes
    the call return the instance the choice was built from (titled
    [<name> (<url>)]) and keep the store. *)
Theorem choice_values_are_accepted
    (JSON_parse : string -> Outcome JsValue) (JSON_stringify : JsValue -> string)
    {Preferences : Type} (resolver : Preferences -> Outcome (list RadarrInstance))
    (preferences : Preferences) (resolved : list RadarrInstance) :
  (forall instance,
     JSON_parse (JSON_stringify (js_of_instance instance)) = Return (js_of_instance instance)
     /\ truthy (JSON_stringify (js_of_instance instance)) = true) ->
  resolver preferences = Return resolved ->
  exists choices,
    getRadarrInstanceChoices JSON_stringify resolver preferences = Return choices
    /\ length choices = length resolved
    /\ forall (n : nat) (choice : Choice) (storage : gmap string string),
         choices !! n = Some choice ->
         storage !! SELECTED_INSTANCE_KEY = Some (choice_value choice) ->
         exists instance,
           resolved !! n = Some instance
           /\ choice_title choice = name instance +:+ " (" +:+ url instance +:+ ")"
           /\ getCurrentInstance JSON_parse resolver preferences storage
              = (Return (js_of_instance instance), storage).
Proof.
  intros Hhost Hresolved. unfold getRadarrInstanceChoices. rewrite Hresolved. cbn [bind].
  eexists. split; [reflexivity|]. split; [apply length_map|].
  intros n choice storage Hchoice Hslot.
  rewrite list_lookup_fmap in Hchoice.
  destruct (resolved !! n) as [instance|] eqn:Hn; [|discriminate].
  cbn in Hchoice. injection Hchoice as <-. cbn [choice_title choice_value] in *.
  exists instance. split; [reflexivity|]. split; [reflexivity|].
  destruct (Hhost instance) as [Hparse Htruthy].
  apply (getCurrentInstance_on_override JSON_parse resolver preferences instance storage
           _ Hslot Htruthy Hparse).
  exists resolved, instance. split; [exact Hresolved|].
  split; [|split; reflexivity].
  apply list_elem_of_In. apply list_elem_of_lookup. exists n. exact Hn.
Qed.

Lemma choice_values_are_accepted_witness :
  exists choices,
    getRadarrInstanceChoices Json.stringify StaticConfig.getRadarrInstances main_and_4k
    = Return choices
    /\ length choices = length [main_instance; uhd_instance]
    /\ forall (n : nat) (choice : Choice) (storage : gmap string string),
         choices !! n = Some choice ->
         storage !! SELECTED_INSTANCE_KEY = Some (choice_value choice) ->
         exists instance,
           [main_instance; uhd_instance] !! n = Some instance
           /\ choice_title choice = name instance +:+ " (" +:+ url instance +:+ ")"
           /\ getCurrentInstance Json.parse StaticConfig.getRadarrInstances main_and_4k
                storage
              = (Return (js_of_instance instance), storage).
Proof.
  apply (choice_values_are_accepted Json.parse Json.stringify
           StaticConfig.getRadarrInstances main_and_4k [main_instance; uhd_instance]).
  - intros instance. split; [apply json_round_trip|apply json_text_truthy].
  - reflexivity.
Defined.

Example choices_run :
  getRadarrInstanceChoices Json.stringify StaticConfig.getRadarrInstances main_and_4k
  = Return [ {| choice_title := "Main (http://localhost:7878)";
                choice_value := Json.stringify (js_of_instance main_instance) |};
             {| choice_title := "4K (http://nas.local:7879)";
                choice_value := Json.stringify (js_of_instance uhd_instance) |} ].
Proof. reflexivity. Qed.

(** ** The client: what is shown and what is thrown *)

Section ClientReports.

Variable JSON_parse : string -> Outcome JsValue.
Variable JSON_stringify : JsValue -> string.
Variable encodeURIComponent : string -> string.
Variable fetch : Request -> Outcome Response.
Variable instance : RadarrInstance.

Lemma searchMovies_run (query : string) :
  searchMovies JSON_parse encodeURIComponent fetch instance query
  = match (response <- fetch (searchMovies_request encodeURIComponent instance query) ;;
           if ok response then json JSON_parse response
           else Throw ("HTTP " +:+ pretty (status response) +:+ ": "
                         +:+ statusText response))%outcome with
    | Return results => (Return results, [])
    | Throw message =>
        (Throw message,
         reported "Movie search error:" "Search Failed"
           ("Failed to search movies: " +:+ message) message)
    end.
Proof.
  unfold searchMovies.
  destruct (fetch (searchMovies_request encodeURIComponent instance query))
    as [response|message]; [|reflexivity].
  cbn [bind quiet then_logged try_logged].
  destruct (ok response); cbn [negb]; [|reflexivity].
  destruct (json JSON_parse response); reflexivity.
Qed.

Lemma removeQueueItem_run (id : Z) :
  removeQueueItem fetch instance id
  = match (response <- fetch (removeQueueItem_request instance id) ;;
           if ok response then Return tt
           else Throw ("HTTP " +:+ pretty (status response) +:+ ": "
                         +:+ statusText response))%outcome with
    | Return _ =>
        (Return tt,
         [ ShowToast Success "Queue Item Removed" "Item removed from download queue" ])
    | Throw message =>
        (Throw message,
         reported "Remove queue item error:" "Failed to Remove Item" message message)
    end.
Proof.
  unfold removeQueueItem.
  destruct (fetch (removeQueueItem_request instance id)) as [response|message];
    [|reflexivity].
  cbn [bind quiet then_logged try_logged].
  destruct (ok response); reflexivity.
Qed.

Lemma addMovie_run (movie : list (string * JsValue)) (qualityProfileId : Z)
    (rootFolderPath : string) (monitored searchOnAdd : bool) :
  addMovie JSON_parse JSON_stringify fetch instance movie qualityProfileId rootFolderPath
    monitored searchOnAdd
  = match (response <- fetch (addMovie_sent JSON_stringify instance movie
                                qualityProfileId rootFolderPath monitored searchOnAdd) ;;
           if ok response then json JSON_parse response
           else (errorBody <- text response ;;
                 Throw ("HTTP " +:+ pretty (status response) +:+ ": " +:+ errorBody)))
          %outcome with
    | Return addedMovie =>
        (Return addedMovie,
         [ ShowToast Success "Movie Added"
             (template_string (property "title" movie) +:+ " ("
                +:+ template_string (property "year" movie) +:+ ") added to "
                +:+ name instance) ])
    | Throw message =>
        (Throw message,
         reported "Add movie error:" "Failed to Add Movie"
           ("Could not add " +:+ template_string (property "title" movie)
              +:+ ": " +:+ message) message)
    end.
Proof.
  unfold addMovie, addMovie_sent.
  destruct (fetch _) as [response|message]; [|reflexivity].
  cbn [bind quiet then_logged try_logged].
  destruct (ok response); cbn [negb].
  - destruct (json JSON_parse response); reflexivity.
  - destruct (text response); reflexivity.
Qed.

End ClientReports.

(** X15: [searchMovies] is silent when it returns and reports every
    failure once: either it returns the decoded body of a 2xx response
    with nothing shown, or it throws and has shown exactly one console
    line and one [Search Failed] toast carrying the message it throws.  A
    status outside 200-299 is thrown as [HTTP <status>: <statusText>]; a
    rejected request is rethrown with its own message. *)
Theorem searchMovies_reports_failures
    (JSON_parse : string -> Outcome JsValue) (encodeURIComponent : string -> string)
    (fetch : Request -> Outcome Response) (instance : RadarrInstance) (query : string) :
  let run := searchMovies JSON_parse encodeURIComponent fetch instance query in
  let request := searchMovies_request encodeURIComponent instance query in
  ((exists results, run = (Return results, []))
   \/ (exists message,
         run = (Throw message,
                reported "Movie search error:" "Search Failed"
                  ("Failed to search movies: " +:+ message) message)))
  /\ (forall response results,
        fetch request = Return response -> 200 <= status response <= 299 ->
        json JSON_parse response = Return results ->
        run = (Return results, []))
  /\ (forall response,
        fetch request = Return response -> ~ 200 <= status response <= 299 ->
        fst run = Throw ("HTTP " +:+ pretty (status response) +:+ ": "
                           +:+ statusText response))
  /\ (forall message, fetch request = Throw message -> fst run = Throw message).
Proof.
  intros run request. unfold run. rewrite searchMovies_run. fold request.
  split; [|split; [|split]].
  - destruct (bind _ _) as [results|message]; [left|right]; eauto.
  - intros response results Hfetch Hstatus Hjson. apply ok_iff in Hstatus.
    rewrite Hfetch. cbn [bind]. rewrite Hstatus, Hjson. reflexivity.
  - intros response Hfetch Hstatus. apply not_ok in Hstatus.
    rewrite Hfetch. cbn [bind]. rewrite Hstatus. reflexivity.
  - intros message Hfetch. rewrite Hfetch. reflexivity.
Qed.

(** X16: [removeQueueItem] sends a DELETE to [{url}/api/v3/queue/<id>].
    It shows the success toast exactly when it returns, which is exactly
    when the answer has a status from 200 to 299; in every other case it
    throws and has shown one console line and one failure toast with the
    message it throws, [HTTP <status>: <statusText>] for an answer, so a
    second removal of the same item, answered 404, is reported as a
    failure. *)
Theorem removeQueueItem_reports
    (fetch : Request -> Outcome Response) (instance : RadarrInstance) (id : Z) :
  let run := removeQueueItem fetch instance id in
  let request := removeQueueItem_request instance id in
  request_method request = "DELETE"
  /\ request_url request = url instance +:+ "/api/v3/queue/" +:+ pretty id
  /\ (run = (Return tt,
             [ ShowToast Success "Queue Item Removed" "Item removed from download queue" ])
      <-> exists response, fetch request = Return response /\ 200 <= status response <= 299)
  /\ ((forall response, fetch request = Return response -> ~ 200 <= status response <= 299) ->
      exists message,
        run = (Throw message,
               reported "Remove queue item error:" "Failed to Remove Item" message message)
        /\ forall response, fetch request = Return response ->
             message = "HTTP " +:+ pretty (status response) +:+ ": " +:+ statusText response).
Proof.
  intros run request. unfold run. rewrite removeQueueItem_run. fold request.
  split; [reflexivity|]. split; [reflexivity|]. split; [split|].
  - destruct (fetch request) as [response|message]; cbn [bind]; [|discriminate].
    destruct (ok response) eqn:Hok; [|discriminate].
    intros _. exists response. split; [reflexivity|]. apply ok_iff. exact Hok.
  - intros (response & Hfetch & Hstatus). apply ok_iff in Hstatus.
    rewrite Hfetch. cbn [bind]. rewrite Hstatus. reflexivity.
  - intros Hfail. destruct (fetch request) as [response|message]; cbn [bind].
    + rewrite (not_ok response (Hfail response eq_refl)).
      eexists. split; [reflexivity|]. intros response' [= <-]. reflexivity.
    + eexists. split; [reflexivity|]. intros response' Hresponse. discriminate.
Qed.

Lemma removeQueueItem_reports_witness :
  exists message,
    removeQueueItem not_found_server main_instance 7
    = (Throw message,
       reported "Remove queue item error:" "Failed to Remove Item" message message)
    /\ forall response, not_found_server (removeQueueItem_request main_instance 7)
                        = Return response ->
         message = "HTTP " +:+ pretty (status response) +:+ ": " +:+ statusText response.
Proof.
  apply (removeQueueItem_reports not_found_server main_instance 7).
  intros response [= <-]. cbn. lia.
Defined.

(** X17: [addMovie] shows the [Movie Added] toast exactly when it returns
    a movie, and otherwise throws after one console line and one [Failed
    to Add Movie] toast that quotes the title and the message thrown; it
    never shows both toasts and never fails silently. *)
Theorem addMovie_reports
    (JSON_parse : string -> Outcome JsValue) (JSON_stringify : JsValue -> string)
    (fetch : Request -> Outcome Response)
    (instance : RadarrInstance) (movie : list (string * JsValue))
    (qualityProfileId : Z) (rootFolderPath : string) (monitored searchOnAdd : bool) :
  let run :=
    addMovie JSON_parse JSON_stringify fetch instance movie qualityProfileId
      rootFolderPath monitored searchOnAdd in
  (exists addedMovie,
     run = (Return addedMovie,
            [ ShowToast Success "Movie Added"
                (template_string (property "title" movie) +:+ " ("
                   +:+ template_string (property "year" movie) +:+ ") added to "
                   +:+ name instance) ]))
  \/ (exists message,
        run = (Throw message,
               reported "Add movie error:" "Failed to Add Movie"
                 ("Could not add " +:+ template_string (property "title" movie)
                    +:+ ": " +:+ message) message)).
Proof.
  intros run. unfold run. rewrite addMovie_run.
  destruct (bind _ _) as [addedMovie|message]; [left|right]; eauto.
Qed.

(** ** View handlers *)

Lemma Mutated_not_shown (log : list Effect) : ~ In Mutated (List.map Shown log).
Proof.
  induction log as [|effect rest IH]; cbn; [tauto|].
  intros [Habsurd|Hrest]; [discriminate|exact (IH Hrest)].
Qed.

(** X18: [handleRemoveItem] never throws.  Without confirmation it does
    nothing at all; with it, the list is reloaded exactly when the DELETE
    was answered with a status from 200 to 299, and a failed removal is
    only reported (the client's toast and two console lines), not
    rethrown. *)
Theorem handleRemoveItem_contains_failures
    (fetch : Request -> Outcome Response) (confirmed : bool)
    (instance : RadarrInstance) (id : Z) :
  let run := handleRemoveItem fetch confirmed instance id in
  fst run = Return tt
  /\ (confirmed = false -> snd run = [])
  /\ (In Mutated (snd run)
      <-> confirmed = true
          /\ exists response,
               fetch (removeQueueItem_request instance id) = Return response
               /\ 200 <= status response <= 299)
  /\ (confirmed = true -> ~ In Mutated (snd run) ->
      exists message,
        snd run
        = List.map Shown
            (reported "Remove queue item error:" "Failed to Remove Item" message message)
          ++ [ Shown (ConsoleError "Failed to remove queue item:" message) ]).
Proof.
  intros run. unfold run, handleRemoveItem. rewrite removeQueueItem_run.
  destruct confirmed.
  - destruct (fetch (removeQueueItem_request instance id)) as [response|message] eqn:Hfetch;
      cbn [bind].
    + destruct (ok response) eqn:Hok; cbn [fst snd List.map app].
      * split; [reflexivity|]. split; [discriminate|]. split.
        -- split; [|cbn; auto].
           intros _. split; [reflexivity|]. exists response.
           split; [reflexivity|]. apply ok_iff. exact Hok.
        -- intros _ Hnot. exfalso. apply Hnot. cbn. auto.
      * split; [reflexivity|]. split; [discriminate|]. split.
        -- split.
           ++ cbn. intros [H|[H|[H|[]]]]; discriminate H.
           ++ intros (_ & response' & [= <-] & Hstatus). apply ok_iff in Hstatus.
              congruence.
        -- intros _ _. eexists. reflexivity.
    + cbn [fst snd List.map app]. split; [reflexivity|]. split; [discriminate|]. split.
      * split.
        -- cbn. intros [H|[H|[H|[]]]]; discriminate H.
        -- intros (_ & response' & Hresponse & _). discriminate Hresponse.
      * intros _ _. eexists. reflexivity.
  - cbn [fst snd]. split; [reflexivity|]. split; [reflexivity|]. split.
    + split; [intros []|intros [Habsurd _]; discriminate].
    + discriminate.
Qed.

Section AddFromSearch.

Variable JSON_parse : string -> Outcome JsValue.
Variable JSON_stringify : JsValue -> string.
Variable fetch : Request -> Outcome Response.
Variable formatMovieTitle : list (string * JsValue) -> string.
Variable instance : RadarrInstance.
Variable movie : list (string * JsValue).

Lemma handleAddMovie_attempt (rootFolder : RootFolder) (rootFolders : list RootFolder)
    (qualityProfile : QualityProfile) (qualityProfiles : list QualityProfile) :
  handleAddMovie JSON_parse JSON_stringify fetch formatMovieTitle instance movie
    (Return (rootFolder :: rootFolders, qualityProfile :: qualityProfiles))
  = match addMovie JSON_parse JSON_stringify fetch instance movie
            (profile_id qualityProfile) (folder_path rootFolder) true true with
    | (Return _, log) =>
        (Return tt,
         log ++ [ ShowToast Success "Movie Added"
                    (formatMovieTitle movie +:+ " added successfully") ])
    | (Throw message, log) =>
        (Return tt,
         log ++ [ ConsoleError "Add movie error:" message;
                  ShowToast Failure "Failed to Add Movie" message ])
    end.
Proof.
  unfold handleAddMovie. cbn [quiet then_logged].
  destruct (addMovie _ _ _ _ _ _ _ _ _) as [[added|message] log]; cbn;
    rewrite ?app_nil_r; reflexivity.
Qed.

End AddFromSearch.

(** X19: [handleAddMovie] (the version that asks the server for folders
    and profiles) never throws.  Without a root folder, or with folders
    but without a quality profile, it shows one failure toast and does not
    call [addMovie].  Otherwise it calls [addMovie] with the path of the
    first folder and the id of the first profile, monitored and searching,
    and the user sees two toasts of one style: two successes when the
    movie was added, two failures when it was not. *)
Theorem handleAddMovie_outcomes
    (JSON_parse : string -> Outcome JsValue) (JSON_stringify : JsValue -> string)
    (fetch : Request -> Outcome Response)
    (formatMovieTitle : list (string * JsValue) -> string)
    (instance : RadarrInstance) (movie : list (string * JsValue))
    (loaded : Outcome (list RootFolder * list QualityProfile)) :
  let run :=
    handleAddMovie JSON_parse JSON_stringify fetch formatMovieTitle instance movie loaded in
  fst run = Return tt
  /\ (forall qualityProfiles,
        loaded = Return ([], qualityProfiles) ->
        snd run = [ ShowToast Failure "No Root Folders"
                      "Please configure root folders in Radarr first" ])
  /\ (forall rootFolder rootFolders,
        loaded = Return (rootFolder :: rootFolders, []) ->
        snd run = [ ShowToast Failure "No Quality Profiles"
                      "Please configure quality profiles in Radarr first" ])
  /\ (forall rootFolder rootFolders qualityProfile qualityProfiles,
        loaded = Return (rootFolder :: rootFolders, qualityProfile :: qualityProfiles) ->
        let attempt :=
          addMovie JSON_parse JSON_stringify fetch instance movie
            (profile_id qualityProfile) (folder_path rootFolder) true true in
        (exists shown, snd run = snd attempt ++ shown)
        /\ ((exists added, fst attempt = Return added)
            -> toast_styles (snd run) = [ Success; Success ])
        /\ ((exists message, fst attempt = Throw message)
            -> toast_styles (snd run) = [ Failure; Failure ])).
Proof.
  intros run. unfold run. split; [|split; [|split]].
  - destruct loaded as [[[|rootFolder rootFolders] [|qualityProfile qualityProfiles]]|message];
      try reflexivity.
    rewrite handleAddMovie_attempt, addMovie_run.
    destruct (bind _ _) as [added|message]; reflexivity.
  - intros qualityProfiles ->. reflexivity.
  - intros rootFolder rootFolders ->. reflexivity.
  - intros rootFolder rootFolders qualityProfile qualityProfiles ->.
    rewrite handleAddMovie_attempt, addMovie_run.
    destruct (bind _ _) as [added|message]; cbn [fst snd].
    + split; [eauto|]. split; [reflexivity|]. intros [message Habsurd]. discriminate.
    + split; [eauto|]. split; [|reflexivity]. intros [added Habsurd]. discriminate.
Qed.

(** X20: the debounced search of the second version does not search when
    the text is blank or when the instance has an empty URL or API key (as
    the placeholder instance has): the results are emptied, the searching
    flag is left as it was, nothing is shown, and the network plays no
    part.  When it does search, the flag ends [false], and a failed search
    leaves empty results. *)
Theorem search_is_skipped_when_blank
    (JSON_parse : string -> Outcome JsValue) (encodeURIComponent : string -> string)
    (fetch : Request -> Outcome Response)
    (state : SearchState) (instance : RadarrInstance) (searchText : string) :
  let run := search_after_typing JSON_parse encodeURIComponent fetch state instance
               searchText in
  (all_white_space searchText = true \/ url instance = EmptyString
   \/ apiKey instance = EmptyString ->
   run = ({| searchResults := JsArray []; isSearching := isSearching state |}, [])
   /\ forall fetch' : Request -> Outcome Response,
        search_after_typing JSON_parse encodeURIComponent fetch' state instance searchText
        = run)
  /\ (all_white_space searchText = false -> url instance <> EmptyString ->
      apiKey instance <> EmptyString ->
      isSearching (fst run) = false
      /\ (forall message,
            fst (searchMovies JSON_parse encodeURIComponent fetch instance searchText)
            = Throw message ->
            searchResults (fst run) = JsArray [])
      /\ (forall results,
            fst (searchMovies JSON_parse encodeURIComponent fetch instance searchText)
            = Return results ->
            searchResults (fst run) = results)).
Proof.
  intros run. unfold run, search_after_typing. rewrite trim_truthy, negb_involutive.
  split.
  - intros Hskip.
    assert (Hguard : all_white_space searchText || negb (truthy (url instance))
                     || negb (truthy (apiKey instance)) = true).
    { destruct Hskip as [H|[H|H]]; rewrite H; cbn; rewrite ?orb_true_r; reflexivity. }
    rewrite Hguard. split; [reflexivity|]. intros fetch'. reflexivity.
  - intros Htext Hurl Hkey. apply truthy_true in Hurl, Hkey.
    rewrite Htext, Hurl, Hkey. cbn [negb orb]. unfold search_settled.
    destruct (searchMovies JSON_parse encodeURIComponent fetch instance searchText)
      as [[results|message] log]; cbn [fst searchResults isSearching].
    + split; [reflexivity|]. split; [discriminate|]. intros results' [= <-]. reflexivity.
    + split; [reflexivity|]. split; [reflexivity|]. discriminate.
Qed.

Example search_runs :
  search_after_typing Json.parse percent_encode lookup_server
    (mkSearchState JsNull true) placeholder_instance "dune"
  = (mkSearchState (JsArray []) true, [])
  /\ search_after_typing Json.parse percent_encode lookup_server
       (mkSearchState JsNull true) main_instance "dune 2021"
     = (mkSearchState (JsArray [ JsObject dune_lookup ]) false, [])
  /\ request_url (searchMovies_request percent_encode main_instance "dune 2021")
     = "http://localhost:7878/api/v3/movie/lookup?term=dune%202021"
  /\ search_after_typing_v1 Json.parse percent_encode unreachable_server
       (mkSearchState JsNull true) placeholder_instance "dune"
     = (mkSearchState (JsArray []) false,
        reported "Movie search error:" "Search Failed"
          "Failed to search movies: fetch failed" "fetch failed"
        ++ [ ConsoleError "Search error:" "fetch failed" ]).
Proof. vm_compute. repeat split. Qed.

(** ** What a view holds when it mounts *)

Lemma resolved_default_of (configuration : Configuration) :
  resolved_default configuration
  = (resolved <- resolved_instances configuration ;; defaultOf resolved)%outcome.
Proof. destruct configuration; reflexivity. Qed.

Lemma defaultOf_throws_iff (resolved : list RadarrInstance) :
  (exists message, defaultOf resolved = Throw message) <-> resolved = [].
Proof.
  pose proof (defaultOf_contract resolved) as Hcontract.
  destruct resolved as [|first rest].
  - split; [reflexivity|]. intros _. eauto.
  - destruct Hcontract as (chosen & Hchosen & _). rewrite Hchosen.
    split; [intros [message Habsurd]|intros Habsurd]; discriminate.
Qed.

(** X21: mounting a view never throws.  The instance it holds is the
    placeholder (empty name, URL and key) exactly when its list of
    instances is empty, which is when the view renders the no-instances
    empty state; [getDefaultRadarrInstance] has then thrown, and the view
    has written one console line and shown one failure toast titled
    [Configuration Error] that carries the message thrown.  Otherwise
    the instance held is one of the listed instances and nothing is
    written or shown.  The list is the resolved one, or empty after one
    console line when resolution throws. *)
Theorem mounted_view_instance (configuration : Configuration) :
  exists instance instances,
    fst (initial_instance configuration) = Return instance
    /\ fst (listed_instances configuration) = Return instances
    /\ (instances = [] ->
        instance = placeholder_instance
        /\ exists message,
             resolved_default configuration = Throw message
             /\ snd (initial_instance configuration)
                = [ ConsoleError "Failed to get default instance:" message;
                    ShowToast Failure "Configuration Error" message ])
    /\ (instances <> [] ->
        In instance instances
        /\ snd (initial_instance configuration) = []
        /\ snd (listed_instances configuration) = [])
    /\ (forall resolved,
          resolved_instances configuration = Return resolved ->
          instances = resolved /\ snd (listed_instances configuration) = [])
    /\ (forall message,
          resolved_instances configuration = Throw message ->
          instances = []
          /\ snd (listed_instances configuration)
             = [ ConsoleError "Failed to get instances:" message ]).
Proof.
  unfold initial_instance, listed_instances. rewrite resolved_default_of.
  destruct (resolved_instances configuration) as [resolved|message];
    cbn [bind quiet try_logged then_logged emit fst snd].
  - destruct (defaultOf resolved) as [chosen|message] eqn:Hchosen; cbn [fst snd].
    + exists chosen, resolved.
      split; [reflexivity|]. split; [reflexivity|]. split; [|split; [|split]].
      * intros Hempty. apply (proj2 (defaultOf_throws_iff resolved)) in Hempty.
        destruct Hempty as [message Hthrow]. congruence.
      * intros _. split; [exact (defaultOf_member _ _ Hchosen)|]. split; reflexivity.
      * intros same [= <-]. split; reflexivity.
      * intros message Habsurd. discriminate Habsurd.
    + exists placeholder_instance, resolved.
      split; [reflexivity|]. split; [reflexivity|]. split; [|split; [|split]].
      * intros _. split; [reflexivity|]. exists message. split; reflexivity.
      * intros Hnonempty. exfalso. apply Hnonempty. apply defaultOf_throws_iff. eauto.
      * intros same [= <-]. split; reflexivity.
      * intros other Habsurd. discriminate Habsurd.
  - exists placeholder_instance, [].
    split; [reflexivity|]. split; [reflexivity|]. split; [|split; [|split]].
    + intros _. split; [reflexivity|]. exists message. split; reflexivity.
    + intros Habsurd. congruence.
    + intros resolved Habsurd. discriminate Habsurd.
    + intros same [= <-]. split; reflexivity.
Qed.

(** ** The download queue: status display and progress *)

(** X22: in the download queue the icon and the colour of an item never
    disagree: the icon is the one that goes with the colour (red cross,
    yellow exclamation mark, blue download, green check, grey clock).  A
    tracked status [error] is red and [warning] is yellow whatever the
    download status is. *)
Theorem queue_icon_matches_color (status trackedDownloadStatus : string) :
  getStatusIcon status trackedDownloadStatus
  = icon_of_color (getStatusColor status trackedDownloadStatus)
  /\ (trackedDownloadStatus = "error" ->
      getStatusColor status trackedDownloadStatus = Color_Red)
  /\ (trackedDownloadStatus = "warning" ->
      getStatusColor status trackedDownloadStatus = Color_Yellow)
  /\ (getStatusColor status trackedDownloadStatus = Color_Green ->
      status = "completed" /\ trackedDownloadStatus <> "error"
      /\ trackedDownloadStatus <> "warning").
Proof.
  unfold getStatusIcon, getStatusColor.
  destruct (String.eqb_spec trackedDownloadStatus "error") as [Herror|Herror];
    destruct (String.eqb_spec trackedDownloadStatus "warning") as [Hwarning|Hwarning];
    destruct (String.eqb_spec status "downloading") as [Hdown|Hdown];
    destruct (String.eqb_spec status "completed") as [Hdone|Hdone];
    repeat split; try reflexivity; try congruence; try discriminate; auto.
Qed.

Lemma Qfloor_between (q : Q) (low high : Z) :
  (inject_Z low <= q)%Q -> (q < inject_Z high + 1)%Q -> low <= Qfloor q <= high.
Proof.
  intros Hlow Hhigh. split.
  - rewrite <- (Qfloor_Z low). apply Qfloor_resp_le. exact Hlow.
  - pose proof (Qfloor_le q) as Hfloor.
    assert (Hlt : (inject_Z (Qfloor q) < inject_Z (high + 1))%Q).
    { rewrite inject_Z_plus. change (inject_Z 1) with 1%Q. lra. }
    rewrite <- Zlt_Qlt in Hlt. lia.
Qed.

(** A quantity between 0 and a whole number below [2^53] is rounded to a
    double in the same range. *)
Lemma binary64_bounded (q : Q) (a : Z) :
  0 < a < 2 ^ 53 -> (0 <= q <= inject_Z a)%Q ->
  exists r, binary64 q = Finite r /\ (0 <= r <= inject_Z a)%Q.
Proof.
  intros Ha Hq. pose proof (nearest_double_bounded q a Ha Hq) as Hr.
  exists (Qred (nearest_double q)). split.
  - apply binary64_finite. rewrite Qabs_pos by tauto.
    apply (Qle_lt_trans _ (inject_Z a)); [tauto|].
    apply (Qlt_trans _ (inject_Z (2 ^ 53))); [rewrite <- Zlt_Qlt; lia|reflexivity].
  - pose proof (Qred_correct (nearest_double q)) as Hred.
    set (reduced := Qred (nearest_double q)) in *. set (r := nearest_double q) in *.
    set (bound := inject_Z a) in *. clearbody reduced r bound. clear - Hr Hred. lra.
Qed.

Lemma whole_injective (a b : Z) : Finite (inject_Z a) = Finite (inject_Z b) -> a = b.
Proof. intros Hsame. injection Hsame as Hsame. exact Hsame. Qed.

(** X23: for a queue item whose [size] is a positive whole number below
    [2^53] and whose [sizeleft] lies between 0 and [size], the percentage
    that [formatProgress] prints, computed with doubles, is a whole number
    from 0 to 100; it is 100 when nothing is left and 0 when everything
    is. *)
Theorem progress_percentage_in_range (item : QueueItem) :
  0 < size item < 2 ^ 53 ->
  0 <= sizeleft item <= size item ->
  exists p : Z,
    percentage item = Finite (inject_Z p)
    /\ 0 <= p <= 100
    /\ (sizeleft item = 0 -> p = 100)
    /\ (sizeleft item = size item -> p = 0).
Proof.
  intros Hsize Hleft.
  assert (Hs : (0 < inject_Z (size item))%Q).
  { change 0%Q with (inject_Z 0). rewrite <- Zlt_Qlt. lia. }
  assert (Hratio : (0 <= inject_Z (downloaded item) / inject_Z (size item) <= inject_Z 1)%Q).
  { unfold downloaded. split.
    - apply Qle_shift_div_l; [exact Hs|]. rewrite Qmult_0_l.
      change 0%Q with (inject_Z 0). rewrite <- Zle_Qle. lia.
    - apply Qle_shift_div_r; [exact Hs|]. rewrite Qmult_1_l. rewrite <- Zle_Qle. lia. }
  destruct (binary64_bounded _ 1 ltac:(lia) Hratio) as (ratio & Hdivide & Hratio').
  assert (Hproduct : (0 <= ratio * inject_Z 100 <= inject_Z 100)%Q).
  { change (inject_Z 100) with 100%Q. change (inject_Z 1) with 1%Q in Hratio'.
    clear - Hratio'. split; lra. }
  destruct (binary64_bounded _ 100 ltac:(lia) Hproduct) as (product & Htimes & Hproduct').
  assert (Hpercentage :
            percentage item = Finite (inject_Z (Qfloor (product + (1 # 2))))).
  { unfold percentage, divide.
    destruct (Z.eqb_spec (size item) 0) as [Hzero|_]; [lia|].
    rewrite Hdivide. cbn [times]. rewrite Htimes. reflexivity. }
  exists (Qfloor (product + (1 # 2))). split; [exact Hpercentage|]. split; [|split].
  - change (inject_Z 100) with 100%Q in Hproduct'. apply Qfloor_between.
    + change (inject_Z 0) with 0%Q. clear - Hproduct'. lra.
    + change (inject_Z 100) with 100%Q. clear - Hproduct'. lra.
  - intros Hnone.
    assert (Hfull : percentage item = Finite (inject_Z 100)).
    { unfold percentage, divide, downloaded.
      destruct (Z.eqb_spec (size item) 0) as [Hzero|_]; [lia|].
      rewrite (binary64_comp _ 1); [reflexivity|].
      rewrite Hnone, Z.sub_0_r. field. clear - Hs. intros Hzero. rewrite Hzero in Hs.
      discriminate. }
    rewrite Hfull in Hpercentage. apply whole_injective in Hpercentage. lia.
  - intros Hall.
    assert (Hempty : percentage item = Finite (inject_Z 0)).
    { unfold percentage, divide, downloaded.
      destruct (Z.eqb_spec (size item) 0) as [Hzero|_]; [lia|].
      rewrite (binary64_comp _ 0); [reflexivity|].
      rewrite Hall, Z.sub_diag. unfold Qdiv. change (inject_Z 0) with 0%Q. ring. }
    rewrite Hempty in Hpercentage. apply whole_injective in Hpercentage. lia.
Qed.

Lemma progress_percentage_in_range_witness :
  exists p : Z,
    percentage three_quarters_done = Finite (inject_Z p)
    /\ 0 <= p <= 100
    /\ (sizeleft three_quarters_done = 0 -> p = 100)
    /\ (sizeleft three_quarters_done = size three_quarters_done -> p = 0).
Proof.
  apply (progress_percentage_in_range three_quarters_done); cbn; lia.
Defined.

(** ** Missing movies: colour, circle and release line *)







(** The two readings one millisecond apart, around the release instant:
    the list shows Upcoming in red. *)
Example list_item_released_between_readings :
  movieListItem IsoDate.parse (noon_2024_06_01 - MS_PER_DAY - 1)
    (noon_2024_06_01 - MS_PER_DAY) released_yesterday
  = ("Upcoming", Color_Red).
Proof. reflexivity. Qed.

Lemma add_segment_truthy (info segment : string) :
  truthy segment = true -> truthy (add_segment info segment) = true.
Proof.
  unfold add_segment. destruct info as [|c info]; cbn [truthy].
  - intros H. exact H.
  - intros _. reflexivity.
Qed.

(** X26: the release line of a missing movie is empty exactly when the
    movie has none of the three release dates.  When the three dates are
    one and the same, the line shows it once, as the cinema date. *)
Theorem release_line_empty_iff_no_date
    (formatReleaseDate : string -> string) (movie : Movie) :
  (releaseInfo formatReleaseDate movie = EmptyString <-> no_release_date movie = true)
  /\ (forall date,
        given (inCinemas movie) date -> digitalRelease movie = Some date ->
        physicalRelease movie = Some date ->
        releaseInfo formatReleaseDate movie = "Cinema: " +:+ formatReleaseDate date).
Proof.
  split.
  - unfold releaseInfo, no_release_date. cbv zeta.
    destruct (inCinemas movie) as [[|c1 s1]|];
      destruct (digitalRelease movie) as [[|c2 s2]|];
      destruct (physicalRelease movie) as [[|c3 s3]|];
      cbn [truthy_opt truthy value_of default from_option id differs andb negb
           String.eqb];
      try (split; reflexivity);
      (split; [|discriminate]);
      repeat match goal with
             | |- context [if ?b then _ else _] => destruct b
             end;
      intros H; exfalso;
      try (apply truthy_false in H;
           rewrite add_segment_truthy in H by reflexivity; discriminate H);
      discriminate H.
  - intros date Hcinema Hdigital Hphysical.
    destruct Hcinema as [Hcinema Hdate]. apply truthy_true in Hdate.
    unfold releaseInfo. rewrite Hcinema, Hdigital, Hphysical. cbv zeta.
    cbn [truthy_opt value_of default from_option id differs].
    rewrite Hdate, String.eqb_refl. reflexivity.
Qed.

(** ** The library and unmonitored grids *)

Lemma filter_partition_length {A : Type} (test : A -> bool) (l : list A) :
  (length (List.filter test l) + length (List.filter (fun x => negb (test x)) l))%nat
  = length l.
Proof.
  induction l as [|x l IH]; [reflexivity|].
  cbn [List.filter]. destruct (test x); cbn [negb length]; lia.
Qed.

(** X27: in the movie library the filters split what was loaded: every
    loaded movie is shown under Available or under Missing and never under
    both, the two counts add up to the count under All, and All shows
    every loaded movie; before anything is loaded every filter shows the
    empty list. *)
Theorem library_filters_partition (movies : list Movie) :
  library_filtered filter_all (Some movies) = movies
  /\ (length (library_filtered filter_available (Some movies))
      + length (library_filtered filter_missing (Some movies)))%nat
     = length movies
  /\ (forall movie,
        In movie movies ->
        (In movie (library_filtered filter_available (Some movies)) /\ hasFile movie = true)
        \/ (In movie (library_filtered filter_missing (Some movies))
            /\ hasFile movie = false))
  /\ (forall movie,
        ~ (In movie (library_filtered filter_available (Some movies))
           /\ In movie (library_filtered filter_missing (Some movies))))
  /\ (forall fileStatusFilter, library_filtered fileStatusFilter None = []).
Proof.
  unfold library_filtered. split; [|split; [|split; [|split]]].
  - induction movies as [|movie rest IH]; [reflexivity|].
    cbn [List.filter passes]. f_equal. exact IH.
  - exact (filter_partition_length hasFile movies).
  - intros movie Hin. destruct (hasFile movie) eqn:Hfile; [left|right];
      (split; [|reflexivity]); apply List.filter_In; cbn [passes];
      rewrite Hfile; auto.
  - intros movie [Havailable Hmissing].
    apply List.filter_In in Havailable, Hmissing. cbn [passes] in *.
    destruct Havailable as [_ Hyes]. destruct Hmissing as [_ Hno].
    rewrite Hyes in Hno. discriminate.
  - intros []; reflexivity.
Qed.

(** X28: the unmonitored grid never shows a monitored movie, whatever the
    filter; under All it shows every unmonitored movie that was loaded,
    and under Available or Missing those of them with, respectively
    without, a file. *)
Theorem unmonitored_grid_membership
    (availabilityFilter : FileStatusFilter) (movies : list Movie) (movie : Movie) :
  In movie (unmonitored_filtered availabilityFilter (Some movies))
  <-> In movie movies
      /\ monitored movie = false
      /\ match availabilityFilter with
         | filter_all => True
         | filter_available => hasFile movie = true
         | filter_missing => hasFile movie = false
         end.
Proof.
  unfold unmonitored_filtered, unmonitoredMovies.
  rewrite !List.filter_In, negb_true_iff.
  destruct availabilityFilter; cbn [passes]; rewrite ?negb_true_iff; tauto.
Qed.

(** ** The hook over the selection store *)

(** X29: with a host JSON that reads back what it writes for the instance,
    the state that [switchToInstance] sets at once is the state a reload
    would find, as long as the configuration still has the instance:
    [loadCurrentInstance] after the switch leaves the instance and the
    override flag as the switch set them and the store unchanged.  If the
    configuration no longer has the instance, the reload empties the slot
    and shows the default with the flag cleared; if moreover the default
    cannot be resolved, the instance becomes [null] and the flag is left
    as it was. *)
Theorem switched_state_survives_reload
    (JSON_parse : string -> Outcome JsValue) (JSON_stringify : JsValue -> string)
    {Preferences : Type} (resolver : Preferences -> Outcome (list RadarrInstance))
    (preferences : Preferences) (selected : RadarrInstance)
    (state : HookState) (storage : gmap string string) :
  JSON_parse (JSON_stringify (js_of_instance selected)) = Return (js_of_instance selected) ->
  truthy (JSON_stringify (js_of_instance selected)) = true ->
  exists switched stored,
    switchToInstance JSON_stringify selected state storage = (Return switched, stored)
    /\ currentInstance switched = Some (js_of_instance selected)
    /\ hasOverride switched = true
    /\ (still_configured resolver preferences selected ->
        loadCurrentInstance JSON_parse resolver preferences switched stored
        = ({| currentInstance := Some (js_of_instance selected); isLoading := false;
              hasOverride := true |}, stored))
    /\ (~ still_configured resolver preferences selected ->
        snd (loadCurrentInstance JSON_parse resolver preferences switched stored)
        = delete SELECTED_INSTANCE_KEY stored
        /\ (forall fallback,
              configured_default resolver preferences = Return fallback ->
              fst (loadCurrentInstance JSON_parse resolver preferences switched stored)
              = {| currentInstance := Some fallback; isLoading := false;
                   hasOverride := false |})
        /\ (forall message,
              configured_default resolver preferences = Throw message ->
              fst (loadCurrentInstance JSON_parse resolver preferences switched stored)
              = {| currentInstance := None; isLoading := false;
                   hasOverride := true |})).
Proof.
  intros Hroundtrip Htext.
  unfold switchToInstance, setCurrentInstance, LocalStorage_setItem.
  eexists. eexists. split; [reflexivity|]. cbn [currentInstance hasOverride].
  split; [reflexivity|]. split; [reflexivity|].
  set (stored := <[SELECTED_INSTANCE_KEY := JSON_stringify (js_of_instance selected)]>
                   storage).
  assert (Hslot : stored !! SELECTED_INSTANCE_KEY
                  = Some (JSON_stringify (js_of_instance selected)))
    by apply lookup_insert_eq.
  destruct (getCurrentInstance_on_override JSON_parse resolver preferences selected
              stored _ Hslot Htext Hroundtrip) as [Hkept Hdropped].
  unfold loadCurrentInstance. split.
  - intros Hconfigured. rewrite (Hkept Hconfigured), hasInstanceOverride_reads, Hslot.
    cbn [truthy_opt]. rewrite Htext. reflexivity.
  - intros Hgone. rewrite (Hdropped Hgone).
    destruct (configured_default resolver preferences) as [fallback|message].
    + rewrite hasInstanceOverride_reads, lookup_delete_eq. cbn [truthy_opt fst snd].
      split; [reflexivity|]. split; [intros ? [= <-]; reflexivity|discriminate].
    + cbn [fst snd hasOverride].
      split; [reflexivity|]. split; [discriminate|reflexivity].
Qed.

Lemma switched_state_survives_reload_witness :
  exists switched stored,
    switchToInstance Json.stringify uhd_instance (mkHookState None true false) ∅
    = (Return switched, stored)
    /\ currentInstance switched = Some (js_of_instance uhd_instance)
    /\ hasOverride switched = true
    /\ (still_configured StaticConfig.getRadarrInstances main_and_4k uhd_instance ->
        loadCurrentInstance Json.parse StaticConfig.getRadarrInstances main_and_4k
          switched stored
        = ({| currentInstance := Some (js_of_instance uhd_instance); isLoading := false;
              hasOverride := true |}, stored))
    /\ (~ still_configured StaticConfig.getRadarrInstances main_and_4k uhd_instance ->
        snd (loadCurrentInstance Json.parse StaticConfig.getRadarrInstances main_and_4k
               switched stored)
        = delete SELECTED_INSTANCE_KEY stored
        /\ (forall fallback,
              configured_default StaticConfig.getRadarrInstances main_and_4k
              = Return fallback ->
              fst (loadCurrentInstance Json.parse StaticConfig.getRadarrInstances
                     main_and_4k switched stored)
              = {| currentInstance := Some fallback; isLoading := false;
                   hasOverride := false |})
        /\ (forall message,
              configured_default StaticConfig.getRadarrInstances main_and_4k
              = Throw message ->
              fst (loadCurrentInstance Json.parse StaticConfig.getRadarrInstances
                     main_and_4k switched stored)
              = {| currentInstance := None; isLoading := false;
                   hasOverride := true |})).
Proof.
  apply (switched_state_survives_reload Json.parse Json.stringify
           StaticConfig.getRadarrInstances main_and_4k uhd_instance
           (mkHookState None true false) ∅).
  - vm_compute. reflexivity.
  - vm_compute. reflexivity.
Defined.

(** X30: resetting to the preferences empties the slot and reloads: the
    hook then shows the default of the configuration with the override
    flag cleared and loading finished; it never throws. *)
Theorem reset_shows_default
    (JSON_parse : string -> Outcome JsValue)
    {Preferences : Type} (resolver : Preferences -> Outcome (list RadarrInstance))
    (preferences : Preferences) (state : HookState) (storage : gmap string string)
    (fallback : JsValue) :
  configured_default resolver preferences = Return fallback ->
  resetToPreferences JSON_parse resolver preferences state storage
  = (Return {| currentInstance := Some fallback; isLoading := false;
               hasOverride := false |},
     delete SELECTED_INSTANCE_KEY storage).
Proof.
  intros Hfallback.
  unfold resetToPreferences, clearInstanceOverride, LocalStorage_removeItem,
    loadCurrentInstance.
  rewrite getCurrentInstance_cleared.
  rewrite Hfallback, hasInstanceOverride_reads, lookup_delete_eq. reflexivity.
Qed.

Lemma reset_shows_default_witness :
  resetToPreferences Json.parse StaticConfig.getRadarrInstances main_and_4k
    (mkHookState None true true)
    (snd (setCurrentInstance Json.stringify uhd_instance ∅))
  = (Return {| currentInstance := Some (js_of_instance main_instance);
               isLoading := false; hasOverride := false |},
     delete SELECTED_INSTANCE_KEY (snd (setCurrentInstance Json.stringify uhd_instance ∅))).
Proof.
  apply (reset_shows_default Json.parse StaticConfig.getRadarrInstances main_and_4k
           (mkHookState None true true)
           (snd (setCurrentInstance Json.stringify uhd_instance ∅))
           (js_of_instance main_instance)).
  reflexivity.
Defined.

Example handleAddMovie_fixed_runs :
  handleAddMovie_fixed Json.parse Json.stringify creating_server title_of
    main_instance dune_lookup
  = (Return tt,
     [ ShowToast Success "Movie Added" "Dune (2021) added to Main";
       ShowToast Success "Movie Added" "Dune added successfully" ])
  /\ toast_styles
       (snd (handleAddMovie_fixed Json.parse Json.stringify rejecting_server title_of
               main_instance dune_lookup))
     = [ Failure ]
  /\ fst (handleAddMovie_fixed Json.parse Json.stringify unreachable_server title_of
            main_instance dune_lookup)
     = Return tt.
Proof. vm_compute. repeat split. Qed.
